(** * edony-ink/log: the formatting and dispatch pipeline of [log.go]

    A shallow embedding of [log.go] (package [log]) and of the parts of the Go
    standard library and of logrus that it calls, followed by the properties of
    the specification that were checked against it.

    Go strings are byte strings: they are modelled by [string] (a list of
    8-bit [ascii]); [[]byte] by [list Byte.byte]; [logrus.Level] (a [uint32])
    by [N]; pointers by addresses into explicit stores, [nil] by [None]. *)

From Stdlib Require Import ZArith NArith List Lia.
From Stdlib Require Import Strings.String Strings.Ascii Strings.Byte Numbers.DecimalString.
From stdpp Require Import base option gmap.
Import ListNotations.

Local Open Scope string_scope.

Abbreviation bytes := (list Byte.byte).
Notation "s +:+ t" := (String.append s t) (at level 60, right associativity).
#[local] Arguments String.append : simpl nomatch.

(** ** Package [strings] of the Go standard library *)
Module strings.

(** [strings.HasPrefix(s, prefix)] *)
Fixpoint HasPrefix (s prefix : string) : bool :=
  match prefix, s with
  | EmptyString, _ => true
  | String a prefix', String b s' => Ascii.eqb a b && HasPrefix s' prefix'
  | String _ _, EmptyString => false
  end.

(** [s[n:]] and [s[:n]] *)
Fixpoint drop (n : nat) (s : string) : string :=
  match n, s with
  | O, _ => s
  | S n', String _ s' => drop n' s'
  | S _, EmptyString => EmptyString
  end.

Fixpoint take (n : nat) (s : string) : string :=
  match n, s with
  | O, _ => EmptyString
  | S n', String c s' => String c (take n' s')
  | S _, EmptyString => EmptyString
  end.

(** [strings.Index(s, substr)]: the offset of the first instance of
    [substr] in [s]; Go's [-1] is [None]. *)
Fixpoint Index (s substr : string) : option nat :=
  if HasPrefix s substr then Some O
  else match s with
       | EmptyString => None
       | String _ s' => option_map S (Index s' substr)
       end.

(** [strings.Replace(s, old, new, n)] for [n >= 0]: the first [n]
    non-overlapping instances of [old] are replaced.  [log.go] only calls it
    with [n = 1] and a non-empty [old]; for an empty [old] the model is exact
    for [n <= 1]. *)
Fixpoint Replace (s old new : string) (n : nat) : string :=
  match n with
  | O => s
  | S n' =>
      match Index s old with
      | None => s
      | Some i =>
          take i s +:+ new +:+ Replace (drop (i + String.length old) s) old new n'
      end
  end.

(** The loop of [genSplit]: at most [n] cuts, the rest of [s] is the last
    element. *)
Fixpoint genSplit (s sep : string) (n : nat) : list string :=
  match n with
  | O => [s]
  | S n' =>
      match Index s sep with
      | None => [s]
      | Some m => take m s :: genSplit (drop (m + String.length sep) s) sep n'
      end
  end.

Fixpoint explode (s : string) : list string :=
  match s with
  | EmptyString => []
  | String c s' => String c EmptyString :: explode s'
  end.

(** [strings.Split(s, sep)].  A non-empty [sep] occurs at most
    [len(s)] times, so [len(s)] cuts are enough.  For an empty [sep] Go cuts
    after each UTF-8 sequence; the model cuts after each byte ([log.go] never
    passes an empty separator). *)
Definition Split (s sep : string) : list string :=
  if String.eqb sep "" then explode s
  else genSplit s sep (String.length s).

(** [strings.ToUpper] on the ASCII letters; other bytes are kept (Go also maps
    non-ASCII letters, the level names have none). *)
Definition upper_byte (c : ascii) : ascii :=
  let n := N_of_ascii c in
  if (97 <=? n)%N && (n <=? 122)%N then ascii_of_N (n - 32) else c.

Fixpoint ToUpper (s : string) : string :=
  match s with
  | EmptyString => EmptyString
  | String c s' => String (upper_byte c) (ToUpper s')
  end.

(** [strings.TrimPrefix(s, prefix)] *)
Definition TrimPrefix (s prefix : string) : string :=
  if HasPrefix s prefix then drop (String.length prefix) s else s.

(** Whether the byte [c] occurs in [s] ([strings.IndexByte(s, c) >= 0]). *)
Fixpoint has_byte (c : ascii) (s : string) : bool :=
  match s with
  | EmptyString => false
  | String d s' => Ascii.eqb c d || has_byte c s'
  end.

End strings.

(** ** [strconv.FormatInt(i, 10)] *)
Module strconv.

Definition decimal (n : N) : string := NilZero.string_of_uint (N.to_uint n).

Definition FormatInt (i : Z) : string :=
  if (i <? 0)%Z then "-" +:+ decimal (Z.to_N (- i)) else decimal (Z.to_N i).

End strconv.

(** ** Package [path/filepath] (Unix: the separator is ['/'], no volume names) *)
Module filepath.

Definition sep : ascii := "/"%char.

(** The bytes after the last separator, and the bytes up to and including
    it, of a reversed path. *)
Fixpoint rev_last_element (r : list ascii) : list ascii :=
  match r with
  | [] => []
  | c :: r' => if Ascii.eqb c sep then [] else c :: rev_last_element r'
  end.

Fixpoint rev_up_to_sep (r : list ascii) : list ascii :=
  match r with
  | [] => []
  | c :: r' => if Ascii.eqb c sep then r else rev_up_to_sep r'
  end.

Fixpoint strip_sep (r : list ascii) : list ascii :=
  match r with
  | [] => []
  | c :: r' => if Ascii.eqb c sep then strip_sep r' else r
  end.

Definition of_rev (r : list ascii) : string := string_of_list_ascii (rev r).
Definition to_rev (s : string) : list ascii := rev (list_ascii_of_string s).

(** [filepath.Split(path)]: [dir] ends with the last separator, [file] is
    what follows it. *)
Definition Split (path : string) : string * string :=
  (of_rev (rev_up_to_sep (to_rev path)), of_rev (rev_last_element (to_rev path))).

(** [filepath.Base(path)] *)
Definition Base (path : string) : string :=
  if String.eqb path "" then "."
  else
    let r := rev_last_element (strip_sep (to_rev path)) in
    match r with
    | [] => "/"
    | _ => of_rev r
    end.

(** [filepath.Ext(path)]: the suffix of the last element that starts at its
    last dot, or [""]. *)
Fixpoint rev_ext (r acc : list ascii) : list ascii :=
  match r with
  | [] => []
  | c :: r' =>
      if Ascii.eqb c sep then []
      else if Ascii.eqb c "."%char then c :: acc
      else rev_ext r' (c :: acc)
  end.

Definition Ext (path : string) : string :=
  string_of_list_ascii (rev_ext (to_rev path) []).

End filepath.

(** ** Package [time]: the two layouts [log.go] renders with

    A [Time] is given by the civil date and clock that Go computes for it in
    its own location (what [absDate], [absClock] and [locabs] return); the
    fields are Go [int]s, taken as unbounded. *)
Module time.

Inductive Month :=
| January | February | March | April | May | June
| July | August | September | October | November | December.

Definition Month_number (m : Month) : Z :=
  match m with
  | January => 1 | February => 2 | March => 3 | April => 4
  | May => 5 | June => 6 | July => 7 | August => 8
  | September => 9 | October => 10 | November => 11 | December => 12
  end.

Definition Month_String (m : Month) : string :=
  match m with
  | January => "January" | February => "February" | March => "March"
  | April => "April" | May => "May" | June => "June" | July => "July"
  | August => "August" | September => "September" | October => "October"
  | November => "November" | December => "December"
  end.

Record Time := {
  Year : Z;
  Mon : Month;
  Day : Z;
  Hour : Z;
  Minute : Z;
  Second : Z;
  Nanosecond : Z;
  (** seconds east of UTC *)
  ZoneOffset : Z
}.

Definition RFC3339 : string := "2006-01-02T15:04:05Z07:00".
Definition StampMilli : string := "Jan _2 15:04:05.000".

Fixpoint zeros (n : nat) : string :=
  match n with
  | O => ""
  | S n' => String "0" (zeros n')
  end.

(** [appendInt(b, x, width)]: the decimal form of [x], zero-padded to
    [width] digits, after a minus sign when [x] is negative. *)
Definition appendInt (x : Z) (width : nat) : string :=
  let digits := strconv.decimal (Z.to_N (Z.abs x)) in
  let padded := zeros (width - String.length digits) +:+ digits in
  if (x <? 0)%Z then "-" +:+ padded else padded.

(** The zone suffix of layout element [Z07:00]. *)
Definition appendZone (offset : Z) : string :=
  if (offset =? 0)%Z then "Z"
  else
    let zone := Z.quot offset 60 in
    let sign := if (zone <? 0)%Z then "-" else "+" in
    let zone := if (zone <? 0)%Z then (- zone)%Z else zone in
    sign +:+ appendInt (Z.quot zone 60) 2 +:+ ":" +:+ appendInt (Z.rem zone 60) 2.

(** [t.Format(time.RFC3339)] ([appendFormatRFC3339] without nanoseconds) *)
Definition formatRFC3339 (t : Time) : string :=
  appendInt (Year t) 4 +:+ "-" +:+ appendInt (Month_number (Mon t)) 2 +:+ "-"
    +:+ appendInt (Day t) 2 +:+ "T"
    +:+ appendInt (Hour t) 2 +:+ ":" +:+ appendInt (Minute t) 2 +:+ ":"
    +:+ appendInt (Second t) 2 +:+ appendZone (ZoneOffset t).

(** [t.Format(time.StampMilli)], layout ["Jan _2 15:04:05.000"]: the
    three-letter month, the day padded with a space, the clock, and the first
    three of the nine nanosecond digits. *)
Definition formatStampMilli (t : Time) : string :=
  strings.take 3 (Month_String (Mon t)) +:+ " "
    +:+ (if (Day t <? 10)%Z then " " else "") +:+ appendInt (Day t) 0 +:+ " "
    +:+ appendInt (Hour t) 2 +:+ ":" +:+ appendInt (Minute t) 2 +:+ ":"
    +:+ appendInt (Second t) 2 +:+ "." +:+ strings.take 3 (appendInt (Nanosecond t) 9).

(** [t.Format(layout)].  The two layouts of [log.go] are written out; what
    Go renders for any other layout is the parameter [other]. *)
Definition Format (other : Time -> string -> string) (t : Time) (layout : string)
  : string :=
  if String.eqb layout RFC3339 then formatRFC3339 t
  else if String.eqb layout StampMilli then formatStampMilli t
  else other t layout.

End time.

(** ** Values of type [interface{}] *)
Inductive Value :=
| VString (s : string)
| VInt (i : Z)
| VBool (b : bool).

(** [v.(string)] *)
Definition as_string (v : Value) : option string :=
  match v with
  | VString s => Some s
  | _ => None
  end.

(** What the Go runtime and [fmt] supply and the model does not compute:
    [fmt.Sprint], [fmt.Sprintf], the successive readings of [time.Now()],
    [Time.Format] for layouts other than the two above, and [filepath.Dir]. *)
Class GoRuntime := {
  fmt_Sprint : list Value -> string;
  fmt_Sprintf : string -> list Value -> string;
  time_Now : nat -> time.Time;
  time_layout : time.Time -> string -> string;
  filepath_Dir : string -> string
}.

(** A pair [(A, error)] of which one side is set. *)
Inductive result (A : Type) :=
| ok (a : A)
| err (msg : string).
Arguments ok {A} a.
Arguments err {A} msg.

(** ** logrus: levels and entries *)
Module logrus.

(** [type Level uint32] *)
Definition Level := N.

Definition PanicLevel : Level := 0%N.
Definition FatalLevel : Level := 1%N.
Definition ErrorLevel : Level := 2%N.
Definition WarnLevel : Level := 3%N.
Definition InfoLevel : Level := 4%N.
Definition DebugLevel : Level := 5%N.
Definition TraceLevel : Level := 6%N.

(** [level.String()] *)
Definition Level_String (level : Level) : string :=
  match level with
  | 6%N => "trace"
  | 5%N => "debug"
  | 4%N => "info"
  | 3%N => "warning"
  | 2%N => "error"
  | 1%N => "fatal"
  | 0%N => "panic"
  | _ => "unknown"
  end.

Module Entry.
(** The fields of [logrus.Entry] that the formatters read.  [Data] is the
    [Fields] map, listed in the order in which a [range] visits it. *)
Record t := {
  Data : list (string * Value);
  Time : time.Time;
  Level : Level;
  Message : string
}.
End Entry.

End logrus.

(** ** [log.go]: constants *)
Definition newline : string := String "010"%char "".
Definition defaultLogFormat : string := "%time%|%lvl%|%func%(%line%)|%msg%" +:+ newline.
Definition defaultTimestampFormat : string := time.StampMilli.

Definition PanicLevel := logrus.PanicLevel.
Definition FatalLevel := logrus.FatalLevel.
Definition ErrorLevel := logrus.ErrorLevel.
Definition WarnLevel := logrus.WarnLevel.
Definition InfoLevel := logrus.InfoLevel.
Definition DebugLevel := logrus.DebugLevel.

Fixpoint spaces (n : nat) : string :=
  match n with
  | O => ""
  | S n' => String " " (spaces n')
  end.

(** Lines 99-105 of [Format]: the upper-cased level name, left-justified in
    seven columns.  The loop appends [7 - len(level)] spaces. *)
Definition level_token (l : logrus.Level) : string :=
  let level := strings.ToUpper (logrus.Level_String l) in
  if (String.length level <? 7)%nat
  then level +:+ spaces (7 - String.length level)
  else level.

(** ** The template formatter *)
Module Formatter.

Record t := {
  (** promoted from the embedded [logrus.TextFormatter] *)
  TimestampFormat : string;
  LogFormat : string;
  FileName : string;
  FuncName : string
}.

(** [&Formatter{}] *)
Definition zero : t :=
  {| TimestampFormat := ""; LogFormat := ""; FileName := ""; FuncName := "" |}.

(** The loop over [entry.Data]: string-valued fields fill [%key%]. *)
Fixpoint replace_fields (output : string) (data : list (string * Value)) : string :=
  match data with
  | [] => output
  | (k, v) :: data' =>
      match as_string v with
      | Some s => replace_fields (strings.Replace output ("%" +:+ k +:+ "%") s 1) data'
      | None => replace_fields output data'
      end
  end.

Definition Format {RT : GoRuntime} (f : t) (entry : logrus.Entry.t) : result bytes :=
  let output := LogFormat f in
  let output := if String.eqb output "" then defaultLogFormat else output in
  let timestampFormat := TimestampFormat f in
  let timestampFormat :=
    if String.eqb timestampFormat "" then defaultTimestampFormat else timestampFormat in
  let currentDate :=
    strings.Split (time.Format time_layout (logrus.Entry.Time entry) time.RFC3339) "T" in
  if negb (length currentDate =? 2)%nat then err "split date format error"
  else
    let currentTime :=
      strings.Split (time.Format time_layout (logrus.Entry.Time entry) timestampFormat) " " in
    if (length currentTime <? 1)%nat then err "split time format error"
    else
      let output :=
        strings.Replace output "%time%"
          (nth 0 currentDate "" +:+ " " +:+ nth (length currentTime - 1) currentTime "") 1 in
      let output := strings.Replace output "%msg%" (logrus.Entry.Message entry) 1 in
      let level := level_token (logrus.Entry.Level entry) in
      let output := strings.Replace output "%lvl%" level 1 in
      let output := strings.Replace output "%line%" (FileName f) 1 in
      let output := strings.Replace output "%func%" (FuncName f) 1 in
      let output := replace_fields output (logrus.Entry.Data entry) in
      ok (list_byte_of_string output).

End Formatter.

(** ** The raw formatter *)
Module STDFormatter.

Record t := {
  LogFormat : string;
  FileName : string;
  FuncName : string
}.

Definition zero : t := {| LogFormat := ""; FileName := ""; FuncName := "" |}.

Definition Format (f : t) (entry : logrus.Entry.t) : result bytes :=
  let output := "%msg%" +:+ newline in
  let output := strings.Replace output "%msg%" (logrus.Entry.Message entry) 1 in
  ok (list_byte_of_string output).

End STDFormatter.

(** ** The stores: [logrus.Logger] and [SWLog] structs by address *)
Definition addr := nat.

(** An [io.Writer]: [os.Stderr], or the rotating writer that
    [rotatelogs.New(pattern, WithLinkName(link), ...)] returns. *)
Inductive Writer :=
| Stderr
| RotateLogs (pattern linkName : string).

(** A [logrus.Formatter] interface value of [log.go]: its dynamic type and the
    struct it points to (each sink owns its formatter). *)
Inductive FormatterI :=
| PtrFormatter (f : Formatter.t)
| PtrSTDFormatter (f : STDFormatter.t).

(** The fields of [logrus.Logger] that [log.go] sets ([Hooks] stays empty and
    [ExitFunc] stays [nil], that is [os.Exit]). *)
Record Logger := {
  Out : option Writer;
  Formatter : option FormatterI;
  Level : logrus.Level
}.

Definition set_Out (v : option Writer) (l : Logger) : Logger :=
  {| Out := v; Formatter := Formatter l; Level := Level l |}.
Definition set_Formatter (v : option FormatterI) (l : Logger) : Logger :=
  {| Out := Out l; Formatter := v; Level := Level l |}.
Definition set_Level (v : logrus.Level) (l : Logger) : Logger :=
  {| Out := Out l; Formatter := Formatter l; Level := v |}.

Record SWLog := {
  STDLogger : option addr;
  FileLogger : option addr;
  IsLog2STD : bool;
  LogFile : string;
  LogLevel : logrus.Level;
  skip : nat;
  isSetup : bool;
  raw : bool
}.

(** [&SWLog{isSetup: false, raw: false}], the zero value *)
Definition SWLog_zero : SWLog :=
  {| STDLogger := None; FileLogger := None; IsLog2STD := false; LogFile := "";
     LogLevel := 0%N; skip := 0; isSetup := false; raw := false |}.

Definition set_STDLogger (v : option addr) (l : SWLog) : SWLog :=
  {| STDLogger := v; FileLogger := FileLogger l; IsLog2STD := IsLog2STD l;
     LogFile := LogFile l; LogLevel := LogLevel l; skip := skip l;
     isSetup := isSetup l; raw := raw l |}.
Definition set_FileLogger (v : option addr) (l : SWLog) : SWLog :=
  {| STDLogger := STDLogger l; FileLogger := v; IsLog2STD := IsLog2STD l;
     LogFile := LogFile l; LogLevel := LogLevel l; skip := skip l;
     isSetup := isSetup l; raw := raw l |}.
Definition set_IsLog2STD (v : bool) (l : SWLog) : SWLog :=
  {| STDLogger := STDLogger l; FileLogger := FileLogger l; IsLog2STD := v;
     LogFile := LogFile l; LogLevel := LogLevel l; skip := skip l;
     isSetup := isSetup l; raw := raw l |}.
Definition set_LogFile (v : string) (l : SWLog) : SWLog :=
  {| STDLogger := STDLogger l; FileLogger := FileLogger l; IsLog2STD := IsLog2STD l;
     LogFile := v; LogLevel := LogLevel l; skip := skip l;
     isSetup := isSetup l; raw := raw l |}.
Definition set_LogLevel (v : logrus.Level) (l : SWLog) : SWLog :=
  {| STDLogger := STDLogger l; FileLogger := FileLogger l; IsLog2STD := IsLog2STD l;
     LogFile := LogFile l; LogLevel := v; skip := skip l;
     isSetup := isSetup l; raw := raw l |}.
Definition set_skip (v : nat) (l : SWLog) : SWLog :=
  {| STDLogger := STDLogger l; FileLogger := FileLogger l; IsLog2STD := IsLog2STD l;
     LogFile := LogFile l; LogLevel := LogLevel l; skip := v;
     isSetup := isSetup l; raw := raw l |}.
Definition set_isSetup (v : bool) (l : SWLog) : SWLog :=
  {| STDLogger := STDLogger l; FileLogger := FileLogger l; IsLog2STD := IsLog2STD l;
     LogFile := LogFile l; LogLevel := LogLevel l; skip := skip l;
     isSetup := v; raw := raw l |}.
Definition set_raw (v : bool) (l : SWLog) : SWLog :=
  {| STDLogger := STDLogger l; FileLogger := FileLogger l; IsLog2STD := IsLog2STD l;
     LogFile := LogFile l; LogLevel := LogLevel l; skip := skip l;
     isSetup := isSetup l; raw := v |}.

(** What the process has done to the outside, oldest first. *)
Inductive Event :=
(** the [logrus.Logger] at [sink] wrote [data] to its [Out] *)
| SinkWrite (sink : addr) (out : Writer) (data : bytes)
(** its formatter failed: logrus reports it on [os.Stderr], nothing is written *)
| FormatFailure (sink : addr) (msg : string)
(** [logrus.Fatal] / [logrus.Fatalf] on logrus's own standard logger *)
| StandardLoggerFatal (msg : string).

Record World := {
  swlogs : gmap addr SWLog;
  loggers : gmap addr Logger;
  (** the next address [&logrus.Logger{...}] gets *)
  next : addr;
  output : list Event;
  (** how many times [time.Now()] was read *)
  ticks : nat
}.

Definition with_swlogs (m : gmap addr SWLog) (w : World) : World :=
  {| swlogs := m; loggers := loggers w; next := next w; output := output w;
     ticks := ticks w |}.
Definition with_loggers (m : gmap addr Logger) (w : World) : World :=
  {| swlogs := swlogs w; loggers := m; next := next w; output := output w;
     ticks := ticks w |}.

(** ** Go control flow: return, panic, [os.Exit] *)
Inductive PanicValue :=
(** runtime error: invalid memory address or nil pointer dereference *)
| NilDereference
(** runtime error: a failed type assertion *)
| InterfaceConversion
(** logrus: [panic(entry)] after a panic-level entry was written *)
| PanicEntry (msg : string).

Inductive Outcome (A : Type) :=
| Returns (a : A) (w : World)
| Panics (v : PanicValue) (w : World)
| Exits (code : Z) (w : World).
Arguments Returns {A} a w.
Arguments Panics {A} v w.
Arguments Exits {A} code w.

Definition world_of {A} (o : Outcome A) : World :=
  match o with
  | Returns _ w | Panics _ w | Exits _ w => w
  end.

Definition Go (A : Type) : Type := World -> Outcome A.

Definition ret {A} (a : A) : Go A := fun w => Returns a w.

Definition bind {A B} (m : Go A) (k : A -> Go B) : Go B :=
  fun w =>
    match m w with
    | Returns a w' => k a w'
    | Panics v w' => Panics v w'
    | Exits c w' => Exits c w'
    end.

Declare Scope go_scope.
Delimit Scope go_scope with go.
Notation "x <- m ;; k" := (bind m (fun x => k))
  (at level 100, m at next level, k at level 200, right associativity) : go_scope.
Notation "m ;; k" := (bind m (fun _ => k))
  (at level 100, k at level 200, right associativity) : go_scope.
Local Open Scope go_scope.

Definition panic {A} (v : PanicValue) : Go A := fun w => Panics v w.
Definition os_Exit {A} (code : Z) : Go A := fun w => Exits code w.

Definition emit (e : Event) : Go unit :=
  fun w =>
    Returns tt {| swlogs := swlogs w; loggers := loggers w; next := next w;
                  output := output w ++ [e]; ticks := ticks w |}.

(** [*p] for a [*SWLog]; an address that holds nothing behaves as [nil]. *)
Definition load_swlog (p : addr) : Go SWLog :=
  fun w =>
    match swlogs w !! p with
    | Some l => Returns l w
    | None => Panics NilDereference w
    end.

(** [p.field = v] *)
Definition modify_swlog (p : addr) (f : SWLog -> SWLog) : Go unit :=
  l <- load_swlog p ;;
  fun w => Returns tt (with_swlogs (<[p := f l]> (swlogs w)) w).

(** Following a [*logrus.Logger] field. *)
Definition deref (q : option addr) : Go addr :=
  match q with
  | Some a => ret a
  | None => panic NilDereference
  end.

Definition load_logger (a : addr) : Go Logger :=
  fun w =>
    match loggers w !! a with
    | Some l => Returns l w
    | None => Panics NilDereference w
    end.

Definition modify_logger (a : addr) (f : Logger -> Logger) : Go unit :=
  l <- load_logger a ;;
  fun w => Returns tt (with_loggers (<[a := f l]> (loggers w)) w).

(** [&logrus.Logger{...}] *)
Definition alloc_logger (l : Logger) : Go addr :=
  fun w =>
    Returns (next w)
      {| swlogs := swlogs w; loggers := <[next w := l]> (loggers w);
         next := S (next w); output := output w; ticks := ticks w |}.

(** [time.Now()] *)
Definition time_Now_read {RT : GoRuntime} : Go time.Time :=
  fun w =>
    Returns (time_Now (ticks w))
      {| swlogs := swlogs w; loggers := loggers w; next := next w;
         output := output w; ticks := S (ticks w) |}.

(** ** logrus: the methods of [*Logger] that [log.go] calls *)

(** [uint32] comparison [a >= b] *)
Definition uint32_ge (a b : N) : bool := (b <=? a)%N.

Definition Logger_render {RT : GoRuntime} (fm : FormatterI) (entry : logrus.Entry.t)
  : result bytes :=
  match fm with
  | PtrFormatter f => Formatter.Format f entry
  | PtrSTDFormatter f => STDFormatter.Format f entry
  end.

(** [entry.write()]: format, then write to [Out]. *)
Definition Entry_write {RT : GoRuntime} (a : addr) (entry : logrus.Entry.t) : Go unit :=
  l <- load_logger a ;;
  match Formatter l with
  | None => panic NilDereference
  | Some fm =>
      match Logger_render fm entry with
      | err msg => emit (FormatFailure a msg)
      | ok serialized =>
          match Out l with
          | None => panic NilDereference
          | Some out => emit (SinkWrite a out serialized)
          end
      end
  end.

(** [logger.Log(level, args...)]: when the sink's own level enables [level],
    a new entry with the current time and the message [fmt.Sprint(args...)] is
    written; a panic-level entry then panics. *)
Definition Logger_Log {RT : GoRuntime} (a : addr) (level : logrus.Level) (args : list Value)
  : Go unit :=
  l <- load_logger a ;;
  if uint32_ge (Level l) level then
    now <- time_Now_read ;;
    Entry_write a {| logrus.Entry.Data := []; logrus.Entry.Time := now;
                     logrus.Entry.Level := level;
                     logrus.Entry.Message := fmt_Sprint args |} ;;
    if (level <=? logrus.PanicLevel)%N then panic (PanicEntry (fmt_Sprint args))
    else ret tt
  else ret tt.

Definition Logger_Debug {RT : GoRuntime} (a : addr) (args : list Value) : Go unit :=
  Logger_Log a logrus.DebugLevel args.
Definition Logger_Info {RT : GoRuntime} (a : addr) (args : list Value) : Go unit :=
  Logger_Log a logrus.InfoLevel args.
Definition Logger_Warn {RT : GoRuntime} (a : addr) (args : list Value) : Go unit :=
  Logger_Log a logrus.WarnLevel args.
Definition Logger_Error {RT : GoRuntime} (a : addr) (args : list Value) : Go unit :=
  Logger_Log a logrus.ErrorLevel args.
(** [logger.Fatal]: logs, then [logger.Exit(1)] whatever the level ("Logs and
    then calls [logger.Exit(1)].  It will exit even if the logging level is
    set to Panic", as [log.go] says of [FatalLevel]). *)
Definition Logger_Fatal {RT : GoRuntime} (a : addr) (args : list Value) : Go unit :=
  Logger_Log a logrus.FatalLevel args ;; os_Exit 1%Z.
(** [logger.Panic]: the panic comes from the entry ("Logs and then calls
    panic with the message", as [log.go] says of [PanicLevel]). *)
Definition Logger_Panic {RT : GoRuntime} (a : addr) (args : list Value) : Go unit :=
  Logger_Log a logrus.PanicLevel args.

Definition Logger_SetLevel (a : addr) (level : logrus.Level) : Go unit :=
  modify_logger a (set_Level level).
Definition Logger_GetLevel (a : addr) : Go logrus.Level :=
  l <- load_logger a ;; ret (Level l).
Definition Logger_SetFormatter (a : addr) (fm : FormatterI) : Go unit :=
  modify_logger a (set_Formatter (Some fm)).
Definition Logger_SetOutput (a : addr) (out : Writer) : Go unit :=
  modify_logger a (set_Out (Some out)).

(** [logrus.Fatal(args...)] and [logrus.Fatalf(format, args...)]: logrus's
    standard logger reports the message and the process exits with status 1. *)
Definition logrus_Fatal {RT : GoRuntime} {A} (args : list Value) : Go A :=
  emit (StandardLoggerFatal (fmt_Sprint args)) ;; os_Exit 1%Z.
Definition logrus_Fatalf {RT : GoRuntime} {A} (format : string) (args : list Value) : Go A :=
  emit (StandardLoggerFatal (fmt_Sprintf format args)) ;; os_Exit 1%Z.

(** ** [log.go]: the methods of [*SWLog] *)

(** An assignment to a field of [q.Formatter] after the type assertion to
    [*Formatter], and its [*STDFormatter] twin: the sink pointer is followed,
    the type assertion checked, the field set. *)
Definition assign_Formatter (q : option addr) (upd : Formatter.t -> Formatter.t)
  : Go unit :=
  a <- deref q ;;
  l <- load_logger a ;;
  match Formatter l with
  | Some (PtrFormatter f) => modify_logger a (set_Formatter (Some (PtrFormatter (upd f))))
  | _ => panic InterfaceConversion
  end.

Definition assign_STDFormatter (q : option addr) (upd : STDFormatter.t -> STDFormatter.t)
  : Go unit :=
  a <- deref q ;;
  l <- load_logger a ;;
  match Formatter l with
  | Some (PtrSTDFormatter f) =>
      modify_logger a (set_Formatter (Some (PtrSTDFormatter (upd f))))
  | _ => panic InterfaceConversion
  end.

Definition Formatter_set_FileName (v : string) (f : Formatter.t) : Formatter.t :=
  {| Formatter.TimestampFormat := Formatter.TimestampFormat f;
     Formatter.LogFormat := Formatter.LogFormat f;
     Formatter.FileName := v; Formatter.FuncName := Formatter.FuncName f |}.
Definition Formatter_set_FuncName (v : string) (f : Formatter.t) : Formatter.t :=
  {| Formatter.TimestampFormat := Formatter.TimestampFormat f;
     Formatter.LogFormat := Formatter.LogFormat f;
     Formatter.FileName := Formatter.FileName f; Formatter.FuncName := v |}.
Definition STDFormatter_set_FileName (v : string) (f : STDFormatter.t) : STDFormatter.t :=
  {| STDFormatter.LogFormat := STDFormatter.LogFormat f;
     STDFormatter.FileName := v; STDFormatter.FuncName := STDFormatter.FuncName f |}.
Definition STDFormatter_set_FuncName (v : string) (f : STDFormatter.t) : STDFormatter.t :=
  {| STDFormatter.LogFormat := STDFormatter.LogFormat f;
     STDFormatter.FileName := STDFormatter.FileName f; STDFormatter.FuncName := v |}.

Definition formatterDecorator (logger : addr) (filename funcname : string) : Go unit :=
  l <- load_swlog logger ;;
  (if raw l then
     assign_STDFormatter (STDLogger l) (STDFormatter_set_FileName filename) ;;
     assign_STDFormatter (STDLogger l) (STDFormatter_set_FuncName funcname)
   else
     assign_Formatter (STDLogger l) (Formatter_set_FileName filename) ;;
     assign_Formatter (STDLogger l) (Formatter_set_FuncName funcname)) ;;
  assign_Formatter (FileLogger l) (Formatter_set_FileName filename) ;;
  assign_Formatter (FileLogger l) (Formatter_set_FuncName funcname).

Definition isLevelEnabled (logger : SWLog) (level : logrus.Level) : bool :=
  uint32_ge (LogLevel logger) level.

(** One [case] of the [switch] in [Log]: the console sink first, when echo is
    on, then the file sink. *)
Definition route (l : SWLog) (method : addr -> list Value -> Go unit) (args : list Value)
  : Go unit :=
  (if IsLog2STD l then (std <- deref (STDLogger l) ;; method std args) else ret tt) ;;
  file <- deref (FileLogger l) ;;
  method file args.

(** The [switch level] of [Log]. *)
Definition dispatch {RT : GoRuntime} (l : SWLog) (level : logrus.Level) (args : list Value)
  : Go unit :=
  if (level =? logrus.PanicLevel)%N then route l Logger_Panic args
  else if (level =? logrus.FatalLevel)%N then route l Logger_Fatal args
  else if (level =? logrus.ErrorLevel)%N then route l Logger_Error args
  else if (level =? logrus.WarnLevel)%N then route l Logger_Warn args
  else if (level =? logrus.InfoLevel)%N then route l Logger_Info args
  else route l Logger_Debug args.

Definition Log {RT : GoRuntime} (logger : addr) (level : logrus.Level)
  (filename funcname : string) (args : list Value) : Go unit :=
  l <- load_swlog logger ;;
  (if negb (isSetup l)
   then logrus_Fatal [VString "log not setup which will cause panic"]
   else ret tt) ;;
  formatterDecorator logger filename funcname ;;
  l <- load_swlog logger ;;
  if isLevelEnabled l level then dispatch l level args
  else ret tt.

Definition Logf {RT : GoRuntime} (logger : addr) (level : logrus.Level)
  (format filename funcname : string) (args : list Value) : Go unit :=
  Log logger level filename funcname [VString (fmt_Sprintf format args)].

(** What [runtime.Caller(skip)] and [runtime.FuncForPC(pc).Name()] report for
    one frame of the stack. *)
Record Frame := {
  Frame_func : string;
  Frame_file : string;
  Frame_line : Z
}.

(** The stack as [runtime.Caller] sees it from inside a wrapper; [None] is
    [ok == false]. *)
Definition CallStack := nat -> option Frame.

(** The block every wrapper starts with: the short function name and
    [dir/file:line] of the frame [skip] levels up, both empty when the frame
    is not available. *)
Definition callerInfo (skip : nat) (stack : CallStack) : string * string :=
  match stack skip with
  | Some fr =>
      let funcname := Frame_func fr in
      let funcname := filepath.Ext funcname in
      let funcname := strings.TrimPrefix funcname "." in
      let '(dir, filename) := filepath.Split (Frame_file fr) in
      let filename :=
        filepath.Base dir +:+ "/" +:+ filepath.Base filename +:+ ":"
          +:+ strconv.FormatInt (Frame_line fr) in
      (filename, funcname)
  | None => ("", "")
  end.

Definition leveled {RT : GoRuntime} (level : logrus.Level) (logger : addr)
  (args : list Value) (stack : CallStack) : Go unit :=
  l <- load_swlog logger ;;
  let '(filename, funcname) := callerInfo (skip l) stack in
  Log logger level filename funcname args.

Definition leveledf {RT : GoRuntime} (level : logrus.Level) (logger : addr)
  (format : string) (args : list Value) (stack : CallStack) : Go unit :=
  l <- load_swlog logger ;;
  let '(filename, funcname) := callerInfo (skip l) stack in
  Logf logger level format filename funcname args.

Definition Debug {RT : GoRuntime} := leveled logrus.DebugLevel.
Definition Info {RT : GoRuntime} := leveled logrus.InfoLevel.
Definition Warn {RT : GoRuntime} := leveled logrus.WarnLevel.
Definition Error {RT : GoRuntime} := leveled logrus.ErrorLevel.
Definition Fatal {RT : GoRuntime} := leveled logrus.FatalLevel.
Definition Panic {RT : GoRuntime} := leveled logrus.PanicLevel.
Definition Debugf {RT : GoRuntime} := leveledf logrus.DebugLevel.
Definition Infof {RT : GoRuntime} := leveledf logrus.InfoLevel.
Definition Warnf {RT : GoRuntime} := leveledf logrus.WarnLevel.
Definition Errorf {RT : GoRuntime} := leveledf logrus.ErrorLevel.
Definition Fatalf {RT : GoRuntime} := leveledf logrus.FatalLevel.
Definition Panicf {RT : GoRuntime} := leveledf logrus.PanicLevel.

(** The package variable [SWLogger] points to the struct at this address. *)
Definition SWLogger : addr := 0.

(** What the operating system answers during [Init]: the result of
    [os.Stat(dir)], and the errors of [os.MkdirAll(dir, 0777)] and of
    [rotatelogs.New(...)] ([None] is a [nil] error). *)
Inductive StatResult :=
| StatOk
| StatError (isExist : bool).

Record InitEnv := {
  os_Stat : StatResult;
  os_MkdirAll : option string;
  rotatelogs_New : option string
}.

Definition Init {RT : GoRuntime} (logger : addr) (logFile : string) (level : logrus.Level)
  (log2STD : bool) (env : InitEnv) (stack : CallStack) : Go unit :=
  l <- load_swlog logger ;;
  if isSetup l then
    Debug logger [VString "no need to setup, swlogger is already setup!"] stack
  else
    modify_swlog logger (set_LogLevel level) ;;
    (if negb (String.eqb logFile "") then modify_swlog logger (set_LogFile logFile)
     else ret tt) ;;
    l <- load_swlog logger ;;
    (if String.eqb (LogFile l) ""
     then logrus_Fatalf "Log file or directory is not set" []
     else ret tt) ;;
    let dir := filepath_Dir (LogFile l) in
    match os_Stat env with
    | StatError isExist =>
        if negb isExist then
          match os_MkdirAll env with
          | Some e => logrus_Fatalf "Fail to mkdir %s; %s" [VString dir; VString e]
          | None => ret tt
          end
        else ret tt
    | StatOk => ret tt
    end ;;
    file <- alloc_logger {| Out := None;
                            Formatter := Some (PtrFormatter Formatter.zero);
                            Level := LogLevel l |} ;;
    modify_swlog logger (set_FileLogger (Some file)) ;;
    match rotatelogs_New env with
    | Some e => logrus_Fatalf "config local file system for logger error: %s" [VString e]
    | None =>
        Logger_SetOutput file (RotateLogs (LogFile l +:+ ".%Y-%m-%d") (LogFile l))
    end ;;
    modify_swlog logger (set_skip 2) ;;
    modify_swlog logger (set_IsLog2STD log2STD) ;;
    global <- load_swlog SWLogger ;;
    std <- alloc_logger {| Out := Some Stderr;
                           Formatter := Some (PtrFormatter Formatter.zero);
                           Level := LogLevel global |} ;;
    modify_swlog logger (set_STDLogger (Some std)) ;;
    modify_swlog logger (set_isSetup true).

Definition SetRawSTDLogging (logger : addr) (isRaw : bool) : Go unit :=
  modify_swlog logger (set_raw isRaw) ;;
  l <- load_swlog logger ;;
  std <- deref (STDLogger l) ;;
  if raw l then Logger_SetFormatter std (PtrSTDFormatter STDFormatter.zero)
  else Logger_SetFormatter std (PtrFormatter Formatter.zero).

(** ** [log.go]: the package-level functions on [SWLogger] *)
Definition SetLogLevel (level : logrus.Level) : Go unit :=
  global <- load_swlog SWLogger ;;
  (if IsLog2STD global
   then (std <- deref (STDLogger global) ;; Logger_SetLevel std level)
   else ret tt) ;;
  global <- load_swlog SWLogger ;;
  file <- deref (FileLogger global) ;;
  Logger_SetLevel file level ;;
  modify_swlog SWLogger (set_LogLevel level).

Definition GetLogLevel : Go logrus.Level :=
  global <- load_swlog SWLogger ;;
  file <- deref (FileLogger global) ;;
  Logger_GetLevel file.

Module facade.
Definition Debug {RT : GoRuntime} := Debug SWLogger.
Definition Info {RT : GoRuntime} := Info SWLogger.
Definition Warn {RT : GoRuntime} := Warn SWLogger.
Definition Error {RT : GoRuntime} := Error SWLogger.
Definition Fatal {RT : GoRuntime} := Fatal SWLogger.
Definition Panic {RT : GoRuntime} := Panic SWLogger.
Definition Debugf {RT : GoRuntime} := Debugf SWLogger.
Definition Infof {RT : GoRuntime} := Infof SWLogger.
Definition Warnf {RT : GoRuntime} := Warnf SWLogger.
Definition Errorf {RT : GoRuntime} := Errorf SWLogger.
Definition Fatalf {RT : GoRuntime} := Fatalf SWLogger.
Definition Panicf {RT : GoRuntime} := Panicf SWLogger.
End facade.

(** ** [log.go]: the table of level names

    [LevelFromStr], a map literal with six distinct keys: the list of its
    pairs, read from the front. *)
Definition LevelFromStr : list (string * logrus.Level) :=
  [("PANIC", PanicLevel); ("FATAL", FatalLevel); ("ERROR", ErrorLevel);
   ("WARN", WarnLevel); ("INFO", InfoLevel); ("DEBUG", DebugLevel)].

(** [v, ok := LevelFromStr[name]] *)
Fixpoint map_lookup (m : list (string * logrus.Level)) (name : string)
  : option logrus.Level :=
  match m with
  | [] => None
  | (k, v) :: m' => if String.eqb k name then Some v else map_lookup m' name
  end.

(** [LevelFromStr[name]]: a missing key reads as the zero value. *)
Definition LevelFromStr_index (name : string) : logrus.Level :=
  match map_lookup LevelFromStr name with
  | Some v => v
  | None => 0%N
  end.

(** The process at load time: [SWLogger] points to a zero [SWLog], no sink
    exists, nothing was written. *)
Definition initial_world : World :=
  {| swlogs := {[ SWLogger := SWLog_zero ]}; loggers := ∅; next := 0;
     output := []; ticks := 0 |}.

(** [&SWLog{}]: a further instance, at an address [p] of the caller's choice. *)
Definition new_SWLog (p : addr) : Go unit :=
  fun w => Returns tt (with_swlogs (<[p := SWLog_zero]> (swlogs w)) w).

(** * Notions used in the statements *)

(** ** The two halves of an RFC 3339 rendering *)
Definition byte_T : ascii := "T"%char.

(** The date and the clock-and-zone halves of the rendering. *)
Definition rfc3339_date (t : time.Time) : string :=
  time.appendInt (time.Year t) 4 +:+ "-"
    +:+ time.appendInt (time.Month_number (time.Mon t)) 2 +:+ "-"
    +:+ time.appendInt (time.Day t) 2.

Definition rfc3339_clock (t : time.Time) : string :=
  time.appendInt (time.Hour t) 2 +:+ ":" +:+ time.appendInt (time.Minute t) 2 +:+ ":"
    +:+ time.appendInt (time.Second t) 2 +:+ time.appendZone (time.ZoneOffset t).

(** The six severities of [log.go]. *)
Definition severities : list logrus.Level :=
  [PanicLevel; FatalLevel; ErrorLevel; WarnLevel; InfoLevel; DebugLevel].

(** ** Instances that were set up

    [std_sink] and [file_sink] follow the two sink pointers of the instance at
    [p].  [initializedb] is the executable check that [p] is in the state
    [Init] leaves it in; [Setup] states the same with every part named. *)
Definition std_sink (w : World) (p : addr) : option Logger :=
  match swlogs w !! p with
  | Some l => match STDLogger l with Some a => loggers w !! a | None => None end
  | None => None
  end.

Definition file_sink (w : World) (p : addr) : option Logger :=
  match swlogs w !! p with
  | Some l => match FileLogger l with Some a => loggers w !! a | None => None end
  | None => None
  end.

Definition is_template (fm : option FormatterI) : bool :=
  match fm with Some (PtrFormatter _) => true | _ => false end.

Definition is_raw (fm : option FormatterI) : bool :=
  match fm with Some (PtrSTDFormatter _) => true | _ => false end.

Definition has_writer (l : Logger) : bool :=
  match Out l with Some _ => true | None => false end.

Definition initializedb (w : World) (p : addr) : bool :=
  match swlogs w !! p with
  | Some l =>
      isSetup l &&
      match STDLogger l, FileLogger l with
      | Some s, Some f =>
          negb (Nat.eqb s f) &&
          match loggers w !! s, loggers w !! f with
          | Some Ls, Some Lf =>
              has_writer Ls && has_writer Lf
              && (if raw l then is_raw (Formatter Ls) else is_template (Formatter Ls))
              && is_template (Formatter Lf)
          | _, _ => false
          end
      | _, _ => false
      end
  | None => false
  end.

Record Setup (w : World) (p : addr) (l : SWLog) (s f : addr) (Ls Lf : Logger)
  (outS outF : Writer) (fmS : FormatterI) (fF : Formatter.t) : Prop := {
  setup_swlog : swlogs w !! p = Some l;
  setup_isSetup : isSetup l = true;
  setup_STDLogger : STDLogger l = Some s;
  setup_FileLogger : FileLogger l = Some f;
  setup_distinct : s <> f;
  setup_std : loggers w !! s = Some Ls;
  setup_file : loggers w !! f = Some Lf;
  setup_std_out : Out Ls = Some outS;
  setup_file_out : Out Lf = Some outF;
  setup_std_formatter : Formatter Ls = Some fmS;
  setup_std_kind : is_raw (Some fmS) = raw l;
  setup_file_formatter : Formatter Lf = Some (PtrFormatter fF)
}.

(** The world after the sinks have emitted [evs], each entry reading the
    clock once. *)
Definition logged (evs : list Event) (w : World) : World :=
  {| swlogs := swlogs w; loggers := loggers w; next := next w;
     output := output w ++ evs; ticks := ticks w + length evs |}.

(** The level at which the method picked by the [switch] logs. *)
Definition method_level (level : logrus.Level) : logrus.Level :=
  if (level =? logrus.PanicLevel)%N then logrus.PanicLevel
  else if (level =? logrus.FatalLevel)%N then logrus.FatalLevel
  else if (level =? logrus.ErrorLevel)%N then logrus.ErrorLevel
  else if (level =? logrus.WarnLevel)%N then logrus.WarnLevel
  else if (level =? logrus.InfoLevel)%N then logrus.InfoLevel
  else logrus.DebugLevel.

(** ** Decorating the formatters

    What [formatterDecorator] does to one formatter, and to the world of an
    instance that is set up. *)
Definition decorate (filename funcname : string) (fm : FormatterI) : FormatterI :=
  match fm with
  | PtrFormatter f =>
      PtrFormatter (Formatter_set_FuncName funcname (Formatter_set_FileName filename f))
  | PtrSTDFormatter f =>
      PtrSTDFormatter
        (STDFormatter_set_FuncName funcname (STDFormatter_set_FileName filename f))
  end.

Definition decorated (filename funcname : string) (s f : addr) (Ls Lf : Logger)
  (fmS : FormatterI) (fF : Formatter.t) (w : World) : World :=
  with_loggers
    (<[f := set_Formatter (Some (decorate filename funcname (PtrFormatter fF))) Lf]>
       (<[s := set_Formatter (Some (decorate filename funcname fmS)) Ls]> (loggers w)))
    w.

(** What the sinks did: their writes and their formatting failures. *)
Definition is_sink_event (e : Event) : bool :=
  match e with
  | SinkWrite _ _ _ | FormatFailure _ _ => true
  | StandardLoggerFatal _ => false
  end.

Definition sink_activity (evs : list Event) : list Event :=
  List.filter is_sink_event evs.

(** An operating system that raises no error during [Init]. *)
Definition env_ok : InitEnv :=
  {| os_Stat := StatOk; os_MkdirAll := None; rotatelogs_New := None |}.

(** ** What a dispatch emits *)
Section notions.
Context {RT : GoRuntime}.

(** [currentDate[0]] and [currentTime[len(currentTime)-1]] of [Format]. *)
Definition rendered_date (t : time.Time) : string :=
  nth 0 (strings.Split (time.Format time_layout t time.RFC3339) "T") "".

Definition rendered_clock (t : time.Time) (layout : string) : string :=
  nth (length (strings.Split (time.Format time_layout t layout) " ") - 1)
    (strings.Split (time.Format time_layout t layout) " ") "".

(** [Format] with both splits done: the five fixed substitutions. *)
Definition substituted (f : Formatter.t) (entry : logrus.Entry.t) : string :=
  let output :=
    if String.eqb (Formatter.LogFormat f) "" then defaultLogFormat
    else Formatter.LogFormat f in
  let layout :=
    if String.eqb (Formatter.TimestampFormat f) "" then defaultTimestampFormat
    else Formatter.TimestampFormat f in
  let t := logrus.Entry.Time entry in
  let output :=
    strings.Replace output "%time%" (rendered_date t +:+ " " +:+ rendered_clock t layout) 1 in
  let output := strings.Replace output "%msg%" (logrus.Entry.Message entry) 1 in
  let output := strings.Replace output "%lvl%" (level_token (logrus.Entry.Level entry)) 1 in
  let output := strings.Replace output "%line%" (Formatter.FileName f) 1 in
  strings.Replace output "%func%" (Formatter.FuncName f) 1.

(** The entry a sink builds for [args] at [level] at the [n]-th reading of
    the clock. *)
Definition entry_at (n : nat) (level : logrus.Level) (args : list Value)
  : logrus.Entry.t :=
  {| logrus.Entry.Data := []; logrus.Entry.Time := time_Now n;
     logrus.Entry.Level := level; logrus.Entry.Message := fmt_Sprint args |}.

(** What [entry.write()] does for the sink at [a]. *)
Definition sink_event (a : addr) (out : Writer) (fm : FormatterI)
  (entry : logrus.Entry.t) : Event :=
  match Logger_render fm entry with
  | ok serialized => SinkWrite a out serialized
  | err msg => FormatFailure a msg
  end.

(** What the console sink and the file sink emit in [dispatch]. *)
Definition console_events (l : SWLog) (s : addr) (Ls : Logger) (outS : Writer)
  (fmS : FormatterI) (level : logrus.Level) (args : list Value) (n : nat)
  : list Event :=
  if IsLog2STD l && uint32_ge (Level Ls) (method_level level)
  then [sink_event s outS fmS (entry_at n (method_level level) args)]
  else [].

Definition file_events (l : SWLog) (f : addr) (Lf : Logger) (outF : Writer)
  (fmF : FormatterI) (level : logrus.Level) (args : list Value) (n : nat)
  : list Event :=
  if negb (IsLog2STD l && (level <=? logrus.FatalLevel)%N)
     && uint32_ge (Level Lf) (method_level level)
  then [sink_event f outF fmF (entry_at n (method_level level) args)]
  else [].

(** How a dispatch ends: a Panic call panics, a Fatal call exits, any other
    returns. *)
Definition finish (level : logrus.Level) (args : list Value) (w : World)
  : Outcome unit :=
  if (level =? logrus.PanicLevel)%N then Panics (PanicEntry (fmt_Sprint args)) w
  else if (level =? logrus.FatalLevel)%N then Exits 1%Z w
  else Returns tt w.

(** The outcome of [logrus.Fatal("log not setup which will cause panic")]:
    logrus's standard logger reports, the process exits with status 1; no
    store is touched and no sink has written. *)
Definition not_setup_exit (w : World) : Outcome unit :=
  Exits 1%Z
    {| swlogs := swlogs w; loggers := loggers w; next := next w;
       output :=
         output w
           ++ [StandardLoggerFatal
                 (fmt_Sprint [VString "log not setup which will cause panic"])];
       ticks := ticks w |}.

End notions.

(** The clock of [time.StampMilli]: [15:04:05.000]. *)
Definition stamp_clock (t : time.Time) : string :=
  time.appendInt (time.Hour t) 2 +:+ ":" +:+ time.appendInt (time.Minute t) 2 +:+ ":"
    +:+ time.appendInt (time.Second t) 2 +:+ "."
    +:+ strings.take 3 (time.appendInt (time.Nanosecond t) 9).

(** The log file [Init] goes on with: its argument, or the field when the
    argument is empty. *)
Definition effective_LogFile (logFile : string) (l : SWLog) : string :=
  if String.eqb logFile "" then LogFile l else logFile.

(** The line of [defaultLogFormat] and [defaultTimestampFormat] for the call
    [Log(level, site, func, args...)] whose sink reads the clock at its
    [n]-th reading. *)
Definition default_line {RT : GoRuntime} (n : nat) (level : logrus.Level)
  (site func : string) (args : list Value) : bytes :=
  list_byte_of_string
    (rfc3339_date (time_Now n) +:+ " " +:+ stamp_clock (time_Now n) +:+ "|"
       +:+ level_token (method_level level) +:+ "|"
       +:+ func +:+ "(" +:+ site +:+ ")|" +:+ fmt_Sprint args +:+ newline).

(** No byte of [x] is [c]. *)
Definition free_of (c : ascii) (x : list ascii) : Prop :=
  Forall (fun d => Ascii.eqb d c = false) x.

(** ** What a call leaves as it is

    The configuration of a sink: its writer, its level, and its formatter
    apart from the two caller fields, which every [Log] call rewrites. *)
Definition sink_configuration (L : Logger)
  : option Writer * logrus.Level * option FormatterI :=
  (Out L, Level L, option_map (decorate "" "") (Formatter L)).

(** [m] leaves every [SWLog] struct, the allocator and the configuration of
    every sink as they are, however it ends. *)
Definition keeps_configuration {A} (m : Go A) : Prop :=
  forall w : World,
    swlogs (world_of (m w)) = swlogs w
    /\ next (world_of (m w)) = next w
    /\ forall a : addr,
         option_map sink_configuration (loggers (world_of (m w)) !! a)
         = option_map sink_configuration (loggers w !! a).

(** The events of the sink at [a] among [evs]. *)
Definition is_event_of (a : addr) (e : Event) : bool :=
  match e with
  | SinkWrite b _ _ | FormatFailure b _ => Nat.eqb b a
  | StandardLoggerFatal _ => false
  end.

Definition events_of (a : addr) (evs : list Event) : list Event :=
  List.filter (is_event_of a) evs.

(** ** The runtime and the worlds of the examples *)

(** [fmt.Sprint] on strings, integers and booleans: a space goes between two
    operands when neither is a string. *)
Definition Sprint_operand (v : Value) : string :=
  match v with
  | VString s => s
  | VInt i => strconv.FormatInt i
  | VBool b => if b then "true" else "false"
  end.

Definition is_VString (v : Value) : bool :=
  match v with
  | VString _ => true
  | _ => false
  end.

Fixpoint Sprint_from (prev_is_string : bool) (args : list Value) : string :=
  match args with
  | [] => ""
  | v :: args' =>
      (if negb prev_is_string && negb (is_VString v) then " " else "")
        +:+ Sprint_operand v +:+ Sprint_from (is_VString v) args'
  end.

(** 2021-03-09 10:16:18 at UTC+8 *)
Definition example_time : time.Time :=
  {| time.Year := 2021; time.Mon := time.March; time.Day := 9; time.Hour := 10;
     time.Minute := 16; time.Second := 18; time.Nanosecond := 0;
     time.ZoneOffset := 28800 |}.

(** A runtime whose clock stands still and whose [Sprintf] is only given
    formats without verbs. *)
Definition example_runtime : GoRuntime :=
  {| fmt_Sprint := Sprint_from true;
     fmt_Sprintf := fun format _ => format;
     time_Now := fun _ => example_time;
     time_layout := fun _ layout => layout;
     filepath_Dir := fun path => fst (filepath.Split path) |}.

Definition example_stack : CallStack :=
  fun _ =>
    Some {| Frame_func := "github.com/edony-ink/log_test.ExampleSWLog_Debug";
            Frame_file := "/src/log/examples/example_log_test.go";
            Frame_line := 23 |}.

(** The process after [SWLogger.Init("/tmp/test.log", DebugLevel, true)]. *)
Definition example_world : World :=
  world_of
    (Init (RT := example_runtime) SWLogger "/tmp/test.log" logrus.DebugLevel true env_ok
       example_stack initial_world).

Definition example_SWLogger : SWLog :=
  {| STDLogger := Some 1; FileLogger := Some 0; IsLog2STD := true;
     LogFile := "/tmp/test.log"; LogLevel := logrus.DebugLevel; skip := 2;
     isSetup := true; raw := false |}.

Definition example_console : Logger :=
  {| Out := Some Stderr; Formatter := Some (PtrFormatter Formatter.zero);
     Level := logrus.DebugLevel |}.

Definition example_file : Logger :=
  {| Out := Some (RotateLogs "/tmp/test.log.%Y-%m-%d" "/tmp/test.log");
     Formatter := Some (PtrFormatter Formatter.zero); Level := logrus.DebugLevel |}.

Definition example_formatter : Formatter.t :=
  {| Formatter.TimestampFormat := ""; Formatter.LogFormat := "";
     Formatter.FileName := "examples/example_log_test.go:23";
     Formatter.FuncName := "ExampleSWLog_Debug" |}.

Definition example_entry : logrus.Entry.t :=
  {| logrus.Entry.Data := []; logrus.Entry.Time := example_time;
     logrus.Entry.Level := DebugLevel; logrus.Entry.Message := "test debug" |}.

(** * Lemmas *)

(** ** Strings: cutting at a byte *)
Lemma append_empty_r (s : string) : s +:+ "" = s.
Proof. induction s as [|c s IH]; simpl; [reflexivity | now rewrite IH]. Qed.

Lemma append_assoc (a b c : string) : (a +:+ b) +:+ c = a +:+ (b +:+ c).
Proof. induction a as [|x a IH]; simpl; [reflexivity | now rewrite IH]. Qed.

Lemma length_append (a b : string) :
  String.length (a +:+ b) = String.length a + String.length b.
Proof. induction a as [|x a IH]; simpl; [reflexivity | now rewrite IH]. Qed.

Lemma has_byte_append (c : ascii) (a b : string) :
  strings.has_byte c (a +:+ b) = strings.has_byte c a || strings.has_byte c b.
Proof.
  induction a as [|x a IH]; simpl; [reflexivity |].
  rewrite IH. now destruct (Ascii.eqb c x).
Qed.

Lemma HasPrefix_empty (s : string) : strings.HasPrefix s "" = true.
Proof. now destruct s. Qed.

(** An instance of [substr] starts with its first byte. *)
Lemma Index_absent (c : ascii) (p s : string) :
  strings.has_byte c s = false -> strings.Index s (String c p) = None.
Proof.
  induction s as [|b s IH]; simpl; intros Hc; [reflexivity |].
  apply orb_false_elim in Hc as [Hb Hs].
  rewrite Hb. simpl. now rewrite (IH Hs).
Qed.

Lemma Index_first (c : ascii) (a b : string) :
  strings.has_byte c a = false ->
  strings.Index (a +:+ String c b) (String c "") = Some (String.length a).
Proof.
  induction a as [|x a IH]; simpl; intros Hc.
  - now rewrite Ascii.eqb_refl, HasPrefix_empty.
  - apply orb_false_elim in Hc as [Hx Ha].
    rewrite Hx. simpl. now rewrite (IH Ha).
Qed.

Lemma take_append (a b : string) : strings.take (String.length a) (a +:+ b) = a.
Proof. induction a as [|x a IH]; simpl; [now destruct b | now rewrite IH]. Qed.

Lemma drop_append (a b : string) (n : nat) :
  strings.drop (String.length a + n) (a +:+ b) = strings.drop n b.
Proof. induction a as [|x a IH]; simpl; [reflexivity | exact IH]. Qed.

Lemma Replace_absent (s old new : string) (n : nat) :
  strings.Index s old = None -> strings.Replace s old new n = s.
Proof. intros Hi. destruct n; simpl; [reflexivity | now rewrite Hi]. Qed.

Lemma genSplit_absent (s sep : string) (n : nat) :
  strings.Index s sep = None -> strings.genSplit s sep n = [s].
Proof. intros Hi. destruct n; simpl; [reflexivity | now rewrite Hi]. Qed.

Lemma genSplit_length (s sep : string) (n : nat) :
  1 <= length (strings.genSplit s sep n).
Proof.
  destruct n; simpl; [lia |].
  destruct (strings.Index s sep); simpl; lia.
Qed.

(** Cutting at a non-empty separator leaves at least one piece. *)
Lemma Split_length (s : string) (c : ascii) (sep : string) :
  1 <= length (strings.Split s (String c sep)).
Proof. unfold strings.Split. simpl. apply genSplit_length. Qed.

(** A string with one [c] is cut in two. *)
Lemma Split_single (c : ascii) (a b : string) :
  strings.has_byte c a = false -> strings.has_byte c b = false ->
  strings.Split (a +:+ String c b) (String c "") = [a; b].
Proof.
  intros Ha Hb. unfold strings.Split. simpl String.eqb. cbv iota.
  rewrite length_append. simpl String.length.
  rewrite Nat.add_succ_r. simpl strings.genSplit.
  rewrite (Index_first c a b Ha), take_append, drop_append.
  simpl strings.drop.
  now rewrite (genSplit_absent b _ _ (Index_absent c "" b Hb)).
Qed.

(** ** [time]: an RFC 3339 rendering has one ['T'] *)
Lemma no_T_zeros (n : nat) : strings.has_byte byte_T (time.zeros n) = false.
Proof. induction n; simpl; [reflexivity | exact IHn]. Qed.

Lemma no_T_digits (d : Decimal.uint) :
  strings.has_byte byte_T (NilEmpty.string_of_uint d) = false.
Proof. induction d; simpl; try reflexivity; exact IHd. Qed.

Lemma no_T_decimal (n : N) : strings.has_byte byte_T (strconv.decimal n) = false.
Proof.
  unfold strconv.decimal, NilZero.string_of_uint.
  destruct (N.to_uint n); try reflexivity; apply (no_T_digits (_ _)).
Qed.

Lemma no_T_appendInt (x : Z) (width : nat) :
  strings.has_byte byte_T (time.appendInt x width) = false.
Proof.
  unfold time.appendInt.
  destruct (x <? 0)%Z; simpl;
    now rewrite has_byte_append, no_T_zeros, no_T_decimal.
Qed.

Lemma no_T_appendZone (offset : Z) :
  strings.has_byte byte_T (time.appendZone offset) = false.
Proof.
  unfold time.appendZone.
  destruct (offset =? 0)%Z; [reflexivity |].
  rewrite !has_byte_append, !no_T_appendInt.
  now destruct (Z.quot offset 60 <? 0)%Z.
Qed.

Lemma formatRFC3339_halves (t : time.Time) :
  time.formatRFC3339 t = rfc3339_date t +:+ String byte_T (rfc3339_clock t).
Proof.
  unfold time.formatRFC3339, rfc3339_date, rfc3339_clock.
  now rewrite !append_assoc.
Qed.

Lemma Split_RFC3339 (other : time.Time -> string -> string) (t : time.Time) :
  strings.Split (time.Format other t time.RFC3339) "T"
  = [rfc3339_date t; rfc3339_clock t].
Proof.
  change (time.Format other t time.RFC3339) with (time.formatRFC3339 t).
  rewrite formatRFC3339_halves.
  apply Split_single.
  - unfold rfc3339_date.
    now rewrite !has_byte_append, !no_T_appendInt.
  - unfold rfc3339_clock.
    now rewrite !has_byte_append, !no_T_appendInt, no_T_appendZone.
Qed.

(** ** The template formatter *)
Section template.

Context {RT : GoRuntime}.

Lemma rendered_date_rfc3339 (t : time.Time) : rendered_date t = rfc3339_date t.
Proof. unfold rendered_date. now rewrite Split_RFC3339. Qed.

Lemma clock_split_check (t : time.Time) (layout : string) :
  (length (strings.Split (time.Format time_layout t layout) " ") <? 1)%nat = false.
Proof. apply Nat.ltb_ge, Split_length. Qed.

Lemma Format_substituted (f : Formatter.t) (entry : logrus.Entry.t) :
  Formatter.Format f entry
  = ok (list_byte_of_string
          (Formatter.replace_fields (substituted f entry) (logrus.Entry.Data entry))).
Proof.
  unfold Formatter.Format. cbv zeta.
  rewrite Split_RFC3339. simpl negb. cbv iota.
  rewrite clock_split_check.
  unfold substituted, rendered_clock. cbv zeta.
  now rewrite rendered_date_rfc3339.
Qed.

(** A field placeholder starts with a percent sign: an output without one is
    left as it is by the loop over the fields. *)
Lemma replace_fields_inert (output : string) (data : list (string * Value)) :
  strings.has_byte "%"%char output = false ->
  Formatter.replace_fields output data = output.
Proof.
  intros Hp. induction data as [|[k v] data IH]; cbn [Formatter.replace_fields];
    [reflexivity |].
  destruct (as_string v); [| exact IH].
  rewrite Replace_absent; [exact IH |].
  now apply Index_absent.
Qed.

End template.

(** ** Instances that are set up *)
Lemma initializedb_Setup (w : World) (p : addr) :
  initializedb w p = true ->
  exists l s f Ls Lf outS outF fmS fF, Setup w p l s f Ls Lf outS outF fmS fF.
Proof.
  unfold initializedb. intros Hi.
  destruct (swlogs w !! p) as [l|] eqn:Hl; [| discriminate].
  destruct (isSetup l) eqn:Hs; [| discriminate].
  destruct (STDLogger l) as [s|] eqn:Hstd; [| discriminate].
  destruct (FileLogger l) as [f|] eqn:Hfile; [| discriminate].
  destruct (Nat.eqb_spec s f) as [|Hne]; [discriminate |].
  destruct (loggers w !! s) as [Ls|] eqn:HS; [| discriminate].
  destruct (loggers w !! f) as [Lf|] eqn:HF; [| discriminate].
  unfold has_writer in Hi.
  destruct (Out Ls) as [outS|] eqn:HoS; [| discriminate].
  destruct (Out Lf) as [outF|] eqn:HoF; [| discriminate].
  destruct (Formatter Lf) as [[fF|]|] eqn:HfF;
    try (rewrite andb_false_r in Hi; discriminate).
  destruct (Formatter Ls) as [fmS|] eqn:HfS;
    [| destruct (raw l); discriminate].
  exists l, s, f, Ls, Lf, outS, outF, fmS, fF.
  split; try assumption.
  destruct (raw l), fmS; simpl in *; try reflexivity; discriminate.
Qed.

Lemma Setup_initializedb (w : World) (p : addr) (l : SWLog) (s f : addr)
  (Ls Lf : Logger) (outS outF : Writer) (fmS : FormatterI) (fF : Formatter.t) :
  Setup w p l s f Ls Lf outS outF fmS fF -> initializedb w p = true.
Proof.
  intros [Hl Hset Hs Hf Hne HLs HLf HoS HoF HfS Hk HfF].
  unfold initializedb, has_writer.
  rewrite Hl, Hset, Hs, Hf, HLs, HLf, HoS, HoF, HfS, HfF.
  apply Nat.eqb_neq in Hne. rewrite Hne. cbn.
  destruct (raw l), fmS; cbn in *; congruence.
Qed.

(** ** The sinks: one call, and the [switch] of [Log] *)
Section dispatch.

Context {RT : GoRuntime}.

Lemma logged_nil (w : World) : logged [] w = w.
Proof.
  destruct w. unfold logged. cbn. now rewrite app_nil_r, Nat.add_0_r.
Qed.

Lemma logged_logged (e1 e2 : list Event) (w : World) :
  logged e2 (logged e1 w) = logged (e1 ++ e2) w.
Proof.
  unfold logged. cbn. now rewrite <- app_assoc, length_app, Nat.add_assoc.
Qed.

Lemma Logger_Log_closed (w : World) (a : addr) (L : Logger) (fm : FormatterI)
  (out : Writer) (level : logrus.Level) (args : list Value) :
  loggers w !! a = Some L -> Formatter L = Some fm -> Out L = Some out ->
  Logger_Log a level args w
  = if uint32_ge (Level L) level then
      if (level <=? logrus.PanicLevel)%N
      then Panics (PanicEntry (fmt_Sprint args))
             (logged [sink_event a out fm (entry_at (ticks w) level args)] w)
      else Returns tt (logged [sink_event a out fm (entry_at (ticks w) level args)] w)
    else Returns tt w.
Proof.
  intros Ha Hfm Hout.
  unfold Logger_Log, bind, load_logger. rewrite Ha.
  destruct (uint32_ge (Level L) level); [| reflexivity].
  unfold time_Now_read, Entry_write, bind, load_logger. cbn [loggers].
  rewrite Ha, Hfm. unfold sink_event, entry_at, logged.
  destruct (Logger_render fm _); [rewrite Hout |]; unfold emit; cbn;
    rewrite Nat.add_1_r;
    destruct (level <=? logrus.PanicLevel)%N; reflexivity.
Qed.

Lemma uint32_ge_0 (a : N) : uint32_ge a logrus.PanicLevel = true.
Proof. now destruct a. Qed.

Lemma dispatch_closed (w : World) (l : SWLog) (s f : addr) (Ls Lf : Logger)
  (outS outF : Writer) (fmS fmF : FormatterI) (level : logrus.Level)
  (args : list Value) :
  STDLogger l = Some s -> FileLogger l = Some f ->
  loggers w !! s = Some Ls -> loggers w !! f = Some Lf ->
  Out Ls = Some outS -> Out Lf = Some outF ->
  Formatter Ls = Some fmS -> Formatter Lf = Some fmF ->
  dispatch l level args w
  = let ce := console_events l s Ls outS fmS level args (ticks w) in
    let fe := file_events l f Lf outF fmF level args (ticks w + length ce) in
    finish level args (logged (ce ++ fe) w).
Proof.
  intros Hs Hf HLs HLf HoS HoF HfS HfF.
  unfold dispatch, finish, console_events, file_events, method_level.
  destruct (level =? logrus.PanicLevel)%N eqn:E0;
    [| destruct (level =? logrus.FatalLevel)%N eqn:E1;
       [| destruct (level =? logrus.ErrorLevel)%N eqn:E2;
          [| destruct (level =? logrus.WarnLevel)%N eqn:E3;
             [| destruct (level =? logrus.InfoLevel)%N eqn:E4]]]].
  6: assert (E01 : (level <=? logrus.FatalLevel)%N = false)
       by (apply N.leb_gt; apply N.eqb_neq in E0, E1;
           unfold logrus.PanicLevel, logrus.FatalLevel in *; lia);
     rewrite E01.
  all: try (apply N.eqb_eq in E0; subst level).
  all: try (apply N.eqb_eq in E1; subst level).
  all: try (apply N.eqb_eq in E2; subst level).
  all: try (apply N.eqb_eq in E3; subst level).
  all: try (apply N.eqb_eq in E4; subst level).
  all: rewrite ?uint32_ge_0.
  all: unfold route, Logger_Panic, Logger_Fatal, Logger_Error, Logger_Warn,
         Logger_Info, Logger_Debug, bind, deref, ret, os_Exit.
  all: rewrite Hs, Hf.
  all: destruct (IsLog2STD l);
         cbn -[uint32_ge logged sink_event entry_at Logger_Log].
  all: rewrite ?(Logger_Log_closed w s Ls fmS outS _ args HLs HfS HoS),
         ?uint32_ge_0.
  all: try (destruct (uint32_ge (Level Ls) _) eqn:Es);
         cbn -[uint32_ge logged sink_event entry_at Logger_Log].
  all: rewrite ?(Logger_Log_closed (logged _ w) f Lf fmF outF _ args HLf HfF HoF),
         ?(Logger_Log_closed w f Lf fmF outF _ args HLf HfF HoF), ?uint32_ge_0.
  all: try (destruct (uint32_ge (Level Lf) _) eqn:Ef);
         cbn -[uint32_ge logged sink_event entry_at Logger_Log].
  all: rewrite ?logged_logged, ?logged_nil, ?Nat.add_0_r.
  all: try reflexivity.
Qed.

End dispatch.

(** Symbolic execution: unfold the store primitives, then reduce and look up
    until nothing moves. *)
(** ** Running the store operations *)
Ltac go_unfold :=
  unfold Logger_SetLevel, Logger_GetLevel, Logger_SetFormatter, Logger_SetOutput,
    assign_Formatter, assign_STDFormatter, modify_logger, modify_swlog,
    alloc_logger, load_logger, load_swlog, bind, deref, ret, panic, os_Exit, emit.

Ltac go_reduce :=
  cbn [loggers swlogs next output ticks with_loggers with_swlogs
       Out Formatter Level set_Out set_Formatter set_Level
       STDLogger FileLogger IsLog2STD LogFile LogLevel skip isSetup raw
       set_STDLogger set_FileLogger set_IsLog2STD set_LogFile set_LogLevel set_skip
       set_isSetup set_raw world_of negb].

Ltac go_lookup :=
  match goal with
  | |- context [<[?i := _]> _ !! ?i] => rewrite lookup_insert_eq
  | H : ?i <> ?j |- context [<[?i := _]> _ !! ?j] => rewrite (lookup_insert_ne _ i j _ H)
  | H : ?j <> ?i |- context [<[?i := _]> _ !! ?j] =>
      rewrite (lookup_insert_ne _ i j _ (not_eq_sym H))
  | H : ?m !! ?i = _ |- context [?m !! ?i] => rewrite H
  | H : ?x = _ |- context [match ?x with _ => _ end] => rewrite H
  | H : ?x = _ |- context [negb ?x] => rewrite H
  end.

Ltac go_run := repeat first [progress go_reduce | go_lookup | progress go_unfold].

Lemma formatterDecorator_closed (w : World) (p : addr) (l : SWLog) (s f : addr)
  (Ls Lf : Logger) (outS outF : Writer) (fmS : FormatterI) (fF : Formatter.t)
  (filename funcname : string) :
  Setup w p l s f Ls Lf outS outF fmS fF ->
  formatterDecorator p filename funcname w
  = Returns tt (decorated filename funcname s f Ls Lf fmS fF w).
Proof.
  intros [Hl _ Hs Hf Hne HLs HLf _ _ HfS Hk HfF].
  unfold formatterDecorator, decorated.
  destruct fmS as [fS|fS], (raw l) eqn:Hraw; try discriminate Hk.
  all: go_run.
  all: rewrite !insert_insert_eq.
  all: reflexivity.
Qed.

Lemma Setup_decorated (w : World) (p : addr) (l : SWLog) (s f : addr)
  (Ls Lf : Logger) (outS outF : Writer) (fmS : FormatterI) (fF : Formatter.t)
  (filename funcname : string) :
  Setup w p l s f Ls Lf outS outF fmS fF ->
  Setup (decorated filename funcname s f Ls Lf fmS fF w) p l s f
    (set_Formatter (Some (decorate filename funcname fmS)) Ls)
    (set_Formatter (Some (decorate filename funcname (PtrFormatter fF))) Lf)
    outS outF (decorate filename funcname fmS)
    (Formatter_set_FuncName funcname (Formatter_set_FileName filename fF)).
Proof.
  intros [Hl Hset Hs Hf Hne HLs HLf HoS HoF HfS Hk HfF].
  unfold decorated. split; go_reduce; try assumption; try reflexivity.
  - now rewrite lookup_insert_ne, lookup_insert_eq.
  - now rewrite lookup_insert_eq.
  - now destruct fmS.
Qed.

(** ** [Log], [SetRawSTDLogging] and [Init] on their normal paths *)
Section logger.

Context {RT : GoRuntime}.

Lemma Log_closed (w : World) (p : addr) (l : SWLog) (s f : addr)
  (Ls Lf : Logger) (outS outF : Writer) (fmS : FormatterI) (fF : Formatter.t)
  (level : logrus.Level) (filename funcname : string) (args : list Value) :
  Setup w p l s f Ls Lf outS outF fmS fF ->
  Log p level filename funcname args w
  = let w0 := decorated filename funcname s f Ls Lf fmS fF w in
    if isLevelEnabled l level then
      let ce :=
        console_events l s Ls outS (decorate filename funcname fmS) level args
          (ticks w) in
      let fe :=
        file_events l f Lf outF (decorate filename funcname (PtrFormatter fF)) level
          args (ticks w + length ce) in
      finish level args (logged (ce ++ fe) w0)
    else Returns tt w0.
Proof.
  intros HS. pose proof (Setup_decorated _ _ _ _ _ _ _ _ _ _ _ filename funcname HS)
    as [Hl' _ Hs' Hf' _ HLs' HLf' HoS' HoF' HfS' _ HfF'].
  destruct HS as [Hl Hset Hs Hf Hne HLs HLf HoS HoF HfS Hk HfF].
  assert (HS : Setup w p l s f Ls Lf outS outF fmS fF) by (split; assumption).
  unfold Log. unfold bind at 1, load_swlog at 1. rewrite Hl, Hset.
  cbn [negb]. unfold bind at 1, ret at 1. unfold bind at 1.
  rewrite (formatterDecorator_closed _ _ _ _ _ _ _ _ _ _ _ filename funcname HS).
  unfold bind, load_swlog. rewrite Hl'. cbv zeta.
  destruct (isLevelEnabled l level); [| reflexivity].
  now rewrite (dispatch_closed _ _ _ _ _ _ _ _ _ _ _ args Hs' Hf' HLs' HLf' HoS' HoF' HfS' HfF').
Qed.

Lemma Log_not_setup (w : World) (p : addr) (l : SWLog) (level : logrus.Level)
  (filename funcname : string) (args : list Value) :
  swlogs w !! p = Some l -> isSetup l = false ->
  Log p level filename funcname args w = not_setup_exit w.
Proof.
  intros Hl Hset. unfold Log, logrus_Fatal. go_run. reflexivity.
Qed.

Lemma leveled_not_setup (w : World) (p : addr) (l : SWLog) (level : logrus.Level)
  (args : list Value) (stack : CallStack) :
  swlogs w !! p = Some l -> isSetup l = false ->
  leveled level p args stack w = not_setup_exit w.
Proof.
  intros Hl Hset. unfold leveled. unfold bind, load_swlog. rewrite Hl.
  destruct (callerInfo (skip l) stack) as [filename funcname].
  now apply (Log_not_setup w p l).
Qed.

Lemma leveledf_not_setup (w : World) (p : addr) (l : SWLog) (level : logrus.Level)
  (format : string) (args : list Value) (stack : CallStack) :
  swlogs w !! p = Some l -> isSetup l = false ->
  leveledf level p format args stack w = not_setup_exit w.
Proof.
  intros Hl Hset. unfold leveledf. unfold bind, load_swlog. rewrite Hl.
  destruct (callerInfo (skip l) stack) as [filename funcname].
  now apply (Log_not_setup w p l).
Qed.

Lemma finish_returns (level : logrus.Level) (args : list Value) (w : World) :
  (logrus.ErrorLevel <= level)%N -> finish level args w = Returns tt w.
Proof.
  intros Hle. unfold finish.
  destruct (N.eqb_spec level logrus.PanicLevel) as [->|_];
    [exfalso; apply Hle; reflexivity |].
  destruct (N.eqb_spec level logrus.FatalLevel) as [->|_]; [| reflexivity].
  exfalso. apply Hle. reflexivity.
Qed.

Lemma STDFormatter_Format_message (f : STDFormatter.t) (entry : logrus.Entry.t) :
  STDFormatter.Format f entry
  = ok (list_byte_of_string (logrus.Entry.Message entry +:+ newline)).
Proof. reflexivity. Qed.

Lemma SetRawSTDLogging_closed (w : World) (p : addr) (l : SWLog) (s f : addr)
  (Ls Lf : Logger) (outS outF : Writer) (fmS : FormatterI) (fF : Formatter.t)
  (isRaw : bool) :
  Setup w p l s f Ls Lf outS outF fmS fF ->
  exists w1 : World,
    SetRawSTDLogging p isRaw w = Returns tt w1
    /\ output w1 = output w /\ ticks w1 = ticks w
    /\ Setup w1 p (set_raw isRaw l) s f
         (set_Formatter
            (Some (if isRaw then PtrSTDFormatter STDFormatter.zero
                   else PtrFormatter Formatter.zero)) Ls)
         Lf outS outF
         (if isRaw then PtrSTDFormatter STDFormatter.zero
          else PtrFormatter Formatter.zero) fF.
Proof.
  intros [Hl Hset Hs Hf Hne HLs HLf HoS HoF HfS Hk HfF].
  unfold SetRawSTDLogging. destruct isRaw; go_run.
  all: eexists; split; [reflexivity |].
  all: split; [reflexivity |]; split; [reflexivity |].
  all: split; go_run; try assumption; reflexivity.
Qed.

Lemma world_of_finish (level : logrus.Level) (args : list Value) (w : World) :
  world_of (finish level args w) = w.
Proof.
  unfold finish.
  destruct (level =? logrus.PanicLevel)%N; [reflexivity |].
  destruct (level =? logrus.FatalLevel)%N; reflexivity.
Qed.

Lemma sink_event_raw (a : addr) (out : Writer) (f : STDFormatter.t)
  (entry : logrus.Entry.t) :
  sink_event a out (PtrSTDFormatter f) entry
  = SinkWrite a out (list_byte_of_string (logrus.Entry.Message entry +:+ newline)).
Proof. reflexivity. Qed.

Lemma sink_event_template (a : addr) (out : Writer) (f : Formatter.t)
  (entry : logrus.Entry.t) :
  exists data : bytes,
    Formatter.Format f entry = ok data
    /\ sink_event a out (PtrFormatter f) entry = SinkWrite a out data.
Proof.
  unfold sink_event, Logger_render. rewrite Format_substituted.
  eexists. split; reflexivity.
Qed.

(** [Init] on an instance that is not set up, with a log file and no error
    from the file system: both sinks are created, the file sink at the
    level passed, the console sink at the level [SWLogger.LogLevel] has at
    that point. *)
Lemma Init_first (w : World) (p : addr) (l g : SWLog) (logFile : string)
  (level : logrus.Level) (log2STD : bool) (env : InitEnv) (stack : CallStack) :
  swlogs w !! p = Some l -> isSetup l = false -> raw l = false ->
  swlogs w !! SWLogger = Some g ->
  String.eqb logFile "" = false ->
  (os_Stat env = StatOk \/ os_Stat env = StatError true \/ os_MkdirAll env = None) ->
  rotatelogs_New env = None ->
  exists (w' : World) (l' : SWLog) (Ls Lf : Logger),
    Init p logFile level log2STD env stack w = Returns tt w'
    /\ Setup w' p l' (S (next w)) (next w) Ls Lf Stderr
         (RotateLogs (logFile +:+ ".%Y-%m-%d") logFile)
         (PtrFormatter Formatter.zero) Formatter.zero
    /\ LogFile l' = logFile /\ LogLevel l' = level /\ IsLog2STD l' = log2STD
    /\ skip l' = 2
    /\ Level Lf = level
    /\ Level Ls = (if Nat.eqb p SWLogger then level else LogLevel g)
    /\ output w' = output w.
Proof.
  intros Hl Hset Hraw Hg Hfile Henv Hrot.
  assert (Hn : S (next w) <> next w) by lia.
  assert (Hmk : os_Stat env = StatError false -> os_MkdirAll env = None).
  { intros Hst. destruct Henv as [Hs | [Hs | Hm]]; [congruence | congruence | exact Hm]. }
  destruct (os_Stat env) as [|[|]] eqn:Hstat; try specialize (Hmk eq_refl).
  all: destruct (Nat.eqb_spec p SWLogger) as [Hp | Hp];
         [subst p; assert (g = l) by congruence; subst g |].
  all: unfold Init; go_run.
  all: eexists _, _, _, _; split; [reflexivity |].
  all: repeat split; go_run; try reflexivity; try assumption; try lia.
  all: cbn; symmetry; exact Hraw.
Qed.

End logger.

(** [example_world] is set up: console sink at address 1, file sink at
    address 0. *)
Lemma example_world_Setup :
  Setup example_world SWLogger example_SWLogger 1 0 example_console example_file
    Stderr (RotateLogs "/tmp/test.log.%Y-%m-%d" "/tmp/test.log")
    (PtrFormatter Formatter.zero) Formatter.zero.
Proof. split; try reflexivity. discriminate. Defined.

(** ** Which sinks an enabled call reaches *)
Section terminal.

Context {RT : GoRuntime}.

(** With echo on, a Panic or Fatal call ends in the console sink: the file
    sink is not reached. *)
Lemma Log_terminal_with_echo (w : World) (p : addr) (l : SWLog) (s f : addr)
  (Ls Lf : Logger) (outS outF : Writer) (fmS : FormatterI) (fF : Formatter.t)
  (level : logrus.Level) (site func : string) (args : list Value) :
  Setup w p l s f Ls Lf outS outF fmS fF ->
  IsLog2STD l = true -> isLevelEnabled l level = true ->
  (level <=? logrus.FatalLevel)%N = true ->
  exists w' : World,
    Log p level site func args w = finish level args w'
    /\ output w'
       = (output w
            ++ console_events l s Ls outS (decorate site func fmS) level args (ticks w))%list.
Proof.
  intros HS Hecho Hen Hterm.
  rewrite (Log_closed _ _ _ _ _ _ _ _ _ _ _ level site func args HS). cbv zeta.
  rewrite Hen. eexists. split; [reflexivity |].
  unfold file_events. rewrite Hecho, Hterm. cbn [andb negb].
  cbn. now rewrite app_nil_r.
Qed.

(** Otherwise an enabled call reaches the file sink. *)
Lemma Log_reaches_file (w : World) (p : addr) (l : SWLog) (s f : addr)
  (Ls Lf : Logger) (outS outF : Writer) (fmS : FormatterI) (fF : Formatter.t)
  (level : logrus.Level) (site func : string) (args : list Value) :
  Setup w p l s f Ls Lf outS outF fmS fF ->
  isLevelEnabled l level = true ->
  IsLog2STD l && (level <=? logrus.FatalLevel)%N = false ->
  uint32_ge (Level Lf) (method_level level) = true ->
  exists (w' : World) (data : bytes),
    Log p level site func args w = finish level args w'
    /\ output w'
       = (output w
            ++ console_events l s Ls outS (decorate site func fmS) level args (ticks w)
            ++ [SinkWrite f outF data])%list.
Proof.
  intros HS Hen Hnt Hlf.
  rewrite (Log_closed _ _ _ _ _ _ _ _ _ _ _ level site func args HS). cbv zeta.
  rewrite Hen. unfold file_events. rewrite Hnt, Hlf. cbn [andb negb].
  match goal with
  | |- context [sink_event f outF (decorate site func (PtrFormatter fF)) ?e] =>
      destruct (sink_event_template f outF
                  (Formatter_set_FuncName func (Formatter_set_FileName site fF)) e)
        as (data & _ & Hev)
  end.
  eexists _, data. split; [reflexivity |].
  cbn [decorate]. rewrite Hev. reflexivity.
Qed.

End terminal.

(** In [example_world] the console sink lets every level through and renders
    with the template formatter: the bytes of its write get a name. *)
Ltac name_console_write Hout site func :=
  unfold console_events in Hout;
  cbn [IsLog2STD example_SWLogger andb] in Hout;
  match type of Hout with
  | context [uint32_ge ?a ?b] => change (uint32_ge a b) with true in Hout
  end;
  cbv iota in Hout;
  match type of Hout with
  | context [sink_event 1 Stderr _ ?e] =>
      let data := fresh "data" in
      let Hev := fresh "Hev" in
      destruct (sink_event_template 1 Stderr
                  (Formatter_set_FuncName func
                     (Formatter_set_FileName site Formatter.zero)) e)
        as (data & _ & Hev);
      cbn [decorate] in Hout; rewrite Hev in Hout
  end.

(** ** The pipeline on the example of [example_test.go] *)
Example callerInfo_example :
  callerInfo 2 example_stack
  = ("examples/example_log_test.go:23", "ExampleSWLog_Debug").
Proof. reflexivity. Qed.

Example Debug_example :
  output
    (world_of
       (facade.Debug (RT := example_runtime) [VString "test debug"] example_stack
          example_world))
  = [SinkWrite 1 Stderr
       (list_byte_of_string
          ("2021-03-09 10:16:18.000|DEBUG  |ExampleSWLog_Debug(examples/example_log_test.go:23)|test debug"
             +:+ newline));
     SinkWrite 0 (RotateLogs "/tmp/test.log.%Y-%m-%d" "/tmp/test.log")
       (list_byte_of_string
          ("2021-03-09 10:16:18.000|DEBUG  |ExampleSWLog_Debug(examples/example_log_test.go:23)|test debug"
             +:+ newline))].
Proof. vm_compute. reflexivity. Qed.

Example initializedb_example : initializedb example_world SWLogger = true.
Proof. vm_compute. reflexivity. Qed.

(** ** Calls that keep the configuration *)
Section keeping.

Context {RT : GoRuntime}.

Lemma keeps_ret {A} (a : A) : keeps_configuration (ret a).
Proof. intros w. repeat split. Qed.

Lemma keeps_panic {A} (v : PanicValue) : keeps_configuration (panic (A := A) v).
Proof. intros w. repeat split. Qed.

Lemma keeps_os_Exit {A} (code : Z) : keeps_configuration (os_Exit (A := A) code).
Proof. intros w. repeat split. Qed.


Lemma keeps_emit (e : Event) : keeps_configuration (emit e).
Proof. intros w. repeat split. Qed.

Lemma keeps_time_Now_read : keeps_configuration time_Now_read.
Proof. intros w. repeat split. Qed.

Lemma keeps_load_swlog (p : addr) : keeps_configuration (load_swlog p).
Proof. intros w. unfold load_swlog. destruct (swlogs w !! p); repeat split. Qed.

Lemma keeps_load_logger (a : addr) : keeps_configuration (load_logger a).
Proof. intros w. unfold load_logger. destruct (loggers w !! a); repeat split. Qed.

Lemma keeps_deref (q : option addr) : keeps_configuration (deref q).
Proof. destruct q; [apply keeps_ret | apply keeps_panic]. Qed.




Create HintDb keeps.
#[local] Hint Resolve keeps_ret keeps_panic keeps_os_Exit keeps_emit keeps_time_Now_read
  keeps_load_swlog keeps_load_logger keeps_deref : keeps.









End keeping.

(** ** The events of one sink *)
Section sinks.

Context {RT : GoRuntime}.

Lemma sink_event_is_write (a : addr) (out : Writer) (fm : FormatterI)
  (entry : logrus.Entry.t) :
  exists data : bytes, sink_event a out fm entry = SinkWrite a out data.
Proof.
  destruct fm as [f | f].
  - destruct (sink_event_template a out f entry) as (data & _ & Hev). eauto.
  - rewrite sink_event_raw. eauto.
Qed.

Lemma events_of_app (a : addr) (evs evs' : list Event) :
  events_of a (evs ++ evs') = (events_of a evs ++ events_of a evs')%list.
Proof. apply List.filter_app. Qed.

Lemma length_console_events (l : SWLog) (s : addr) (Ls : Logger) (outS : Writer)
  (fm : FormatterI) (level : logrus.Level) (args : list Value) (n : nat) :
  length (console_events l s Ls outS fm level args n)
  = if IsLog2STD l && uint32_ge (Level Ls) (method_level level) then 1 else 0.
Proof. unfold console_events. now destruct (_ && _). Qed.

(** The console sink's events are none of the file sink's. *)
Lemma events_of_console (l : SWLog) (s f : addr) (Ls : Logger) (outS : Writer)
  (fm : FormatterI) (level : logrus.Level) (args : list Value) (n : nat) :
  s <> f -> events_of f (console_events l s Ls outS fm level args n) = [].
Proof.
  intros Hne. unfold console_events. destruct (_ && _); [| reflexivity].
  destruct (sink_event_is_write s outS fm (entry_at n (method_level level) args))
    as (data & ->).
  cbn. now apply Nat.eqb_neq in Hne as ->.
Qed.

End sinks.

(** * The claims *)

(** C1 (what the code does at the failing input).  [SWLogger] is set up with
    threshold Debug and echo on; its console sink is at address 1, its file
    sink at address 0.  A Panic call panics and a Fatal call exits after the
    console sink alone has written; an Error call returns after both sinks have
    written, the console sink first. *)
Theorem Log_Panic_Fatal_with_echo_skip_file_sink (RT : GoRuntime) (site func : string)
  (args : list Value) :
  (exists (w' : World) (data : bytes),
      Log SWLogger logrus.PanicLevel site func args example_world
      = Panics (PanicEntry (fmt_Sprint args)) w'
      /\ output w' = [SinkWrite 1 Stderr data])
  /\ (exists (w' : World) (data : bytes),
        Log SWLogger logrus.FatalLevel site func args example_world = Exits 1%Z w'
        /\ output w' = [SinkWrite 1 Stderr data])
  /\ (exists (w' : World) (data1 data2 : bytes),
        Log SWLogger logrus.ErrorLevel site func args example_world = Returns tt w'
        /\ output w'
           = [SinkWrite 1 Stderr data1;
              SinkWrite 0 (RotateLogs "/tmp/test.log.%Y-%m-%d" "/tmp/test.log") data2]).
Proof.
  split; [| split].
  - destruct (Log_terminal_with_echo _ _ _ _ _ _ _ _ _ _ _ logrus.PanicLevel site func
                args example_world_Setup eq_refl eq_refl eq_refl) as (w' & Hrun & Hout).
    name_console_write Hout site func.
    exists w'. eexists. split; [exact Hrun | exact Hout].
  - destruct (Log_terminal_with_echo _ _ _ _ _ _ _ _ _ _ _ logrus.FatalLevel site func
                args example_world_Setup eq_refl eq_refl eq_refl) as (w' & Hrun & Hout).
    name_console_write Hout site func.
    exists w'. eexists. split; [exact Hrun | exact Hout].
  - destruct (Log_reaches_file _ _ _ _ _ _ _ _ _ _ _ logrus.ErrorLevel site func
                args example_world_Setup eq_refl eq_refl eq_refl)
      as (w' & data2 & Hrun & Hout).
    name_console_write Hout site func.
    exists w'. eexists _, data2. split; [exact Hrun | exact Hout].
Qed.

(** C2.  [isLevelEnabled] on a logger whose [LogLevel] is [threshold] holds
    exactly when [threshold >= level] as numbers, with Panic = 0, Fatal = 1,
    Error = 2, Warn = 3, Info = 4, Debug = 5 (so exactly the levels at or above
    the threshold's priority pass); threshold Info rejects Debug and accepts
    Warn. *)
Theorem isLevelEnabled_threshold :
  (PanicLevel = 0 /\ FatalLevel = 1 /\ ErrorLevel = 2 /\ WarnLevel = 3
   /\ InfoLevel = 4 /\ DebugLevel = 5)%N
  /\ (forall (logger : SWLog) (threshold level : logrus.Level),
        isLevelEnabled (set_LogLevel threshold logger) level = true
        <-> (threshold >= level)%N)
  /\ (forall logger : SWLog,
        isLevelEnabled (set_LogLevel InfoLevel logger) DebugLevel = false
        /\ isLevelEnabled (set_LogLevel InfoLevel logger) WarnLevel = true).
Proof.
  split; [repeat split |].
  split.
  - intros logger threshold level.
    unfold isLevelEnabled, uint32_ge. simpl.
    rewrite N.leb_le. lia.
  - intros logger. split; reflexivity.
Qed.

(** In the state [Init] leaves behind, a second [Init] returns: it logs the
    notice ["no need to setup, swlogger is already setup!"] through [Debug],
    which overwrites the caller fields of the two formatters, and the
    instance stays set up. *)
Lemma Init_again_when_set_up (RT : GoRuntime) (w : World) (p : addr)
  (l : SWLog) (s f : addr) (Ls Lf : Logger) (outS outF : Writer) (fmS : FormatterI)
  (fF : Formatter.t) (logFile : string) (level : logrus.Level) (log2STD : bool)
  (env : InitEnv) (stack : CallStack) :
  Setup w p l s f Ls Lf outS outF fmS fF ->
  exists (w' : World) (site func : string),
    callerInfo (skip l) stack = (site, func)
    /\ Init p logFile level log2STD env stack w = Returns tt w'
    /\ swlogs w' = swlogs w
    /\ swlogs w' !! p = Some l
    /\ loggers w' !! s = Some (set_Formatter (Some (decorate site func fmS)) Ls)
    /\ loggers w' !! f
       = Some (set_Formatter (Some (decorate site func (PtrFormatter fF))) Lf)
    /\ (forall a : addr, a <> s -> a <> f -> loggers w' !! a = loggers w !! a)
    /\ output w'
       = (output w
           ++ (if isLevelEnabled l logrus.DebugLevel
               then
                 console_events l s Ls outS (decorate site func fmS) logrus.DebugLevel
                   [VString "no need to setup, swlogger is already setup!"] (ticks w)
                 ++ file_events l f Lf outF (decorate site func (PtrFormatter fF))
                      logrus.DebugLevel
                      [VString "no need to setup, swlogger is already setup!"]
                      (ticks w
                       + length
                           (console_events l s Ls outS (decorate site func fmS)
                              logrus.DebugLevel
                              [VString "no need to setup, swlogger is already setup!"]
                              (ticks w)))
               else []))%list
    /\ Setup w' p l s f
         (set_Formatter (Some (decorate site func fmS)) Ls)
         (set_Formatter (Some (decorate site func (PtrFormatter fF))) Lf)
         outS outF (decorate site func fmS)
         (Formatter_set_FuncName func (Formatter_set_FileName site fF)).
Proof.
  intros HS.
  destruct (callerInfo (skip l) stack) as [site func] eqn:Hcaller.
  pose proof (Setup_decorated _ _ _ _ _ _ _ _ _ _ _ site func HS) as HS0.
  assert (Hrun :
    Init p logFile level log2STD env stack w
    = Log p logrus.DebugLevel site func
        [VString "no need to setup, swlogger is already setup!"] w).
  { destruct HS as [Hl Hset _ _ _ _ _ _ _ _ _ _].
    unfold Init, Debug, leveled. go_run. reflexivity. }
  rewrite Hrun, (Log_closed _ _ _ _ _ _ _ _ _ _ _ _ site func _ HS). cbv zeta.
  set (w0 := decorated site func s f Ls Lf fmS fF w) in *.
  destruct (isLevelEnabled l logrus.DebugLevel).
  - rewrite finish_returns by discriminate.
    eexists _, site, func. split; [reflexivity |]. split; [reflexivity |].
    destruct HS0 as [Hl0 Hset0 Hs0 Hf0 Hne0 HLs0 HLf0 HoS0 HoF0 HfS0 Hk0 HfF0].
    repeat split; try assumption; try reflexivity.
    intros a Has Haf. unfold w0, decorated. cbn.
    now rewrite !lookup_insert_ne by congruence.
  - eexists _, site, func. split; [reflexivity |]. split; [reflexivity |].
    destruct HS0 as [Hl0 Hset0 Hs0 Hf0 Hne0 HLs0 HLf0 HoS0 HoF0 HfS0 Hk0 HfF0].
    repeat split; try assumption; try reflexivity.
    + intros a Has Haf. unfold w0, decorated. cbn.
      now rewrite !lookup_insert_ne by congruence.
    + cbn. now rewrite app_nil_r.
Qed.




(** C4.  With the default template and the default timestamp pattern, a
    Debug record whose time renders to the date ["2021-03-09"] and the clock
    ["10:16:18.000"], with message ["test debug"], caller function
    ["ExampleSWLog_Debug"] and caller site
    ["examples/example_log_test.go:23"], is rendered as the line of the
    example, with no error, whatever fields the record carries. *)
Theorem Format_example_line (RT : GoRuntime) (f : Formatter.t) (entry : logrus.Entry.t) :
  Formatter.LogFormat f = "" ->
  Formatter.TimestampFormat f = "" ->
  Formatter.FileName f = "examples/example_log_test.go:23" ->
  Formatter.FuncName f = "ExampleSWLog_Debug" ->
  logrus.Entry.Level entry = DebugLevel ->
  logrus.Entry.Message entry = "test debug" ->
  rendered_date (logrus.Entry.Time entry) = "2021-03-09" ->
  rendered_clock (logrus.Entry.Time entry) defaultTimestampFormat = "10:16:18.000" ->
  Formatter.Format f entry
  = ok (list_byte_of_string
          ("2021-03-09 10:16:18.000|DEBUG  |ExampleSWLog_Debug(examples/example_log_test.go:23)|test debug"
             +:+ newline)).
Proof.
  intros Hfmt Hts Hfile Hfunc Hlvl Hmsg Hdate Hclock.
  rewrite Format_substituted. unfold substituted.
  rewrite Hfmt, Hts, Hfile, Hfunc, Hlvl, Hmsg. simpl String.eqb. cbv iota zeta.
  rewrite Hdate, Hclock.
  rewrite replace_fields_inert; reflexivity.
Qed.

Lemma Format_example_line_witness :
  rendered_date (RT := example_runtime) example_time = "2021-03-09"
  /\ rendered_clock (RT := example_runtime) example_time defaultTimestampFormat
     = "10:16:18.000"
  /\ Formatter.Format (RT := example_runtime) example_formatter example_entry
     = ok (list_byte_of_string
             ("2021-03-09 10:16:18.000|DEBUG  |ExampleSWLog_Debug(examples/example_log_test.go:23)|test debug"
                +:+ newline)).
Proof.
  split; [reflexivity |]. split; [reflexivity |].
  apply (Format_example_line example_runtime example_formatter example_entry);
    reflexivity.
Defined.

(** C5 (what the code does at the failing input).  A second instance is
    created at address 1 while [SWLogger] is still the zero value, and
    [Init("/tmp/x.log", DebugLevel, true)] is called on it.  [Init] returns; the
    instance's threshold and its file sink's level are Debug, but its console
    sink's level is [SWLogger.LogLevel], which is Panic. *)
Theorem Init_console_level_is_SWLogger_LogLevel (RT : GoRuntime) (stack : CallStack) :
  exists (w' : World) (l' : SWLog) (Ls Lf : Logger),
    bind (new_SWLog 1)
      (fun _ => Init 1 "/tmp/x.log" logrus.DebugLevel true env_ok stack) initial_world
    = Returns tt w'
    /\ swlogs w' !! 1 = Some l'
    /\ isSetup l' = true
    /\ LogLevel l' = logrus.DebugLevel
    /\ file_sink w' 1 = Some Lf
    /\ Level Lf = logrus.DebugLevel
    /\ std_sink w' 1 = Some Ls
    /\ Level Ls = logrus.PanicLevel
    /\ Level Ls <> logrus.DebugLevel.
Proof.
  eexists _, _, _, _.
  split; [vm_compute; reflexivity |].
  repeat split; try (vm_compute; reflexivity). discriminate.
Qed.

(** C6.  On an instance whose [isSetup] is still false, [Log], [Logf] and the
    twelve wrappers all end in [logrus.Fatal]: the process exits with status
    1, the only thing reported is the message of logrus's standard logger, and
    no sink has been handed anything. *)
Theorem logging_before_Init_exits (RT : GoRuntime) (w : World) (p : addr) (l : SWLog) :
  swlogs w !! p = Some l -> isSetup l = false ->
  (forall level filename funcname args,
      Log p level filename funcname args w = not_setup_exit w)
  /\ (forall level format filename funcname args,
        Logf p level format filename funcname args w = not_setup_exit w)
  /\ (forall args stack,
        Debug p args stack w = not_setup_exit w
        /\ Info p args stack w = not_setup_exit w
        /\ Warn p args stack w = not_setup_exit w
        /\ Error p args stack w = not_setup_exit w
        /\ Fatal p args stack w = not_setup_exit w
        /\ Panic p args stack w = not_setup_exit w)
  /\ (forall format args stack,
        Debugf p format args stack w = not_setup_exit w
        /\ Infof p format args stack w = not_setup_exit w
        /\ Warnf p format args stack w = not_setup_exit w
        /\ Errorf p format args stack w = not_setup_exit w
        /\ Fatalf p format args stack w = not_setup_exit w
        /\ Panicf p format args stack w = not_setup_exit w)
  /\ sink_activity (output (world_of (not_setup_exit w))) = sink_activity (output w)
  /\ loggers (world_of (not_setup_exit w)) = loggers w.
Proof.
  intros Hl Hset.
  split; [| split; [| split; [| split; [| split]]]].
  - intros. now apply (Log_not_setup w p l).
  - intros. now apply (Log_not_setup w p l).
  - intros. repeat split; now apply (leveled_not_setup w p l).
  - intros. repeat split; now apply (leveledf_not_setup w p l).
  - unfold sink_activity. cbn. rewrite List.filter_app. cbn. apply app_nil_r.
  - reflexivity.
Qed.

Lemma logging_before_Init_exits_witness :
  swlogs initial_world !! SWLogger = Some SWLog_zero
  /\ isSetup SWLog_zero = false
  /\ facade.Debug (RT := example_runtime) [VString "test debug"] example_stack initial_world
     = not_setup_exit (RT := example_runtime) initial_world.
Proof.
  split; [reflexivity |]. split; [reflexivity |].
  apply (logging_before_Init_exits example_runtime initial_world SWLogger SWLog_zero);
    reflexivity.
Defined.

(** C7.  After [SetRawSTDLogging(true)] the console sink holds a raw formatter
    and the file sink is the one it was.  A following [Log] call whose message
    is ["x"] makes the console sink write exactly ["x\n"] (when echo is on and
    both the logger's threshold and the console sink's level let the severity
    through, and nothing otherwise), at every level and for every caller site
    and function and every template of the file sink.  The file sink then
    writes what it writes without raw mode: the bytes [Formatter.Format]
    renders with the template formatter, when the threshold and the file
    sink's level let the severity through and the call did not end in the
    console sink. *)
Theorem raw_console_output (RT : GoRuntime) (w : World) (p : addr) (l : SWLog)
  (s f : addr) (Ls Lf : Logger) (outS outF : Writer) (fmS : FormatterI)
  (fF : Formatter.t) (level : logrus.Level) (site func : string) (args : list Value) :
  Setup w p l s f Ls Lf outS outF fmS fF ->
  fmt_Sprint args = "x" ->
  let console :=
    if IsLog2STD l && isLevelEnabled l level
         && uint32_ge (Level Ls) (method_level level)
    then [SinkWrite s outS (list_byte_of_string ("x" +:+ newline))]
    else [] in
  exists (w1 : World) (data : bytes),
    SetRawSTDLogging p true w = Returns tt w1
    /\ loggers w1 !! s
       = Some (set_Formatter (Some (PtrSTDFormatter STDFormatter.zero)) Ls)
    /\ loggers w1 !! f = Some Lf
    /\ Formatter.Format
         (Formatter_set_FuncName func (Formatter_set_FileName site fF))
         {| logrus.Entry.Data := [];
            logrus.Entry.Time := time_Now (ticks w + length console);
            logrus.Entry.Level := method_level level;
            logrus.Entry.Message := "x" |}
       = ok data
    /\ output (world_of (Log p level site func args w1))
       = (output w ++ console
            ++ (if isLevelEnabled l level
                     && negb (IsLog2STD l && (level <=? logrus.FatalLevel)%N)
                     && uint32_ge (Level Lf) (method_level level)
                then [SinkWrite f outF data]
                else []))%list
    /\ events_of f (output (world_of (Log p level site func args w1)))
       = events_of f (output (world_of (Log p level site func args w))).
Proof.
  intros HS Hx. cbv zeta.
  destruct (SetRawSTDLogging_closed _ _ _ _ _ _ _ _ _ _ _ true HS)
    as (w1 & Hrun & Hout & Hticks & HS1).
  pose proof (setup_std _ _ _ _ _ _ _ _ _ _ _ HS1) as HLs1.
  pose proof (setup_file _ _ _ _ _ _ _ _ _ _ _ HS1) as HLf1.
  pose proof (setup_distinct _ _ _ _ _ _ _ _ _ _ _ HS) as Hne.
  pose proof (Log_closed _ _ _ _ _ _ _ _ _ _ _ level site func args HS1) as Hraw.
  pose proof (Log_closed _ _ _ _ _ _ _ _ _ _ _ level site func args HS) as Hplain.
  cbv zeta in Hraw, Hplain.
  change (isLevelEnabled (set_raw true l) level) with (isLevelEnabled l level) in Hraw.
  apply (f_equal (fun o => output (world_of o))) in Hraw, Hplain.
  destruct (isLevelEnabled l level) eqn:Hen;
    [rewrite world_of_finish in Hraw, Hplain |];
    cbn [world_of logged output decorated with_loggers ticks] in Hraw, Hplain;
    rewrite Hout in Hraw; rewrite ?Hticks in Hraw.
  - unfold console_events, file_events in Hraw.
    cbn [IsLog2STD set_raw Level set_Formatter decorate] in Hraw.
    rewrite sink_event_raw in Hraw. unfold entry_at in Hraw.
    cbn [logrus.Entry.Message] in Hraw. rewrite Hx in Hraw.
    assert (Hfile :
      events_of f (output (world_of (Log p level site func args w1)))
      = events_of f (output (world_of (Log p level site func args w)))).
    { rewrite Hraw, Hplain, !events_of_app.
      unfold console_events, file_events, entry_at. rewrite Hx.
      cbn [decorate].
      destruct (IsLog2STD l && uint32_ge (Level Ls) (method_level level)) eqn:Hc;
        [| reflexivity].
      match goal with
      | |- context [sink_event s outS ?fm ?e] =>
          destruct (sink_event_is_write s outS fm e) as (data0 & ->)
      end.
      cbn [events_of List.filter is_event_of length].
      apply Nat.eqb_neq in Hne. now rewrite Hne. }
    clear Hplain. exists w1.
    destruct (IsLog2STD l) eqn:Hecho,
      (uint32_ge (Level Ls) (method_level level)) eqn:Hc;
      cbn [andb negb length] in Hraw |- *.
    all: match type of Hraw with
         | context [sink_event ?a ?out (PtrFormatter ?fm) ?e] =>
             destruct (sink_event_template a out fm e) as (data & Hfmt & Hev)
         end.
    all: exists data; rewrite Hfile, Hraw, Hev.
    all: repeat split; assumption.
  - assert (Hfile :
      events_of f (output (world_of (Log p level site func args w1)))
      = events_of f (output (world_of (Log p level site func args w))))
      by now rewrite Hraw, Hplain.
    rewrite !andb_false_r. cbn [andb app length].
    destruct (sink_event_template f outF
                (Formatter_set_FuncName func (Formatter_set_FileName site fF))
                {| logrus.Entry.Data := [];
                   logrus.Entry.Time := time_Now (ticks w + 0);
                   logrus.Entry.Level := method_level level;
                   logrus.Entry.Message := "x" |})
      as (data & Hfmt & _).
    exists w1, data. rewrite Hfile, Hraw, app_nil_r.
    repeat split; assumption.
Qed.

Lemma raw_console_output_witness :
  fmt_Sprint (GoRuntime := example_runtime) [VString "x"] = "x"
  /\ exists w1 : World,
       SetRawSTDLogging SWLogger true example_world = Returns tt w1
       /\ output
            (world_of
               (Log (RT := example_runtime) SWLogger logrus.WarnLevel
                  "examples/example_log_test.go:23" "ExampleSWLog_Debug" [VString "x"] w1))
          = [SinkWrite 1 Stderr (list_byte_of_string ("x" +:+ newline));
             SinkWrite 0 (RotateLogs "/tmp/test.log.%Y-%m-%d" "/tmp/test.log")
               (list_byte_of_string
                  ("2021-03-09 10:16:18.000|WARNING|ExampleSWLog_Debug(examples/example_log_test.go:23)|x"
                     +:+ newline))].
Proof.
  split; [reflexivity |].
  destruct (raw_console_output example_runtime example_world SWLogger
              example_SWLogger 1 0 example_console example_file Stderr
              (RotateLogs "/tmp/test.log.%Y-%m-%d" "/tmp/test.log")
              (PtrFormatter Formatter.zero) Formatter.zero logrus.WarnLevel
              "examples/example_log_test.go:23" "ExampleSWLog_Debug" [VString "x"]
              example_world_Setup eq_refl)
    as (w1 & data & Hrun & _ & _ & Hfmt & Hout & _).
  exists w1. split; [exact Hrun |].
  rewrite Hout. vm_compute in Hfmt. injection Hfmt as <-. reflexivity.
Defined.

(** C8.  For each of the six severities the token that [Format] puts in place
    of [%lvl%] is the upper-cased level name followed by spaces up to seven
    columns, and it is exactly seven bytes long; a formatter whose template is
    ["%lvl%"] renders exactly that token. *)
Theorem level_token_width :
  map level_token severities
  = ["PANIC  "; "FATAL  "; "ERROR  "; "WARNING"; "INFO   "; "DEBUG  "]
  /\ Forall
       (fun l =>
          String.length (level_token l) = 7
          /\ level_token l
             = strings.ToUpper (logrus.Level_String l)
                 +:+ spaces (7 - String.length (strings.ToUpper (logrus.Level_String l)))
          /\ forall (RT : GoRuntime) (layout file func msg : string) (t : time.Time),
               Formatter.Format
                 {| Formatter.TimestampFormat := layout; Formatter.LogFormat := "%lvl%";
                    Formatter.FileName := file; Formatter.FuncName := func |}
                 {| logrus.Entry.Data := []; logrus.Entry.Time := t;
                    logrus.Entry.Level := l; logrus.Entry.Message := msg |}
               = ok (list_byte_of_string (level_token l)))
       severities.
Proof.
  split; [reflexivity |].
  repeat constructor; intros; rewrite Format_substituted; reflexivity.
Qed.

(** C9.  On the set-up global logger, [SetLogLevel(level)] returns after
    setting the file sink's level and the recorded [LogLevel] to [level], and
    the console sink's level to [level] only when [IsLog2STD] is true
    (otherwise the console sink is left as it was); every other field of the
    struct and of the two sinks is the one it was, and nothing is written.
    [GetLogLevel()] then returns [level]. *)
Theorem SetLogLevel_then_GetLogLevel (w : World) (l : SWLog) (s f : addr)
  (Ls Lf : Logger) (outS outF : Writer) (fmS : FormatterI) (fF : Formatter.t)
  (level : logrus.Level) :
  Setup w SWLogger l s f Ls Lf outS outF fmS fF ->
  exists w' : World,
    SetLogLevel level w = Returns tt w'
    /\ GetLogLevel w' = Returns level w'
    /\ swlogs w' !! SWLogger
       = Some {| STDLogger := STDLogger l; FileLogger := FileLogger l;
                 IsLog2STD := IsLog2STD l; LogFile := LogFile l; LogLevel := level;
                 skip := skip l; isSetup := isSetup l; raw := raw l |}
    /\ loggers w' !! f
       = Some {| Out := Out Lf; Formatter := Formatter Lf; Level := level |}
    /\ loggers w' !! s
       = Some {| Out := Out Ls; Formatter := Formatter Ls;
                 Level := if IsLog2STD l then level else Level Ls |}
    /\ output w' = output w.
Proof.
  intros [Hl Hset Hs Hf Hne HLs HLf HoS HoF HfS Hk HfF].
  unfold SetLogLevel, GetLogLevel.
  destruct (IsLog2STD l) eqn:Hecho; go_run.
  all: eexists; split; [reflexivity |]; go_run.
  all: repeat split; go_run; try reflexivity.
  all: try (unfold set_LogLevel; rewrite ?Hs, ?Hf, ?Hecho; reflexivity).
  now destruct Ls.
Qed.

Lemma SetLogLevel_then_GetLogLevel_witness :
  exists w' : World,
    SetLogLevel logrus.InfoLevel example_world = Returns tt w'
    /\ GetLogLevel w' = Returns logrus.InfoLevel w'
    /\ option_map LogLevel (swlogs w' !! SWLogger) = Some logrus.InfoLevel
    /\ option_map Level (loggers w' !! 0) = Some logrus.InfoLevel
    /\ option_map Level (loggers w' !! 1) = Some logrus.InfoLevel.
Proof.
  destruct (SetLogLevel_then_GetLogLevel example_world example_SWLogger 1 0
              example_console example_file Stderr
              (RotateLogs "/tmp/test.log.%Y-%m-%d" "/tmp/test.log")
              (PtrFormatter Formatter.zero) Formatter.zero logrus.InfoLevel
              example_world_Setup)
    as (w' & Hset & Hget & Hl & Hf & Hs & _).
  exists w'. split; [exact Hset |]. split; [exact Hget |].
  split; [exact (f_equal (option_map LogLevel) Hl) |].
  split; [exact (f_equal (option_map Level) Hf) | exact (f_equal (option_map Level) Hs)].
Defined.

(** C10.  [Format] returns rendered bytes for every formatter and every
    entry: the RFC 3339 rendering of the entry's time is cut at ['T'] into
    exactly two parts, and cutting any rendering at a space leaves at least
    one part, so neither error branch is taken. *)
Theorem Format_never_fails (RT : GoRuntime) (f : Formatter.t) (entry : logrus.Entry.t) :
  (exists output : bytes, Formatter.Format f entry = ok output)
  /\ (forall msg : string, Formatter.Format f entry <> err msg)
  /\ length (strings.Split
               (time.Format time_layout (logrus.Entry.Time entry) time.RFC3339) "T") = 2
  /\ (forall layout : string,
        1 <= length (strings.Split
                       (time.Format time_layout (logrus.Entry.Time entry) layout) " ")).
Proof.
  rewrite Format_substituted, Split_RFC3339.
  repeat split.
  - eexists. reflexivity.
  - discriminate.
  - intros layout. apply Split_length.
Qed.

(** * Further properties *)

(** ** Bytes that a rendering cannot contain *)
Section absent_byte.

Variable c : ascii.
Hypothesis not_numeric : strings.has_byte c "-0123456789" = false.

Lemma absent_zeros (n : nat) : strings.has_byte c (time.zeros n) = false.
Proof using not_numeric.
  induction n as [|n IH]; cbn [time.zeros strings.has_byte]; [reflexivity |].
  rewrite IH, orb_false_r.
  cbn in not_numeric. repeat (apply orb_false_elim in not_numeric as [? not_numeric]).
  assumption.
Qed.

Lemma absent_digits (d : Decimal.uint) :
  strings.has_byte c (NilEmpty.string_of_uint d) = false.
Proof using not_numeric.
  cbn in not_numeric. repeat (apply orb_false_elim in not_numeric as [? not_numeric]).
  induction d; cbn [NilEmpty.string_of_uint strings.has_byte]; try reflexivity;
    rewrite IHd, orb_false_r; assumption.
Qed.

Lemma absent_decimal (n : N) : strings.has_byte c (strconv.decimal n) = false.
Proof using not_numeric.
  unfold strconv.decimal, NilZero.string_of_uint.
  destruct (N.to_uint n) eqn:E; try apply (absent_digits (_ _)).
  cbn in not_numeric. repeat (apply orb_false_elim in not_numeric as [? not_numeric]).
  cbn. rewrite orb_false_r. assumption.
Qed.

Lemma absent_appendInt (x : Z) (width : nat) :
  strings.has_byte c (time.appendInt x width) = false.
Proof using not_numeric.
  unfold time.appendInt.
  destruct (x <? 0)%Z; cbn [String.append strings.has_byte];
    rewrite has_byte_append, absent_zeros, absent_decimal; [| reflexivity].
  cbn in not_numeric. apply orb_false_elim in not_numeric as [Hm _].
  now rewrite Hm.
Qed.

Lemma absent_take (n : nat) (s : string) :
  strings.has_byte c s = false -> strings.has_byte c (strings.take n s) = false.
Proof.
  revert s. induction n as [|n IH]; intros [|d s]; cbn; try reflexivity.
  intros H. apply orb_false_elim in H as [Hd Hs]. now rewrite Hd, IH.
Qed.

Lemma absent_drop (n : nat) (s : string) :
  strings.has_byte c s = false -> strings.has_byte c (strings.drop n s) = false.
Proof.
  revert s. induction n as [|n IH]; intros [|d s]; cbn; try reflexivity; try tauto.
  intros H. apply orb_false_elim in H as [Hd Hs]. now apply IH.
Qed.

End absent_byte.

(** ** Cutting and replacing behind a prefix *)

Lemma length_drop_succ (k : nat) (c : ascii) (s : string) :
  String.length (strings.drop (S k) (String c s)) <= String.length s.
Proof.
  cbn [strings.drop]. revert s.
  induction k as [|k IH]; intros [|d s]; cbn; try lia.
  specialize (IH s). lia.
Qed.

(** Fuel beyond the length of the string changes nothing. *)
Lemma genSplit_fuel (c : ascii) (n : nat) :
  forall (s : string) (m : nat),
    String.length s <= n -> String.length s <= m ->
    strings.genSplit s (String c "") n = strings.genSplit s (String c "") m.
Proof.
  induction n as [|n IH]; intros s m Hn Hm.
  - destruct s; [| cbn in Hn; lia].
    destruct m; reflexivity.
  - destruct m as [|m].
    + destruct s; [reflexivity | cbn in Hm; lia].
    + cbn [strings.genSplit].
      destruct (strings.Index s (String c "")) as [i|] eqn:Hi; [| reflexivity].
      f_equal. destruct s as [|d s]; [discriminate Hi |].
      rewrite Nat.add_1_r.
      pose proof (length_drop_succ i d s). cbn in Hn, Hm.
      apply IH; lia.
Qed.

Lemma Split_cons (c : ascii) (a b : string) :
  strings.has_byte c a = false ->
  strings.Split (a +:+ String c b) (String c "")
  = a :: strings.Split b (String c "").
Proof.
  intros Ha. unfold strings.Split. simpl String.eqb. cbv iota.
  rewrite length_append. simpl String.length.
  rewrite Nat.add_succ_r. cbn [strings.genSplit].
  rewrite (Index_first c a b Ha), take_append, drop_append.
  simpl strings.drop. f_equal.
  apply genSplit_fuel; lia.
Qed.

Lemma Split_none (c : ascii) (s : string) :
  strings.has_byte c s = false -> strings.Split s (String c "") = [s].
Proof.
  intros Hs. unfold strings.Split. simpl String.eqb. cbv iota.
  apply genSplit_absent. now apply Index_absent.
Qed.

Lemma Index_skip (c : ascii) (p a s : string) :
  strings.has_byte c a = false ->
  strings.Index (a +:+ s) (String c p)
  = option_map (Nat.add (String.length a)) (strings.Index s (String c p)).
Proof.
  induction a as [|x a IH]; intros Ha.
  - cbn. now destruct (strings.Index s (String c p)).
  - cbn in Ha. apply orb_false_elim in Ha as [Hx Ha].
    cbn [String.append strings.Index strings.HasPrefix]. rewrite Hx. cbn [andb].
    rewrite (IH Ha). now destruct (strings.Index s (String c p)).
Qed.

Lemma take_append_add (a s : string) (i : nat) :
  strings.take (String.length a + i) (a +:+ s) = a +:+ strings.take i s.
Proof. induction a as [|x a IH]; cbn; [reflexivity | now rewrite IH]. Qed.

(** A prefix without the first byte of [old] is stepped over. *)
Lemma Replace_skip (c : ascii) (p a s new : string) :
  strings.has_byte c a = false ->
  strings.Replace (a +:+ s) (String c p) new 1
  = a +:+ strings.Replace s (String c p) new 1.
Proof.
  intros Ha. cbn [strings.Replace]. rewrite (Index_skip c p a s Ha).
  destruct (strings.Index s (String c p)) as [i|]; cbn [option_map]; [| reflexivity].
  rewrite take_append_add, <- Nat.add_assoc, drop_append.
  now rewrite append_assoc.
Qed.

(** ** The level token for every level value *)
Lemma level_token_cases (l : logrus.Level) :
  In (level_token l)
    ["PANIC  "; "FATAL  "; "ERROR  "; "WARNING"; "INFO   "; "DEBUG  "; "TRACE  ";
     "UNKNOWN"].
Proof.
  destruct l as [|[[[p|p|]|[p|p|]|]|[[p|p|]|[p|p|]|]|]]; cbn; tauto.
Qed.

Lemma level_token_no_percent (l : logrus.Level) :
  strings.has_byte "%"%char (level_token l) = false.
Proof.
  pose proof (level_token_cases l) as Hin. cbn in Hin.
  repeat (destruct Hin as [<- | Hin]; [reflexivity |]). contradiction.
Qed.

(** X1.  The level column of [Format] is seven bytes wide for every value of
    [logrus.Level]: the six severities, [Trace], and any other number, which
    logrus names [unknown]. *)
Theorem level_token_always_seven (l : logrus.Level) :
  String.length (level_token l) = 7.
Proof.
  pose proof (level_token_cases l) as Hin. cbn in Hin.
  repeat (destruct Hin as [<- | Hin]; [reflexivity |]). contradiction.
Qed.

(** ** The default line *)
Lemma formatStampMilli_clock (t : time.Time) :
  strings.Split (time.formatStampMilli t) " "
  = if (time.Day t <? 10)%Z
    then [strings.take 3 (time.Month_String (time.Mon t)); "";
          time.appendInt (time.Day t) 0; stamp_clock t]
    else [strings.take 3 (time.Month_String (time.Mon t));
          time.appendInt (time.Day t) 0; stamp_clock t].
Proof.
  assert (Hsp : strings.has_byte " "%char "-0123456789" = false) by reflexivity.
  assert (Hmon : strings.has_byte " "%char
                   (strings.take 3 (time.Month_String (time.Mon t))) = false)
    by (destruct (time.Mon t); reflexivity).
  assert (Hclock : strings.has_byte " "%char (stamp_clock t) = false).
  { unfold stamp_clock.
    rewrite !has_byte_append, !(absent_appendInt _ Hsp),
      (absent_take _ _ _ (absent_appendInt _ Hsp _ _)).
    reflexivity. }
  unfold time.formatStampMilli. fold (stamp_clock t).
  destruct (time.Day t <? 10)%Z.
  - change (strings.take 3 (time.Month_String (time.Mon t)) +:+ " " +:+ " "
              +:+ time.appendInt (time.Day t) 0 +:+ " " +:+ stamp_clock t)
      with (strings.take 3 (time.Month_String (time.Mon t))
              +:+ String " " ("" +:+ String " "
                    (time.appendInt (time.Day t) 0 +:+ String " " (stamp_clock t)))).
    rewrite (Split_cons _ _ _ Hmon), (Split_cons " " "" _ eq_refl),
      (Split_cons _ _ _ (absent_appendInt _ Hsp _ _)), (Split_none _ _ Hclock).
    reflexivity.
  - change (strings.take 3 (time.Month_String (time.Mon t)) +:+ " " +:+ ""
              +:+ time.appendInt (time.Day t) 0 +:+ " " +:+ stamp_clock t)
      with (strings.take 3 (time.Month_String (time.Mon t))
              +:+ String " "
                    (time.appendInt (time.Day t) 0 +:+ String " " (stamp_clock t))).
    rewrite (Split_cons _ _ _ Hmon),
      (Split_cons _ _ _ (absent_appendInt _ Hsp _ _)), (Split_none _ _ Hclock).
    reflexivity.
Qed.

Section default_line.

Context {RT : GoRuntime}.

Lemma rendered_clock_StampMilli (t : time.Time) :
  rendered_clock t defaultTimestampFormat = stamp_clock t.
Proof.
  unfold rendered_clock.
  change (time.Format time_layout t defaultTimestampFormat)
    with (time.formatStampMilli t).
  rewrite formatStampMilli_clock.
  destruct (time.Day t <? 10)%Z; reflexivity.
Qed.

Lemma default_time_no_percent (t : time.Time) :
  strings.has_byte "%"%char (rfc3339_date t +:+ " " +:+ stamp_clock t) = false.
Proof.
  assert (Hp : strings.has_byte "%"%char "-0123456789" = false) by reflexivity.
  unfold rfc3339_date, stamp_clock.
  rewrite !has_byte_append, !(absent_appendInt _ Hp),
    (absent_take _ _ _ (absent_appendInt _ Hp _ _)).
  reflexivity.
Qed.

Lemma substituted_default (f : Formatter.t) (entry : logrus.Entry.t) :
  Formatter.LogFormat f = "" -> Formatter.TimestampFormat f = "" ->
  substituted f entry
  = rfc3339_date (logrus.Entry.Time entry) +:+ " "
      +:+ stamp_clock (logrus.Entry.Time entry) +:+ "|"
      +:+ level_token (logrus.Entry.Level entry) +:+ "|"
      +:+ Formatter.FuncName f +:+ "(" +:+ Formatter.FileName f +:+ ")|"
      +:+ logrus.Entry.Message entry +:+ newline.
Proof.
  intros Hfmt Hts. unfold substituted. rewrite Hfmt, Hts.
  simpl String.eqb. cbv iota zeta.
  rewrite rendered_date_rfc3339, rendered_clock_StampMilli.
  set (T := rfc3339_date (logrus.Entry.Time entry) +:+ " "
              +:+ stamp_clock (logrus.Entry.Time entry)).
  set (tok := level_token (logrus.Entry.Level entry)).
  set (m := logrus.Entry.Message entry).
  assert (HT : strings.has_byte "%"%char T = false)
    by apply default_time_no_percent.
  assert (Htok : strings.has_byte "%"%char (T +:+ "|" +:+ tok) = false).
  { rewrite !has_byte_append, HT. unfold tok. now rewrite level_token_no_percent. }
  change (strings.Replace defaultLogFormat "%time%" T 1)
    with (T +:+ "|%lvl%|%func%(%line%)|%msg%" +:+ newline).
  rewrite (Replace_skip _ _ _ _ _ HT).
  change (strings.Replace ("|%lvl%|%func%(%line%)|%msg%" +:+ newline) "%msg%" m 1)
    with ("|%lvl%|%func%(%line%)|" +:+ m +:+ newline).
  rewrite (Replace_skip _ _ _ _ _ HT).
  change (strings.Replace ("|%lvl%|%func%(%line%)|" +:+ m +:+ newline) "%lvl%" tok 1)
    with ("|" +:+ tok +:+ "|%func%(%line%)|" +:+ m +:+ newline).
  replace (T +:+ "|" +:+ tok +:+ "|%func%(%line%)|" +:+ m +:+ newline)
    with ((T +:+ "|" +:+ tok) +:+ "|%func%(%line%)|" +:+ m +:+ newline)
    by (now rewrite !append_assoc).
  rewrite (Replace_skip _ _ _ _ _ Htok).
  change (strings.Replace ("|%func%(%line%)|" +:+ m +:+ newline) "%line%"
            (Formatter.FileName f) 1)
    with ("|%func%(" +:+ Formatter.FileName f +:+ ")|" +:+ m +:+ newline).
  rewrite (Replace_skip _ _ _ _ _ Htok).
  change (strings.Replace ("|%func%(" +:+ Formatter.FileName f +:+ ")|" +:+ m +:+ newline)
            "%func%" (Formatter.FuncName f) 1)
    with ("|" +:+ Formatter.FuncName f +:+ "(" +:+ Formatter.FileName f +:+ ")|"
            +:+ m +:+ newline).
  unfold T. now rewrite !append_assoc.
Qed.

End default_line.

(** X2.  With an empty [LogFormat] and an empty [TimestampFormat], which is what
    [&Formatter{}] gives, and an entry without fields, [Format] returns the
    line [date clock|LEVEL|func(site)|message] and a newline: the date is
    that of the RFC 3339 rendering, the clock is the [15:04:05.000] of
    [time.StampMilli].  The line is this one whatever the message, the site
    and the function name contain, percent signs included. *)
Theorem Format_default_line (RT : GoRuntime) (f : Formatter.t) (entry : logrus.Entry.t) :
  Formatter.LogFormat f = "" ->
  Formatter.TimestampFormat f = "" ->
  logrus.Entry.Data entry = [] ->
  Formatter.Format f entry
  = ok (list_byte_of_string
          (rfc3339_date (logrus.Entry.Time entry) +:+ " "
             +:+ stamp_clock (logrus.Entry.Time entry) +:+ "|"
             +:+ level_token (logrus.Entry.Level entry) +:+ "|"
             +:+ Formatter.FuncName f +:+ "(" +:+ Formatter.FileName f +:+ ")|"
             +:+ logrus.Entry.Message entry +:+ newline)).
Proof.
  intros Hfmt Hts Hdata.
  rewrite Format_substituted, Hdata, (substituted_default f entry Hfmt Hts).
  reflexivity.
Qed.

Lemma Format_default_line_witness :
  Formatter.Format (RT := example_runtime) example_formatter
    {| logrus.Entry.Data := []; logrus.Entry.Time := example_time;
       logrus.Entry.Level := WarnLevel; logrus.Entry.Message := "disk at 93%" |}
  = ok (list_byte_of_string
          ("2021-03-09 10:16:18.000|WARNING|ExampleSWLog_Debug(examples/example_log_test.go:23)|disk at 93%"
             +:+ newline)).
Proof.
  apply (Format_default_line example_runtime example_formatter
           {| logrus.Entry.Data := []; logrus.Entry.Time := example_time;
              logrus.Entry.Level := WarnLevel; logrus.Entry.Message := "disk at 93%" |});
    reflexivity.
Defined.

(** X3.  A non-empty [LogFormat] without a percent sign is returned as it is:
    time, level, site, function, message and fields all go unprinted. *)
Theorem Format_template_without_placeholder (RT : GoRuntime) (f : Formatter.t)
  (entry : logrus.Entry.t) :
  Formatter.LogFormat f <> "" ->
  strings.has_byte "%"%char (Formatter.LogFormat f) = false ->
  Formatter.Format f entry = ok (list_byte_of_string (Formatter.LogFormat f)).
Proof.
  intros Hne Hp. rewrite Format_substituted. unfold substituted.
  destruct (String.eqb_spec (Formatter.LogFormat f) "") as [He | _]; [contradiction |].
  cbv zeta.
  assert (Hr : forall p new : string,
             strings.Replace (Formatter.LogFormat f) (String "%" p) new 1
             = Formatter.LogFormat f)
    by (intros; now apply Replace_absent, Index_absent).
  rewrite !Hr. now rewrite replace_fields_inert.
Qed.

Lemma Format_template_without_placeholder_witness :
  Formatter.Format (RT := example_runtime)
    {| Formatter.TimestampFormat := ""; Formatter.LogFormat := "-- mark --";
       Formatter.FileName := "main.go:7"; Formatter.FuncName := "main" |}
    example_entry
  = ok (list_byte_of_string "-- mark --").
Proof.
  apply (Format_template_without_placeholder example_runtime
           {| Formatter.TimestampFormat := ""; Formatter.LogFormat := "-- mark --";
              Formatter.FileName := "main.go:7"; Formatter.FuncName := "main" |}
           example_entry);
    [discriminate | reflexivity].
Defined.

(** ** Enabled and disabled calls on a logger that is set up *)
Section calls.

Context {RT : GoRuntime}.

Lemma method_level_above_Info (level : logrus.Level) :
  (logrus.InfoLevel < level)%N -> method_level level = logrus.DebugLevel.
Proof.
  intros Hlt. unfold method_level.
  unfold logrus.PanicLevel, logrus.FatalLevel, logrus.ErrorLevel, logrus.WarnLevel,
    logrus.InfoLevel in *.
  repeat match goal with
         | |- context [(level =? ?k)%N] =>
             destruct (N.eqb_spec level k) as [E | _]; [exfalso; lia |]
         end.
  reflexivity.
Qed.

Lemma finish_above_Info (level : logrus.Level) (args : list Value) (w : World) :
  (logrus.InfoLevel < level)%N -> finish level args w = Returns tt w.
Proof.
  intros Hlt. apply finish_returns.
  unfold logrus.InfoLevel, logrus.ErrorLevel in *. lia.
Qed.

End calls.

(** X4.  On an instance that is set up, a call at a level above the threshold
    ([LogLevel < level]) returns, writes nothing and does not read the clock;
    it still stores the site and the function name in the formatters of both
    sinks. *)
Theorem Log_below_threshold (RT : GoRuntime) (w : World) (p : addr) (l : SWLog)
  (s f : addr) (Ls Lf : Logger) (outS outF : Writer) (fmS : FormatterI)
  (fF : Formatter.t) (level : logrus.Level) (site func : string) (args : list Value) :
  Setup w p l s f Ls Lf outS outF fmS fF ->
  isLevelEnabled l level = false ->
  exists w' : World,
    Log p level site func args w = Returns tt w'
    /\ output w' = output w
    /\ ticks w' = ticks w
    /\ swlogs w' = swlogs w
    /\ loggers w' !! s = Some (set_Formatter (Some (decorate site func fmS)) Ls)
    /\ loggers w' !! f
       = Some (set_Formatter (Some (decorate site func (PtrFormatter fF))) Lf).
Proof.
  intros HS Hdis.
  rewrite (Log_closed _ _ _ _ _ _ _ _ _ _ _ level site func args HS). cbv zeta.
  rewrite Hdis. eexists. split; [reflexivity |].
  pose proof (Setup_decorated _ _ _ _ _ _ _ _ _ _ _ site func HS)
    as [_ _ _ _ _ HLs HLf _ _ _ _ _].
  repeat split; assumption.
Qed.

Lemma Log_below_threshold_witness :
  isLevelEnabled example_SWLogger 6%N = false
  /\ exists w' : World,
       Log (RT := example_runtime) SWLogger 6%N "main.go:7" "main" [VString "x"]
         example_world
       = Returns tt w'
       /\ output w' = output example_world
       /\ ticks w' = ticks example_world
       /\ swlogs w' = swlogs example_world
       /\ loggers w' !! 1
          = Some (set_Formatter
                    (Some (decorate "main.go:7" "main" (PtrFormatter Formatter.zero)))
                    example_console)
       /\ loggers w' !! 0
          = Some (set_Formatter
                    (Some (decorate "main.go:7" "main" (PtrFormatter Formatter.zero)))
                    example_file).
Proof.
  split; [reflexivity |].
  apply (Log_below_threshold example_runtime example_world SWLogger
           example_SWLogger 1 0 example_console example_file Stderr
           (RotateLogs "/tmp/test.log.%Y-%m-%d" "/tmp/test.log")
           (PtrFormatter Formatter.zero) Formatter.zero
           6%N "main.go:7" "main" [VString "x"] example_world_Setup).
  reflexivity.
Defined.

(** X5.  [Log] at any enabled level above [Info], be it [Debug], [Trace] or a
    larger number, takes the [default] branch of the switch: it behaves
    exactly as [Log] at [DebugLevel]. *)
Theorem Log_above_Info_is_Debug (RT : GoRuntime) (w : World) (p : addr) (l : SWLog)
  (s f : addr) (Ls Lf : Logger) (outS outF : Writer) (fmS : FormatterI)
  (fF : Formatter.t) (level : logrus.Level) (site func : string) (args : list Value) :
  Setup w p l s f Ls Lf outS outF fmS fF ->
  (logrus.InfoLevel < level)%N ->
  isLevelEnabled l level = true ->
  Log p level site func args w = Log p logrus.DebugLevel site func args w.
Proof.
  intros HS Hlt Hen.
  assert (HenD : isLevelEnabled l logrus.DebugLevel = true).
  { unfold isLevelEnabled, uint32_ge in *. apply N.leb_le. apply N.leb_le in Hen.
    unfold logrus.InfoLevel, logrus.DebugLevel in *. lia. }
  assert (Hnt : (level <=? logrus.FatalLevel)%N = false).
  { apply N.leb_gt. unfold logrus.InfoLevel, logrus.FatalLevel in *. lia. }
  rewrite !(Log_closed _ _ _ _ _ _ _ _ _ _ _ _ site func args HS). cbv zeta.
  rewrite Hen, HenD. unfold console_events, file_events.
  rewrite (method_level_above_Info level Hlt), Hnt, (finish_above_Info level args _ Hlt).
  reflexivity.
Qed.

Lemma Log_above_Info_is_Debug_witness :
  Log (RT := example_runtime) SWLogger 6%N "main.go:7" "main" [VString "x"]
    (world_of (SetLogLevel 6%N example_world))
  = Log (RT := example_runtime) SWLogger logrus.DebugLevel "main.go:7" "main"
      [VString "x"] (world_of (SetLogLevel 6%N example_world)).
Proof.
  apply (Log_above_Info_is_Debug example_runtime
           (world_of (SetLogLevel 6%N example_world)) SWLogger
           (set_LogLevel 6%N example_SWLogger) 1 0
           (set_Level 6%N example_console) (set_Level 6%N example_file) Stderr
           (RotateLogs "/tmp/test.log.%Y-%m-%d" "/tmp/test.log")
           (PtrFormatter Formatter.zero) Formatter.zero 6%N "main.go:7" "main"
           [VString "x"]).
  - split; try reflexivity. discriminate.
  - reflexivity.
  - reflexivity.
Defined.

(** X6.  A [Log] call at [PanicLevel] on an instance that is set up is filtered
    by no threshold: it always writes exactly one line and then panics with
    the entry.  The line goes to the console sink when echo is on and to the
    file sink otherwise. *)
Theorem Log_Panic_never_filtered (RT : GoRuntime) (w : World) (p : addr) (l : SWLog)
  (s f : addr) (Ls Lf : Logger) (outS outF : Writer) (fmS : FormatterI)
  (fF : Formatter.t) (site func : string) (args : list Value) :
  Setup w p l s f Ls Lf outS outF fmS fF ->
  exists (w' : World) (data : bytes),
    Log p logrus.PanicLevel site func args w = Panics (PanicEntry (fmt_Sprint args)) w'
    /\ output w'
       = (output w
            ++ [if IsLog2STD l then SinkWrite s outS data else SinkWrite f outF data])%list.
Proof.
  intros HS.
  rewrite (Log_closed _ _ _ _ _ _ _ _ _ _ _ logrus.PanicLevel site func args HS).
  cbv zeta. unfold isLevelEnabled. rewrite uint32_ge_0.
  unfold console_events, file_events.
  change (method_level logrus.PanicLevel) with logrus.PanicLevel.
  rewrite !uint32_ge_0, !andb_true_r.
  change (finish logrus.PanicLevel args) with (Panics (A := unit) (PanicEntry (fmt_Sprint args))).
  destruct (IsLog2STD l); cbn [negb andb app length].
  - match goal with
    | |- context [sink_event s outS ?fm ?e] =>
        destruct (sink_event_is_write s outS fm e) as (data & ->)
    end.
    eexists _, data. split; reflexivity.
  - match goal with
    | |- context [sink_event f outF ?fm ?e] =>
        destruct (sink_event_is_write f outF fm e) as (data & ->)
    end.
    eexists _, data. split; reflexivity.
Qed.

Lemma Log_Panic_never_filtered_witness :
  exists (w' : World) (data : bytes),
    Log (RT := example_runtime) SWLogger logrus.PanicLevel "main.go:7" "main"
      [VString "x"] example_world
    = Panics (PanicEntry "x") w'
    /\ output w' = (output example_world ++ [SinkWrite 1 Stderr data])%list.
Proof.
  exact (Log_Panic_never_filtered example_runtime example_world SWLogger
           example_SWLogger 1 0 example_console example_file Stderr
           (RotateLogs "/tmp/test.log.%Y-%m-%d" "/tmp/test.log")
           (PtrFormatter Formatter.zero) Formatter.zero
           "main.go:7" "main" [VString "x"] example_world_Setup).
Defined.

(** X7.  An enabled [Log] call at [FatalLevel] ends the process with status 1
    after at most one write: the console sink's when echo is on, the file
    sink's otherwise. *)
Theorem Log_Fatal_enabled_exits (RT : GoRuntime) (w : World) (p : addr) (l : SWLog)
  (s f : addr) (Ls Lf : Logger) (outS outF : Writer) (fmS : FormatterI)
  (fF : Formatter.t) (site func : string) (args : list Value) :
  Setup w p l s f Ls Lf outS outF fmS fF ->
  isLevelEnabled l logrus.FatalLevel = true ->
  exists w' : World,
    Log p logrus.FatalLevel site func args w = Exits 1%Z w'
    /\ output w'
       = (output w
            ++ (if IsLog2STD l
                then console_events l s Ls outS (decorate site func fmS)
                       logrus.FatalLevel args (ticks w)
                else file_events l f Lf outF (decorate site func (PtrFormatter fF))
                       logrus.FatalLevel args (ticks w)))%list
    /\ length (output w') <= S (length (output w)).
Proof.
  intros HS Hen.
  rewrite (Log_closed _ _ _ _ _ _ _ _ _ _ _ logrus.FatalLevel site func args HS).
  cbv zeta. rewrite Hen.
  change (finish logrus.FatalLevel args) with (Exits (A := unit) 1%Z).
  eexists. split; [reflexivity |].
  unfold console_events, file_events.
  destruct (IsLog2STD l); cbn [negb andb app length logged output decorated with_loggers ticks].
  - rewrite app_nil_r. split; [reflexivity |].
    destruct (uint32_ge _ _); rewrite length_app; cbn; lia.
  - rewrite Nat.add_0_r. split; [reflexivity |].
    destruct (uint32_ge _ _); rewrite length_app; cbn; lia.
Qed.

Lemma Log_Fatal_enabled_exits_witness :
  exists w' : World,
    Log (RT := example_runtime) SWLogger logrus.FatalLevel "main.go:7" "main"
      [VString "x"] example_world
    = Exits 1%Z w'
    /\ output w'
       = (output example_world
            ++ console_events (RT := example_runtime) example_SWLogger 1 example_console
                 Stderr (decorate "main.go:7" "main" (PtrFormatter Formatter.zero))
                 logrus.FatalLevel [VString "x"] (ticks example_world))%list
    /\ length (output w') <= S (length (output example_world)).
Proof.
  exact (Log_Fatal_enabled_exits example_runtime example_world SWLogger
           example_SWLogger 1 0 example_console example_file Stderr
           (RotateLogs "/tmp/test.log.%Y-%m-%d" "/tmp/test.log")
           (PtrFormatter Formatter.zero) Formatter.zero
           "main.go:7" "main" [VString "x"] example_world_Setup eq_refl).
Defined.

(** X8.  A [Log] call at [ErrorLevel] or any less severe level returns.  It
    leaves the [SWLog] struct as it was, adds at most two events, each a
    write of the console sink or of the file sink, and leaves the instance
    set up, with the site and the function name stored in both formatters. *)
Theorem Log_returns_and_keeps_set_up (RT : GoRuntime) (w : World) (p : addr)
  (l : SWLog) (s f : addr) (Ls Lf : Logger) (outS outF : Writer) (fmS : FormatterI)
  (fF : Formatter.t) (level : logrus.Level) (site func : string) (args : list Value) :
  Setup w p l s f Ls Lf outS outF fmS fF ->
  (logrus.ErrorLevel <= level)%N ->
  exists (w' : World) (events : list Event),
    Log p level site func args w = Returns tt w'
    /\ swlogs w' = swlogs w
    /\ output w' = (output w ++ events)%list
    /\ length events <= 2
    /\ Forall
         (fun e => exists data : bytes,
                     e = SinkWrite s outS data \/ e = SinkWrite f outF data) events
    /\ Setup w' p l s f
         (set_Formatter (Some (decorate site func fmS)) Ls)
         (set_Formatter (Some (decorate site func (PtrFormatter fF))) Lf)
         outS outF (decorate site func fmS)
         (Formatter_set_FuncName func (Formatter_set_FileName site fF)).
Proof.
  intros HS Hle.
  pose proof (Setup_decorated _ _ _ _ _ _ _ _ _ _ _ site func HS) as HS0.
  rewrite (Log_closed _ _ _ _ _ _ _ _ _ _ _ level site func args HS). cbv zeta.
  destruct (isLevelEnabled l level).
  - rewrite (finish_returns level args _ Hle).
    eexists _, _. split; [reflexivity |]. split; [reflexivity |].
    split; [reflexivity |].
    split; [| split].
    + unfold console_events, file_events.
      destruct (_ && _), (_ && _); cbn; lia.
    + apply Forall_app. split.
      * unfold console_events. destruct (_ && _); [| constructor].
        match goal with
        | |- context [sink_event s outS ?fm ?e] =>
            destruct (sink_event_is_write s outS fm e) as (data & ->)
        end.
        repeat constructor. exists data. now left.
      * unfold file_events. destruct (_ && _); [| constructor].
        match goal with
        | |- context [sink_event f outF ?fm ?e] =>
            destruct (sink_event_is_write f outF fm e) as (data & ->)
        end.
        repeat constructor. exists data. now right.
    + destruct HS0. split; assumption.
  - exists (decorated site func s f Ls Lf fmS fF w), [].
    split; [reflexivity |]. split; [reflexivity |].
    split; [cbn; now rewrite app_nil_r |].
    split; [cbn; lia |]. split; [constructor | exact HS0].
Qed.

Lemma Log_returns_and_keeps_set_up_witness :
  exists (w' : World) (events : list Event),
    Log (RT := example_runtime) SWLogger logrus.WarnLevel "main.go:7" "main"
      [VString "x"] example_world
    = Returns tt w'
    /\ swlogs w' = swlogs example_world
    /\ output w' = (output example_world ++ events)%list
    /\ length events <= 2
    /\ Forall
         (fun e => exists data : bytes,
                     e = SinkWrite 1 Stderr data
                     \/ e = SinkWrite 0 (RotateLogs "/tmp/test.log.%Y-%m-%d" "/tmp/test.log") data)
         events
    /\ Setup w' SWLogger example_SWLogger 1 0
         (set_Formatter
            (Some (decorate "main.go:7" "main" (PtrFormatter Formatter.zero)))
            example_console)
         (set_Formatter
            (Some (decorate "main.go:7" "main" (PtrFormatter Formatter.zero)))
            example_file)
         Stderr (RotateLogs "/tmp/test.log.%Y-%m-%d" "/tmp/test.log")
         (decorate "main.go:7" "main" (PtrFormatter Formatter.zero))
         (Formatter_set_FuncName "main" (Formatter_set_FileName "main.go:7" Formatter.zero)).
Proof.
  apply (Log_returns_and_keeps_set_up example_runtime example_world SWLogger
           example_SWLogger 1 0 example_console example_file Stderr
           (RotateLogs "/tmp/test.log.%Y-%m-%d" "/tmp/test.log")
           (PtrFormatter Formatter.zero) Formatter.zero
           logrus.WarnLevel "main.go:7" "main" [VString "x"] example_world_Setup).
  unfold logrus.ErrorLevel, logrus.WarnLevel. lia.
Defined.

(** ** [SetLogLevel], [SetRawSTDLogging] and [formatterDecorator] composed *)
Lemma method_level_le (level : logrus.Level) : (method_level level <= level)%N.
Proof.
  unfold method_level.
  unfold logrus.PanicLevel, logrus.FatalLevel, logrus.ErrorLevel, logrus.WarnLevel,
    logrus.InfoLevel, logrus.DebugLevel in *.
  repeat match goal with
         | |- context [(level =? ?k)%N] =>
             destruct (N.eqb_spec level k) as [E | ?]; [lia |]
         end.
  lia.
Qed.

Lemma SetLogLevel_closed (w : World) (l : SWLog) (s f : addr) (Ls Lf : Logger)
  (outS outF : Writer) (fmS : FormatterI) (fF : Formatter.t) (level : logrus.Level) :
  Setup w SWLogger l s f Ls Lf outS outF fmS fF ->
  exists w' : World,
    SetLogLevel level w = Returns tt w'
    /\ output w' = output w /\ ticks w' = ticks w
    /\ Setup w' SWLogger (set_LogLevel level l) s f
         (if IsLog2STD l then set_Level level Ls else Ls) (set_Level level Lf)
         outS outF fmS fF.
Proof.
  intros [Hl Hset Hs Hf Hne HLs HLf HoS HoF HfS Hk HfF].
  unfold SetLogLevel.
  destruct (IsLog2STD l) eqn:Hecho; go_run.
  all: eexists; split; [reflexivity |].
  all: split; [reflexivity |]; split; [reflexivity |].
  all: split; go_run; try assumption; reflexivity.
Qed.

(** X9.  After [SetLogLevel(threshold)] on a [SWLogger] that is set up, a [Log]
    call at a level above the threshold writes nothing, and a call at a level
    from [Error] down that the threshold lets through writes once to the file sink,
    preceded by one console write exactly when echo is on. *)
Theorem SetLogLevel_gates_Log (RT : GoRuntime) (w : World) (l : SWLog) (s f : addr)
  (Ls Lf : Logger) (outS outF : Writer) (fmS : FormatterI) (fF : Formatter.t)
  (threshold : logrus.Level) :
  Setup w SWLogger l s f Ls Lf outS outF fmS fF ->
  exists w' : World,
    SetLogLevel threshold w = Returns tt w'
    /\ (forall (level : logrus.Level) (site func : string) (args : list Value),
          uint32_ge threshold level = false ->
          exists w'' : World,
            Log SWLogger level site func args w' = Returns tt w''
            /\ output w'' = output w)
    /\ (forall (level : logrus.Level) (site func : string) (args : list Value),
          uint32_ge threshold level = true ->
          (logrus.ErrorLevel <= level)%N ->
          exists (w'' : World) (data1 data2 : bytes),
            Log SWLogger level site func args w' = Returns tt w''
            /\ output w''
               = (output w
                    ++ (if IsLog2STD l then [SinkWrite s outS data1] else [])
                    ++ [SinkWrite f outF data2])%list).
Proof.
  intros HS.
  destruct (SetLogLevel_closed _ _ _ _ _ _ _ _ _ _ threshold HS)
    as (w' & Hrun & Hout & Hticks & HS').
  exists w'. split; [exact Hrun |]. split.
  - intros level site func args Hdis.
    rewrite (Log_closed _ _ _ _ _ _ _ _ _ _ _ level site func args HS'). cbv zeta.
    change (isLevelEnabled (set_LogLevel threshold l) level)
      with (uint32_ge threshold level).
    rewrite Hdis. eexists. split; [reflexivity | exact Hout].
  - intros level site func args Hen Hle.
    rewrite (Log_closed _ _ _ _ _ _ _ _ _ _ _ level site func args HS'). cbv zeta.
    change (isLevelEnabled (set_LogLevel threshold l) level)
      with (uint32_ge threshold level).
    rewrite Hen, (finish_returns level args _ Hle).
    assert (Hm : uint32_ge threshold (method_level level) = true).
    { unfold uint32_ge in *. apply N.leb_le. apply N.leb_le in Hen.
      pose proof (method_level_le level). lia. }
    assert (Hnt : (level <=? logrus.FatalLevel)%N = false).
    { apply N.leb_gt. unfold logrus.ErrorLevel, logrus.FatalLevel in *. lia. }
    unfold console_events, file_events.
    cbn [IsLog2STD set_LogLevel Level set_Level].
    rewrite Hnt, andb_false_r. cbn [negb andb]. rewrite Hm.
    destruct (IsLog2STD l); cbn [andb Level set_Level]; rewrite ?Hm.
    + match goal with
      | |- context [sink_event s outS ?fm ?e] =>
          destruct (sink_event_is_write s outS fm e) as (data1 & ->)
      end.
      match goal with
      | |- context [sink_event f outF ?fm ?e] =>
          destruct (sink_event_is_write f outF fm e) as (data2 & ->)
      end.
      eexists _, data1, data2. split; [reflexivity |].
      cbn [logged output decorated with_loggers]. now rewrite Hout.
    + match goal with
      | |- context [sink_event f outF ?fm ?e] =>
          destruct (sink_event_is_write f outF fm e) as (data2 & ->)
      end.
      eexists _, [], data2. split; [reflexivity |].
      cbn [logged output decorated with_loggers app]. now rewrite Hout.
Qed.

Lemma SetLogLevel_gates_Log_witness :
  exists w' : World,
    SetLogLevel logrus.WarnLevel example_world = Returns tt w'
    /\ (exists w'' : World,
          Log (RT := example_runtime) SWLogger logrus.InfoLevel "main.go:7" "main"
            [VString "x"] w'
          = Returns tt w''
          /\ output w'' = output example_world)
    /\ (exists (w'' : World) (data1 data2 : bytes),
          Log (RT := example_runtime) SWLogger logrus.ErrorLevel "main.go:7" "main"
            [VString "x"] w'
          = Returns tt w''
          /\ output w''
             = (output example_world ++ [SinkWrite 1 Stderr data1]
                  ++ [SinkWrite 0 (RotateLogs "/tmp/test.log.%Y-%m-%d" "/tmp/test.log") data2])%list).
Proof.
  destruct (SetLogLevel_gates_Log example_runtime example_world
           example_SWLogger 1 0 example_console example_file Stderr
           (RotateLogs "/tmp/test.log.%Y-%m-%d" "/tmp/test.log")
           (PtrFormatter Formatter.zero) Formatter.zero
              logrus.WarnLevel example_world_Setup)
    as (w' & Hset & Hoff & Hon).
  exists w'. split; [exact Hset |]. split.
  - exact (Hoff logrus.InfoLevel "main.go:7" "main" [VString "x"] eq_refl).
  - apply (Hon logrus.ErrorLevel "main.go:7" "main" [VString "x"] eq_refl).
    unfold logrus.ErrorLevel. lia.
Defined.

(** X10.  [SetRawSTDLogging(true)] followed by [SetRawSTDLogging(false)] writes
    nothing, leaves the file sink untouched and the instance set up, and
    leaves the console sink with a fresh [&Formatter{}]: what its formatter
    held before, a [LogFormat] or a [TimestampFormat], is gone. *)
Theorem SetRawSTDLogging_on_then_off (RT : GoRuntime) (w : World) (p : addr)
  (l : SWLog) (s f : addr) (Ls Lf : Logger) (outS outF : Writer) (fmS : FormatterI)
  (fF : Formatter.t) :
  Setup w p l s f Ls Lf outS outF fmS fF ->
  exists w' : World,
    bind (SetRawSTDLogging p true) (fun _ => SetRawSTDLogging p false) w = Returns tt w'
    /\ output w' = output w
    /\ swlogs w' !! p = Some (set_raw false l)
    /\ loggers w' !! s = Some (set_Formatter (Some (PtrFormatter Formatter.zero)) Ls)
    /\ loggers w' !! f = Some Lf
    /\ Setup w' p (set_raw false l) s f
         (set_Formatter (Some (PtrFormatter Formatter.zero)) Ls) Lf outS outF
         (PtrFormatter Formatter.zero) fF.
Proof.
  intros HS.
  destruct (SetRawSTDLogging_closed _ _ _ _ _ _ _ _ _ _ _ true HS)
    as (w1 & Hrun1 & Hout1 & _ & HS1).
  destruct (SetRawSTDLogging_closed _ _ _ _ _ _ _ _ _ _ _ false HS1)
    as (w2 & Hrun2 & Hout2 & _ & HS2).
  cbn [set_raw set_Formatter Out Level Formatter STDLogger FileLogger IsLog2STD LogFile
         LogLevel skip isSetup raw] in HS2.
  exists w2. unfold bind. rewrite Hrun1. split; [exact Hrun2 |].
  split; [congruence |].
  destruct HS2 as [Hl2 Hset2 Hs2 Hf2 Hne2 HLs2 HLf2 HoS2 HoF2 HfS2 Hk2 HfF2].
  repeat split; assumption.
Qed.

Lemma SetRawSTDLogging_on_then_off_witness :
  exists w' : World,
    bind (SetRawSTDLogging SWLogger true) (fun _ => SetRawSTDLogging SWLogger false)
      example_world
    = Returns tt w'
    /\ output w' = output example_world
    /\ swlogs w' !! SWLogger = Some (set_raw false example_SWLogger)
    /\ loggers w' !! 1
       = Some (set_Formatter (Some (PtrFormatter Formatter.zero)) example_console)
    /\ loggers w' !! 0 = Some example_file
    /\ Setup w' SWLogger (set_raw false example_SWLogger) 1 0
         (set_Formatter (Some (PtrFormatter Formatter.zero)) example_console)
         example_file Stderr (RotateLogs "/tmp/test.log.%Y-%m-%d" "/tmp/test.log")
         (PtrFormatter Formatter.zero) Formatter.zero.
Proof.
  exact (SetRawSTDLogging_on_then_off example_runtime example_world SWLogger
           example_SWLogger 1 0 example_console example_file Stderr
           (RotateLogs "/tmp/test.log.%Y-%m-%d" "/tmp/test.log")
           (PtrFormatter Formatter.zero) Formatter.zero
           example_world_Setup).
Defined.

(** X11.  On an instance whose console sink does not exist yet ([STDLogger] is
    nil, as before [Init]), [SetRawSTDLogging] panics on the nil pointer,
    after it has stored the flag: the [raw] field keeps the value passed. *)
Theorem SetRawSTDLogging_before_Init (w : World) (p : addr) (l : SWLog)
  (isRaw : bool) :
  swlogs w !! p = Some l ->
  STDLogger l = None ->
  SetRawSTDLogging p isRaw w
  = Panics NilDereference (with_swlogs (<[p := set_raw isRaw l]> (swlogs w)) w).
Proof.
  intros Hl Hs. unfold SetRawSTDLogging. go_run. reflexivity.
Qed.

Lemma SetRawSTDLogging_before_Init_witness :
  SetRawSTDLogging SWLogger true initial_world
  = Panics NilDereference
      (with_swlogs (<[SWLogger := set_raw true SWLog_zero]> (swlogs initial_world))
         initial_world).
Proof.
  apply (SetRawSTDLogging_before_Init initial_world SWLogger SWLog_zero true);
    reflexivity.
Defined.

(** X12.  [formatterDecorator] overwrites: two calls in a row leave the world
    that the second call alone leaves. *)
Theorem formatterDecorator_last_call_wins (w : World) (p : addr) (l : SWLog)
  (s f : addr) (Ls Lf : Logger) (outS outF : Writer) (fmS : FormatterI)
  (fF : Formatter.t) (site1 func1 site2 func2 : string) :
  Setup w p l s f Ls Lf outS outF fmS fF ->
  bind (formatterDecorator p site1 func1) (fun _ => formatterDecorator p site2 func2) w
  = formatterDecorator p site2 func2 w.
Proof.
  intros HS.
  pose proof (Setup_decorated _ _ _ _ _ _ _ _ _ _ _ site1 func1 HS) as HS1.
  unfold bind.
  rewrite (formatterDecorator_closed _ _ _ _ _ _ _ _ _ _ _ site1 func1 HS),
    (formatterDecorator_closed _ _ _ _ _ _ _ _ _ _ _ site2 func2 HS1),
    (formatterDecorator_closed _ _ _ _ _ _ _ _ _ _ _ site2 func2 HS).
  f_equal. unfold decorated, with_loggers. cbn [swlogs loggers next output ticks].
  f_equal. destruct HS as [_ _ _ _ Hne _ _ _ _ _ _ _].
  apply map_eq. intros a.
  destruct (decide (a = f)) as [-> | Haf].
  - rewrite !lookup_insert_eq. reflexivity.
  - rewrite !(lookup_insert_ne _ f a) by congruence.
    destruct (decide (a = s)) as [-> | Has].
    + rewrite !lookup_insert_eq. destruct fmS; reflexivity.
    + repeat (rewrite lookup_insert_ne by congruence). reflexivity.
Qed.

Lemma formatterDecorator_last_call_wins_witness :
  bind (formatterDecorator SWLogger "a.go:1" "f")
    (fun _ => formatterDecorator SWLogger "b.go:2" "g") example_world
  = formatterDecorator SWLogger "b.go:2" "g" example_world.
Proof.
  exact (formatterDecorator_last_call_wins example_world SWLogger
           example_SWLogger 1 0 example_console example_file Stderr
           (RotateLogs "/tmp/test.log.%Y-%m-%d" "/tmp/test.log")
           (PtrFormatter Formatter.zero) Formatter.zero
           "a.go:1" "f" "b.go:2" "g" example_world_Setup).
Defined.

(** X13.  Before [Init], when [SWLogger] has no sinks, [SetLogLevel] and
    [GetLogLevel] panic on a nil sink and change nothing. *)
Theorem level_control_before_Init (w : World) (l : SWLog) (level : logrus.Level) :
  swlogs w !! SWLogger = Some l ->
  STDLogger l = None -> FileLogger l = None ->
  SetLogLevel level w = Panics NilDereference w
  /\ GetLogLevel w = Panics NilDereference w.
Proof.
  intros Hl Hs Hf. unfold SetLogLevel, GetLogLevel.
  destruct (IsLog2STD l) eqn:Hecho; go_run; split; reflexivity.
Qed.

Lemma level_control_before_Init_witness :
  SetLogLevel logrus.InfoLevel initial_world = Panics NilDereference initial_world
  /\ GetLogLevel initial_world = Panics NilDereference initial_world.
Proof.
  apply (level_control_before_Init initial_world SWLog_zero logrus.InfoLevel);
    reflexivity.
Defined.

(** ** [Init]: the three fatal paths and the normal one *)
Section init_paths.

Context {RT : GoRuntime}.

(** X14.  [Init] with an empty [logFile] on an instance whose [LogFile] field is
    empty reports [Log file or directory is not set] through logrus's
    standard logger and ends the process with status 1.  By then it has
    stored the level, and created no sink. *)
Theorem Init_without_log_file (w : World) (p : addr) (l : SWLog)
  (level : logrus.Level) (log2STD : bool) (env : InitEnv) (stack : CallStack) :
  swlogs w !! p = Some l ->
  isSetup l = false ->
  LogFile l = "" ->
  exists w' : World,
    Init p "" level log2STD env stack w = Exits 1%Z w'
    /\ swlogs w' !! p = Some (set_LogLevel level l)
    /\ loggers w' = loggers w
    /\ output w'
       = (output w
            ++ [StandardLoggerFatal (fmt_Sprintf "Log file or directory is not set" [])])%list.
Proof.
  intros Hl Hset Hfile. unfold Init, logrus_Fatalf. go_run.
  cbn [String.eqb negb]. go_run. rewrite Hfile. cbn [String.eqb]. go_run.
  eexists. split; [reflexivity |]. go_run. repeat split; reflexivity.
Qed.

(** X15.  When [os.Stat] on the log directory fails with an error that
    [os.IsExist] does not recognise and [os.MkdirAll] fails too, [Init]
    reports [Fail to mkdir], with the directory and the error, and ends the
    process with status 1.  The instance is left not set up, with the level
    and the log file stored and no sink created. *)
Theorem Init_mkdir_failure (w : World) (p : addr) (l : SWLog) (logFile : string)
  (level : logrus.Level) (log2STD : bool) (env : InitEnv) (stack : CallStack)
  (e : string) :
  swlogs w !! p = Some l ->
  isSetup l = false ->
  String.eqb (effective_LogFile logFile l) "" = false ->
  os_Stat env = StatError false ->
  os_MkdirAll env = Some e ->
  exists (w' : World) (l' : SWLog),
    Init p logFile level log2STD env stack w = Exits 1%Z w'
    /\ swlogs w' !! p = Some l'
    /\ isSetup l' = false
    /\ LogLevel l' = level
    /\ LogFile l' = effective_LogFile logFile l
    /\ STDLogger l' = STDLogger l /\ FileLogger l' = FileLogger l
    /\ loggers w' = loggers w
    /\ output w'
       = (output w
            ++ [StandardLoggerFatal
                  (fmt_Sprintf "Fail to mkdir %s; %s"
                     [VString (filepath_Dir (effective_LogFile logFile l)); VString e])])%list.
Proof.
  intros Hl Hset Hpath Hstat Hmk. unfold effective_LogFile in *.
  unfold Init, logrus_Fatalf.
  destruct (String.eqb logFile "") eqn:Harg; go_run.
  all: eexists _, _; split; [reflexivity |]; go_run.
  all: repeat split; try reflexivity; assumption.
Qed.

(** X16.  When [rotatelogs.New] fails, [Init] reports the error and ends the
    process with status 1.  The instance is left not set up, but its file
    sink exists already: a logger at the level passed, with a [&Formatter{}]
    and no output writer set; the console sink is the one it was. *)
Theorem Init_rotatelogs_failure (w : World) (p : addr) (l : SWLog) (logFile : string)
  (level : logrus.Level) (log2STD : bool) (env : InitEnv) (stack : CallStack)
  (e : string) :
  swlogs w !! p = Some l ->
  isSetup l = false ->
  String.eqb (effective_LogFile logFile l) "" = false ->
  (os_Stat env = StatOk \/ os_Stat env = StatError true \/ os_MkdirAll env = None) ->
  rotatelogs_New env = Some e ->
  exists (w' : World) (l' : SWLog),
    Init p logFile level log2STD env stack w = Exits 1%Z w'
    /\ swlogs w' !! p = Some l'
    /\ isSetup l' = false
    /\ STDLogger l' = STDLogger l
    /\ FileLogger l' = Some (next w)
    /\ loggers w' !! next w
       = Some {| Out := None; Formatter := Some (PtrFormatter Formatter.zero);
                 Level := level |}
    /\ output w'
       = (output w
            ++ [StandardLoggerFatal
                  (fmt_Sprintf "config local file system for logger error: %s"
                     [VString e])])%list.
Proof.
  intros Hl Hset Hpath Henv Hrot. unfold effective_LogFile in *.
  assert (Hmk : os_Stat env = StatError false -> os_MkdirAll env = None).
  { intros Hst. destruct Henv as [Hs | [Hs | Hm]]; [congruence | congruence | exact Hm]. }
  destruct (os_Stat env) as [|[|]] eqn:Hstat; try specialize (Hmk eq_refl).
  all: unfold Init, logrus_Fatalf.
  all: destruct (String.eqb logFile "") eqn:Harg; go_run.
  all: eexists _, _; split; [reflexivity |]; go_run.
  all: repeat split; try reflexivity; assumption.
Qed.

(** X17.  [Init] on an instance that is not set up and not raw, with a log file
    (the argument, or the [LogFile] field when the argument is empty) and no
    error from the file system, returns without writing and leaves the
    instance set up.  The file sink writes to the rotating file
    [<log file>.%Y-%m-%d], linked from the log file, at the level passed; the
    console sink writes to standard error, at the level passed for [SWLogger]
    itself and at [SWLogger.LogLevel] for any other instance; both sinks hold
    a [&Formatter{}]; [skip] is 2; exactly two loggers were allocated. *)
Theorem Init_sets_up (w : World) (p : addr) (l g : SWLog) (logFile : string)
  (level : logrus.Level) (log2STD : bool) (env : InitEnv) (stack : CallStack) :
  swlogs w !! p = Some l ->
  isSetup l = false ->
  raw l = false ->
  swlogs w !! SWLogger = Some g ->
  String.eqb (effective_LogFile logFile l) "" = false ->
  (os_Stat env = StatOk \/ os_Stat env = StatError true \/ os_MkdirAll env = None) ->
  rotatelogs_New env = None ->
  exists (w' : World) (l' : SWLog) (Ls Lf : Logger),
    Init p logFile level log2STD env stack w = Returns tt w'
    /\ Setup w' p l' (S (next w)) (next w) Ls Lf Stderr
         (RotateLogs (effective_LogFile logFile l +:+ ".%Y-%m-%d")
            (effective_LogFile logFile l))
         (PtrFormatter Formatter.zero) Formatter.zero
    /\ LogFile l' = effective_LogFile logFile l
    /\ LogLevel l' = level
    /\ IsLog2STD l' = log2STD
    /\ skip l' = 2
    /\ Level Lf = level
    /\ Level Ls = (if Nat.eqb p SWLogger then level else LogLevel g)
    /\ output w' = output w
    /\ next w' = S (S (next w)).
Proof.
  intros Hl Hset Hraw Hg Hpath Henv Hrot. unfold effective_LogFile in *.
  assert (Hn : S (next w) <> next w) by lia.
  assert (Hmk : os_Stat env = StatError false -> os_MkdirAll env = None).
  { intros Hst. destruct Henv as [Hs | [Hs | Hm]]; [congruence | congruence | exact Hm]. }
  destruct (os_Stat env) as [|[|]] eqn:Hstat; try specialize (Hmk eq_refl).
  all: destruct (Nat.eqb_spec p SWLogger) as [Hp | Hp];
         [subst p; assert (g = l) by congruence; subst g |].
  all: unfold Init.
  all: destruct (String.eqb logFile "") eqn:Harg; go_run.
  all: eexists _, _, _, _; split; [reflexivity |].
  all: split;
         [split; go_run; try reflexivity; try assumption; try lia;
          cbn; symmetry; exact Hraw |].
  all: repeat split; go_run; try reflexivity; try lia.
Qed.

End init_paths.

Lemma Init_without_log_file_witness :
  exists w' : World,
    Init (RT := example_runtime) SWLogger "" logrus.InfoLevel true env_ok example_stack
      initial_world
    = Exits 1%Z w'
    /\ swlogs w' !! SWLogger = Some (set_LogLevel logrus.InfoLevel SWLog_zero)
    /\ loggers w' = loggers initial_world
    /\ output w'
       = (output initial_world
            ++ [StandardLoggerFatal "Log file or directory is not set"])%list.
Proof.
  exact (Init_without_log_file (RT := example_runtime) initial_world SWLogger SWLog_zero
           logrus.InfoLevel true env_ok example_stack eq_refl eq_refl eq_refl).
Defined.

Lemma Init_mkdir_failure_witness :
  exists (w' : World) (l' : SWLog),
    Init (RT := example_runtime) SWLogger "/var/log/app/app.log" logrus.InfoLevel true
      {| os_Stat := StatError false; os_MkdirAll := Some "permission denied";
         rotatelogs_New := None |}
      example_stack initial_world
    = Exits 1%Z w'
    /\ swlogs w' !! SWLogger = Some l'
    /\ isSetup l' = false
    /\ LogLevel l' = logrus.InfoLevel
    /\ LogFile l' = "/var/log/app/app.log"
    /\ STDLogger l' = None /\ FileLogger l' = None
    /\ loggers w' = loggers initial_world
    /\ output w'
       = (output initial_world
            ++ [StandardLoggerFatal
                  (fmt_Sprintf (GoRuntime := example_runtime) "Fail to mkdir %s; %s"
                     [VString "/var/log/app/"; VString "permission denied"])])%list.
Proof.
  exact (Init_mkdir_failure (RT := example_runtime) initial_world SWLogger SWLog_zero
           "/var/log/app/app.log" logrus.InfoLevel true
           {| os_Stat := StatError false; os_MkdirAll := Some "permission denied";
              rotatelogs_New := None |}
           example_stack "permission denied" eq_refl eq_refl eq_refl eq_refl eq_refl).
Defined.

Lemma Init_rotatelogs_failure_witness :
  exists (w' : World) (l' : SWLog),
    Init (RT := example_runtime) SWLogger "/tmp/test.log" logrus.InfoLevel true
      {| os_Stat := StatOk; os_MkdirAll := None;
         rotatelogs_New := Some "invalid pattern" |}
      example_stack initial_world
    = Exits 1%Z w'
    /\ swlogs w' !! SWLogger = Some l'
    /\ isSetup l' = false
    /\ STDLogger l' = None
    /\ FileLogger l' = Some 0
    /\ loggers w' !! 0
       = Some {| Out := None; Formatter := Some (PtrFormatter Formatter.zero);
                 Level := logrus.InfoLevel |}
    /\ output w'
       = (output initial_world
            ++ [StandardLoggerFatal
                  (fmt_Sprintf (GoRuntime := example_runtime)
                     "config local file system for logger error: %s"
                     [VString "invalid pattern"])])%list.
Proof.
  exact (Init_rotatelogs_failure (RT := example_runtime) initial_world SWLogger SWLog_zero
           "/tmp/test.log" logrus.InfoLevel true
           {| os_Stat := StatOk; os_MkdirAll := None;
              rotatelogs_New := Some "invalid pattern" |}
           example_stack "invalid pattern" eq_refl eq_refl eq_refl (or_introl eq_refl)
           eq_refl).
Defined.

Lemma Init_sets_up_witness :
  exists (w' : World) (l' : SWLog) (Ls Lf : Logger),
    Init (RT := example_runtime) SWLogger "/tmp/test.log" logrus.InfoLevel true env_ok
      example_stack initial_world
    = Returns tt w'
    /\ Setup w' SWLogger l' 1 0 Ls Lf Stderr (RotateLogs "/tmp/test.log.%Y-%m-%d" "/tmp/test.log")
         (PtrFormatter Formatter.zero) Formatter.zero
    /\ LogFile l' = "/tmp/test.log"
    /\ LogLevel l' = logrus.InfoLevel
    /\ IsLog2STD l' = true
    /\ skip l' = 2
    /\ Level Lf = logrus.InfoLevel
    /\ Level Ls = logrus.InfoLevel
    /\ output w' = output initial_world
    /\ next w' = 2.
Proof.
  exact (Init_sets_up (RT := example_runtime) initial_world SWLogger SWLog_zero SWLog_zero
           "/tmp/test.log" logrus.InfoLevel true env_ok example_stack
           eq_refl eq_refl eq_refl eq_refl eq_refl (or_introl eq_refl) eq_refl).
Defined.

(** ** A second instance beside an untouched [SWLogger] *)
Lemma method_level_positive (level : logrus.Level) :
  (logrus.FatalLevel <= level)%N -> (logrus.FatalLevel <= method_level level)%N.
Proof.
  intros Hle. unfold method_level.
  unfold logrus.PanicLevel, logrus.FatalLevel, logrus.ErrorLevel, logrus.WarnLevel,
    logrus.InfoLevel, logrus.DebugLevel in *.
  repeat match goal with
         | |- context [(level =? ?k)%N] =>
             destruct (N.eqb_spec level k) as [E | ?]; [lia |]
         end.
  lia.
Qed.

(** X18.  An instance other than [SWLogger], initialised with echo on while
    [SWLogger.LogLevel] is still [PanicLevel] (its zero value), never
    echoes: for every enabled level from [Error] to [Debug] only the file
    sink writes, and an enabled [Fatal] call ends the process with nothing
    written at all. *)
Theorem other_instance_console_is_silent (RT : GoRuntime) (w : World) (p : addr)
  (l g : SWLog) (logFile : string) (threshold : logrus.Level) (env : InitEnv)
  (stack : CallStack) (site func : string) (args : list Value) :
  p <> SWLogger ->
  swlogs w !! p = Some l -> isSetup l = false -> raw l = false ->
  swlogs w !! SWLogger = Some g -> LogLevel g = logrus.PanicLevel ->
  String.eqb logFile "" = false ->
  (os_Stat env = StatOk \/ os_Stat env = StatError true \/ os_MkdirAll env = None) ->
  rotatelogs_New env = None ->
  exists w1 : World,
    Init p logFile threshold true env stack w = Returns tt w1
    /\ (forall level : logrus.Level,
          (logrus.ErrorLevel <= level)%N -> uint32_ge threshold level = true ->
          exists (w2 : World) (data : bytes),
            Log p level site func args w1 = Returns tt w2
            /\ output w2
               = (output w
                    ++ [SinkWrite (next w)
                          (RotateLogs (logFile +:+ ".%Y-%m-%d") logFile) data])%list)
    /\ (uint32_ge threshold logrus.FatalLevel = true ->
        exists w2 : World,
          Log p logrus.FatalLevel site func args w1 = Exits 1%Z w2
          /\ output w2 = output w).
Proof.
  intros Hp Hl Hset Hraw Hg Hzero Hfile Henv Hrot.
  destruct (Init_first w p l g logFile threshold true env stack
              Hl Hset Hraw Hg Hfile Henv Hrot)
    as (w1 & l' & Ls & Lf & Hrun & HS & _ & Hlvl & Hecho & _ & HLf & HLs & Hout).
  apply Nat.eqb_neq in Hp. rewrite Hp, Hzero in HLs.
  exists w1. split; [exact Hrun |]. split.
  - intros level Hle Hen.
    rewrite (Log_closed _ _ _ _ _ _ _ _ _ _ _ level site func args HS). cbv zeta.
    unfold isLevelEnabled. rewrite Hlvl, Hen, (finish_returns level args _ Hle).
    assert (Hsilent : uint32_ge logrus.PanicLevel (method_level level) = false).
    { unfold uint32_ge. apply N.leb_gt.
      assert (logrus.FatalLevel <= level)%N
        by (unfold logrus.FatalLevel, logrus.ErrorLevel in *; lia).
      pose proof (method_level_positive level).
      unfold logrus.PanicLevel, logrus.FatalLevel in *. lia. }
    assert (Hm : uint32_ge threshold (method_level level) = true).
    { unfold uint32_ge in *. apply N.leb_le. apply N.leb_le in Hen.
      pose proof (method_level_le level). lia. }
    assert (Hnt : (level <=? logrus.FatalLevel)%N = false).
    { apply N.leb_gt. unfold logrus.ErrorLevel, logrus.FatalLevel in *. lia. }
    unfold console_events, file_events.
    rewrite Hecho, HLs, HLf, Hsilent, Hnt, Hm. cbn [andb negb app length].
    match goal with
    | |- context [sink_event ?a ?o ?fm ?e] =>
        destruct (sink_event_is_write a o fm e) as (data & ->)
    end.
    eexists _, data. split; [reflexivity |].
    cbn [logged output decorated with_loggers]. now rewrite Hout.
  - intros Hen.
    rewrite (Log_closed _ _ _ _ _ _ _ _ _ _ _ logrus.FatalLevel site func args HS).
    cbv zeta. unfold isLevelEnabled. rewrite Hlvl, Hen.
    change (finish logrus.FatalLevel args) with (Exits (A := unit) 1%Z).
    unfold console_events, file_events. rewrite Hecho, HLs.
    cbn [andb negb app length method_level N.eqb logrus.FatalLevel logrus.PanicLevel
           uint32_ge N.leb N.compare Pos.compare].
    eexists. split; [reflexivity |].
    cbn. now rewrite app_nil_r.
Qed.

Lemma other_instance_console_is_silent_witness :
  exists w1 : World,
    Init (RT := example_runtime) 1 "/tmp/other.log" logrus.DebugLevel true env_ok
      example_stack (world_of (new_SWLog 1 initial_world))
    = Returns tt w1
    /\ (exists (w2 : World) (data : bytes),
          Log (RT := example_runtime) 1 logrus.InfoLevel "main.go:7" "main"
            [VString "x"] w1
          = Returns tt w2
          /\ output w2
             = [SinkWrite 0 (RotateLogs "/tmp/other.log.%Y-%m-%d" "/tmp/other.log") data])
    /\ (exists w2 : World,
          Log (RT := example_runtime) 1 logrus.FatalLevel "main.go:7" "main"
            [VString "x"] w1
          = Exits 1%Z w2
          /\ output w2 = []).
Proof.
  destruct (other_instance_console_is_silent example_runtime
              (world_of (new_SWLog 1 initial_world)) 1 SWLog_zero SWLog_zero
              "/tmp/other.log" logrus.DebugLevel env_ok example_stack "main.go:7" "main"
              [VString "x"])
    as (w1 & Hinit & Hlog & Hfatal);
    try reflexivity; [discriminate | now left |].
  exists w1. split; [exact Hinit |]. split.
  - apply (Hlog logrus.InfoLevel); [| reflexivity].
    unfold logrus.ErrorLevel, logrus.InfoLevel. lia.
  - exact (Hfatal eq_refl).
Defined.

(** ** The caller block of the wrappers *)
Lemma list_ascii_of_string_append (a b : string) :
  list_ascii_of_string (a +:+ b) = (list_ascii_of_string a ++ list_ascii_of_string b)%list.
Proof. induction a as [|c a IH]; cbn; [reflexivity | now rewrite IH]. Qed.

Lemma string_of_list_ascii_app (x y : list ascii) :
  string_of_list_ascii (x ++ y) = string_of_list_ascii x +:+ string_of_list_ascii y.
Proof. induction x as [|c x IH]; cbn; [reflexivity | now rewrite IH]. Qed.

Lemma to_rev_append (a b : string) :
  filepath.to_rev (a +:+ b) = (filepath.to_rev b ++ filepath.to_rev a)%list.
Proof. unfold filepath.to_rev. now rewrite list_ascii_of_string_append, rev_app_distr. Qed.

Lemma of_rev_to_rev (s : string) : filepath.of_rev (filepath.to_rev s) = s.
Proof.
  unfold filepath.of_rev, filepath.to_rev.
  now rewrite rev_involutive, string_of_list_ascii_of_string.
Qed.

Lemma of_rev_app (x y : list ascii) :
  filepath.of_rev (x ++ y) = filepath.of_rev y +:+ filepath.of_rev x.
Proof. unfold filepath.of_rev. now rewrite rev_app_distr, string_of_list_ascii_app. Qed.

Lemma free_of_to_rev (c : ascii) (s : string) :
  strings.has_byte c s = false -> free_of c (filepath.to_rev s).
Proof.
  unfold free_of, filepath.to_rev. intros Hs. apply Forall_rev.
  induction s as [|d s IH]; cbn in *; [constructor |].
  apply orb_false_elim in Hs as [Hd Hs].
  constructor; [| exact (IH Hs)].
  now rewrite Ascii.eqb_sym.
Qed.

Lemma has_byte_of_list (c : ascii) (x : list ascii) :
  free_of c x -> strings.has_byte c (string_of_list_ascii x) = false.
Proof.
  induction 1 as [|d x Hd _ IH]; cbn; [reflexivity |].
  now rewrite Ascii.eqb_sym, Hd, IH.
Qed.

Lemma rev_last_element_app (x r : list ascii) :
  free_of filepath.sep x ->
  filepath.rev_last_element (x ++ filepath.sep :: r) = x.
Proof.
  induction 1 as [|d x Hd _ IH]; cbn.
  - reflexivity.
  - now rewrite Hd, IH.
Qed.

Lemma rev_last_element_all (x : list ascii) :
  free_of filepath.sep x -> filepath.rev_last_element x = x.
Proof. induction 1 as [|d x Hd _ IH]; cbn; [reflexivity | now rewrite Hd, IH]. Qed.

Lemma rev_up_to_sep_app (x r : list ascii) :
  free_of filepath.sep x ->
  filepath.rev_up_to_sep (x ++ filepath.sep :: r) = filepath.sep :: r.
Proof. induction 1 as [|d x Hd _ IH]; cbn; [reflexivity | now rewrite Hd]. Qed.

Lemma strip_sep_free (x r : list ascii) :
  x <> [] -> free_of filepath.sep x -> filepath.strip_sep (x ++ r) = (x ++ r)%list.
Proof.
  intros Hne Hx. destruct Hx as [|d x Hd _]; [contradiction |].
  cbn. now rewrite Hd.
Qed.

Lemma to_rev_nonempty (s : string) : s <> "" -> filepath.to_rev s <> [].
Proof.
  intros Hne Hr. apply Hne. rewrite <- (of_rev_to_rev s), Hr. reflexivity.
Qed.

(** [filepath.Split] and [filepath.Base] on [parent/dir/file]. *)
Lemma Split_parent_dir_file (parent dir file : string) :
  strings.has_byte "/"%char file = false ->
  filepath.Split (parent +:+ "/" +:+ dir +:+ "/" +:+ file)
  = (parent +:+ "/" +:+ dir +:+ "/", file).
Proof.
  intros Hfile. unfold filepath.Split.
  replace (parent +:+ "/" +:+ dir +:+ "/" +:+ file)
    with ((parent +:+ "/" +:+ dir) +:+ String "/" file)
    by (now rewrite !append_assoc).
  rewrite to_rev_append.
  change (filepath.to_rev (String "/" file))
    with (rev (list_ascii_of_string file) ++ [filepath.sep])%list.
  fold (filepath.to_rev file). rewrite <- app_assoc. cbn [app].
  rewrite rev_last_element_app, rev_up_to_sep_app by now apply free_of_to_rev.
  rewrite of_rev_to_rev. f_equal.
  change (filepath.sep :: filepath.to_rev (parent +:+ "/" +:+ dir))
    with ([filepath.sep] ++ filepath.to_rev (parent +:+ "/" +:+ dir))%list.
  rewrite of_rev_app, of_rev_to_rev. now rewrite !append_assoc.
Qed.

Lemma Base_of_rev (path : string) (x : list ascii) :
  path <> "" -> x <> [] ->
  filepath.rev_last_element (filepath.strip_sep (filepath.to_rev path)) = x ->
  filepath.Base path = filepath.of_rev x.
Proof.
  intros Hne Hx Hr. unfold filepath.Base.
  destruct (String.eqb_spec path "") as [He | _]; [contradiction |].
  rewrite Hr. cbv zeta. destruct x; [contradiction | reflexivity].
Qed.

Lemma Base_file (file : string) :
  file <> "" -> strings.has_byte "/"%char file = false -> filepath.Base file = file.
Proof.
  intros Hne Hfile.
  pose proof (free_of_to_rev _ _ Hfile) as Hfree.
  pose proof (to_rev_nonempty _ Hne) as Hnil.
  rewrite (Base_of_rev file (filepath.to_rev file)); auto using of_rev_to_rev.
  rewrite <- (app_nil_r (filepath.to_rev file)) at 1.
  rewrite strip_sep_free, app_nil_r by assumption.
  now apply rev_last_element_all.
Qed.

Lemma Base_parent_dir (parent dir : string) :
  dir <> "" -> strings.has_byte "/"%char dir = false ->
  filepath.Base (parent +:+ "/" +:+ dir +:+ "/") = dir.
Proof.
  intros Hne Hdir.
  pose proof (free_of_to_rev _ _ Hdir) as Hfree.
  pose proof (to_rev_nonempty _ Hne) as Hnil.
  rewrite (Base_of_rev _ (filepath.to_rev dir)); auto using of_rev_to_rev.
  { destruct parent; discriminate. }
  replace (parent +:+ "/" +:+ dir +:+ "/")
    with ((parent +:+ String "/" dir) +:+ "/")
    by (rewrite !append_assoc; reflexivity).
  rewrite to_rev_append.
  change (filepath.to_rev "/") with [filepath.sep]. cbn [app filepath.strip_sep].
  change (Ascii.eqb filepath.sep filepath.sep) with true. cbv iota.
  rewrite to_rev_append.
  change (filepath.to_rev (String "/" dir))
    with (rev (list_ascii_of_string dir) ++ [filepath.sep])%list.
  fold (filepath.to_rev dir). rewrite <- app_assoc. cbn [app].
  rewrite strip_sep_free by assumption.
  now apply rev_last_element_app.
Qed.

(** [filepath.Ext]: nothing, or a dot and what follows the last dot of the
    last element. *)
Lemma rev_ext_shape (r acc : list ascii) :
  free_of "."%char acc -> free_of filepath.sep acc ->
  filepath.rev_ext r acc = []
  \/ exists rest : list ascii,
       filepath.rev_ext r acc = "."%char :: rest
       /\ free_of "."%char rest /\ free_of filepath.sep rest.
Proof.
  revert acc. induction r as [|c r IH]; intros acc Hdot Hsep; cbn; [now left |].
  destruct (Ascii.eqb c filepath.sep) eqn:Es; [now left |].
  destruct (Ascii.eqb c ".") eqn:Ed.
  - right. exists acc. apply Ascii.eqb_eq in Ed. subst c. auto.
  - apply IH; constructor; assumption.
Qed.

Lemma rev_ext_app (x r : list ascii) :
  free_of "."%char x -> free_of filepath.sep x ->
  forall acc : list ascii,
    filepath.rev_ext (x ++ "."%char :: r) acc = ("."%char :: rev x ++ acc)%list.
Proof.
  intros Hdot. induction Hdot as [|d x Hd _ IH]; intros Hsep acc.
  - reflexivity.
  - inversion Hsep as [|? ? Hs Hsep']; subst.
    cbn [app filepath.rev_ext]. rewrite Hs, Hd, IH by assumption.
    cbn [rev]. now rewrite <- app_assoc.
Qed.

Lemma TrimPrefix_dot (s : string) : strings.TrimPrefix (String "." s) "." = s.
Proof.
  unfold strings.TrimPrefix. cbn [strings.HasPrefix].
  change (Ascii.eqb "." ".") with true. cbn [andb].
  destruct s; reflexivity.
Qed.

(** X19.  The function name the wrappers pass to [Log] contains neither a dot
    nor a slash, whatever [runtime.Caller] and [FuncForPC] report. *)
Theorem callerInfo_function_name_is_short (skip : nat) (stack : CallStack) :
  strings.has_byte "."%char (snd (callerInfo skip stack)) = false
  /\ strings.has_byte "/"%char (snd (callerInfo skip stack)) = false.
Proof.
  unfold callerInfo. destruct (stack skip) as [fr|]; [| split; reflexivity].
  destruct (filepath.Split (Frame_file fr)) as [dir filename]. cbn [snd].
  unfold filepath.Ext.
  destruct (rev_ext_shape (filepath.to_rev (Frame_func fr)) []
              ltac:(constructor) ltac:(constructor))
    as [-> | (rest & -> & Hdot & Hsep)].
  - split; reflexivity.
  - cbn [string_of_list_ascii]. rewrite TrimPrefix_dot.
    split; now apply has_byte_of_list.
Qed.

(** The site label and the function name for a frame [pkg.name] in
    [parent/dir/file]. *)
Lemma callerInfo_site_and_function (skip : nat) (stack : CallStack)
  (pkg name parent dir file : string) (line : Z) :
  stack skip
  = Some {| Frame_func := pkg +:+ "." +:+ name;
            Frame_file := parent +:+ "/" +:+ dir +:+ "/" +:+ file;
            Frame_line := line |} ->
  strings.has_byte "."%char name = false ->
  strings.has_byte "/"%char name = false ->
  dir <> "" -> strings.has_byte "/"%char dir = false ->
  file <> "" -> strings.has_byte "/"%char file = false ->
  callerInfo skip stack
  = (dir +:+ "/" +:+ file +:+ ":" +:+ strconv.FormatInt line, name).
Proof.
  intros Hframe Hnd Hns Hd Hds Hf Hfs.
  unfold callerInfo. rewrite Hframe. cbn [Frame_func Frame_file Frame_line].
  rewrite (Split_parent_dir_file parent dir file Hfs).
  rewrite (Base_parent_dir parent dir Hd Hds), (Base_file file Hf Hfs).
  f_equal. unfold filepath.Ext.
  change (pkg +:+ "." +:+ name) with (pkg +:+ String "." name).
  rewrite to_rev_append.
  change (filepath.to_rev (String "." name))
    with (rev (list_ascii_of_string name) ++ ["."%char])%list.
  fold (filepath.to_rev name). rewrite <- app_assoc. cbn [app].
  rewrite rev_ext_app by now apply free_of_to_rev.
  rewrite app_nil_r. cbn [string_of_list_ascii]. rewrite TrimPrefix_dot.
  apply of_rev_to_rev.
Qed.

(** X20.  For a caller [pkg.name] in the file [parent/dir/file] at [line], where
    [name] has no dot or slash and [dir] and [file] are non-empty and
    slash-free, each wrapper ([Debug] to [Panic], [Debugf] to [Panicf])
    calls [Log] or [Logf] with the site [dir/file:line] and the function
    [name]: the package path and everything above the last directory are
    dropped. *)
Theorem wrappers_report_call_site {RT : GoRuntime} (w : World) (p : addr) (l : SWLog)
  (level : logrus.Level) (format : string) (args : list Value) (stack : CallStack)
  (pkg name parent dir file : string) (line : Z) :
  swlogs w !! p = Some l ->
  stack (skip l)
  = Some {| Frame_func := pkg +:+ "." +:+ name;
            Frame_file := parent +:+ "/" +:+ dir +:+ "/" +:+ file;
            Frame_line := line |} ->
  strings.has_byte "."%char name = false ->
  strings.has_byte "/"%char name = false ->
  dir <> "" -> strings.has_byte "/"%char dir = false ->
  file <> "" -> strings.has_byte "/"%char file = false ->
  leveled level p args stack w
  = Log p level (dir +:+ "/" +:+ file +:+ ":" +:+ strconv.FormatInt line) name args w
  /\ leveledf level p format args stack w
     = Logf p level format (dir +:+ "/" +:+ file +:+ ":" +:+ strconv.FormatInt line)
         name args w.
Proof.
  intros Hl Hframe Hnd Hns Hd Hds Hf Hfs.
  unfold leveled, leveledf, bind, load_swlog. rewrite Hl.
  rewrite (callerInfo_site_and_function (skip l) stack pkg name parent dir file line)
    by assumption.
  split; reflexivity.
Qed.

Lemma wrappers_report_call_site_witness :
  Warn (RT := example_runtime) SWLogger [VString "x"] example_stack example_world
  = Log (RT := example_runtime) SWLogger logrus.WarnLevel
      "examples/example_log_test.go:23" "ExampleSWLog_Debug" [VString "x"] example_world
  /\ Warnf (RT := example_runtime) SWLogger "x" [] example_stack example_world
     = Logf (RT := example_runtime) SWLogger logrus.WarnLevel "x"
         "examples/example_log_test.go:23" "ExampleSWLog_Debug" [] example_world.
Proof.
  apply (wrappers_report_call_site (RT := example_runtime) example_world SWLogger
           example_SWLogger logrus.WarnLevel "x" [VString "x"] example_stack
           "github.com/edony-ink/log_test" "ExampleSWLog_Debug" "/src/log" "examples"
           "example_log_test.go" 23%Z);
    try reflexivity; discriminate.
Defined.

(** X21.  A key of [LevelFromStr] maps to one of the six severities and is a
    prefix of the level column [Format] prints for that severity.  For every
    severity but [Warn] the column is the key padded to seven bytes; for
    [Warn] the column is [WARNING], which is no key of the table, so that
    indexing the table with it gives the zero value, [PanicLevel]. *)
Theorem LevelFromStr_names_the_printed_level (name : string) (l : logrus.Level) :
  map_lookup LevelFromStr name = Some l ->
  In l severities
  /\ strings.HasPrefix (level_token l) name = true
  /\ LevelFromStr_index name = l
  /\ (l <> WarnLevel -> level_token l = name +:+ spaces (7 - String.length name))
  /\ (l = WarnLevel -> map_lookup LevelFromStr (level_token l) = None
                       /\ LevelFromStr_index (level_token l) = PanicLevel).
Proof.
  intros Hname. unfold LevelFromStr_index. rewrite Hname.
  unfold LevelFromStr, map_lookup in Hname.
  repeat match type of Hname with
         | (if String.eqb ?k name then _ else _) = _ =>
             destruct (String.eqb_spec k name) as [<- | _];
             [injection Hname as <-; vm_compute; intuition congruence |]
         end.
  discriminate Hname.
Qed.

Lemma LevelFromStr_names_the_printed_level_witness :
  LevelFromStr_index "ERROR" = ErrorLevel /\ level_token ErrorLevel = "ERROR  ".
Proof.
  destruct (LevelFromStr_names_the_printed_level "ERROR" ErrorLevel eq_refl)
    as (_ & _ & Hindex & Hcolumn & _).
  split; [exact Hindex |]. apply Hcolumn. discriminate.
Defined.

(** ** The raw flag raised before [Init] *)
Section raw_first.

Context {RT : GoRuntime}.

(** [Init] neither reads nor writes the raw flag, and installs a [*Formatter]
    on the console sink. *)
Lemma Init_keeps_raw (w : World) (p : addr) (l g : SWLog) (logFile : string)
  (level : logrus.Level) (log2STD : bool) (env : InitEnv) (stack : CallStack) :
  swlogs w !! p = Some l -> isSetup l = false ->
  swlogs w !! SWLogger = Some g ->
  String.eqb (effective_LogFile logFile l) "" = false ->
  (os_Stat env = StatOk \/ os_Stat env = StatError true \/ os_MkdirAll env = None) ->
  rotatelogs_New env = None ->
  exists (w' : World) (l' : SWLog) (Ls : Logger),
    Init p logFile level log2STD env stack w = Returns tt w'
    /\ output w' = output w
    /\ swlogs w' !! p = Some l'
    /\ isSetup l' = true
    /\ raw l' = raw l
    /\ STDLogger l' = Some (S (next w))
    /\ loggers w' !! S (next w) = Some Ls
    /\ Formatter Ls = Some (PtrFormatter Formatter.zero).
Proof.
  intros Hl Hset Hg Hpath Henv Hrot. unfold effective_LogFile in *.
  assert (Hn : S (next w) <> next w) by lia.
  assert (Hmk : os_Stat env = StatError false -> os_MkdirAll env = None).
  { intros Hst. destruct Henv as [Hs | [Hs | Hm]]; [congruence | congruence | exact Hm]. }
  destruct (os_Stat env) as [|[|]] eqn:Hstat; try specialize (Hmk eq_refl).
  all: destruct (Nat.eqb_spec p SWLogger) as [Hp | Hp];
         [subst p; assert (g = l) by congruence; subst g |].
  all: unfold Init.
  all: destruct (String.eqb logFile "") eqn:Harg; go_run.
  all: eexists _, _, _; split; [reflexivity |].
  all: split; [reflexivity | split; [go_run; reflexivity |]].
  all: do 3 (split; [reflexivity |]).
  all: split; [go_run; reflexivity | reflexivity].
Qed.

(** A raw instance whose console sink holds a [*Formatter] fails the type
    assertion of [formatterDecorator]. *)
Lemma Log_raw_mismatch (w : World) (p : addr) (l : SWLog) (s : addr) (Ls : Logger)
  (f : Formatter.t) (level : logrus.Level) (site func : string) (args : list Value) :
  swlogs w !! p = Some l -> isSetup l = true -> raw l = true ->
  STDLogger l = Some s -> loggers w !! s = Some Ls ->
  Formatter Ls = Some (PtrFormatter f) ->
  Log p level site func args w = Panics InterfaceConversion w.
Proof.
  intros Hl Hset Hraw Hs HLs Hfm.
  unfold Log, formatterDecorator, assign_STDFormatter. go_run. reflexivity.
Qed.

End raw_first.

(** X22.  [SetRawSTDLogging(true)] on an instance that has no console sink yet
    panics on the nil pointer but leaves the raw flag set.  [Init] on what
    it leaves succeeds, writing nothing; from then on every [Log] call, at
    any level, panics on the type assertion of [formatterDecorator], because
    the console sink holds a [*Formatter] while the flag asks for a
    [*STDFormatter]. *)
Theorem raw_before_Init_breaks_Log (RT : GoRuntime) (w : World) (p : addr)
  (l g : SWLog) (logFile : string) (threshold : logrus.Level) (log2STD : bool)
  (env : InitEnv) (stack : CallStack) :
  swlogs w !! p = Some l -> isSetup l = false -> STDLogger l = None ->
  swlogs w !! SWLogger = Some g ->
  String.eqb (effective_LogFile logFile l) "" = false ->
  (os_Stat env = StatOk \/ os_Stat env = StatError true \/ os_MkdirAll env = None) ->
  rotatelogs_New env = None ->
  exists w0 w1 : World,
    SetRawSTDLogging p true w = Panics NilDereference w0
    /\ Init p logFile threshold log2STD env stack w0 = Returns tt w1
    /\ output w1 = output w
    /\ forall (level : logrus.Level) (site func : string) (args : list Value),
         Log p level site func args w1 = Panics InterfaceConversion w1.
Proof.
  intros Hl Hset Hstd Hg Hpath Henv Hrot.
  set (w0 := with_swlogs (<[p := set_raw true l]> (swlogs w)) w).
  assert (Hl0 : swlogs w0 !! p = Some (set_raw true l)).
  { unfold w0. cbn. apply lookup_insert_eq. }
  assert (Hg0 : exists g0 : SWLog, swlogs w0 !! SWLogger = Some g0).
  { unfold w0. cbn. destruct (decide (p = SWLogger)) as [-> | Hp].
    - eexists. apply lookup_insert_eq.
    - exists g. now rewrite lookup_insert_ne. }
  destruct Hg0 as [g0 Hg0].
  destruct (Init_keeps_raw w0 p (set_raw true l) g0 logFile threshold log2STD env stack
              Hl0 Hset Hg0 Hpath Henv Hrot)
    as (w1 & l' & Ls & HInit & Hout & Hl' & Hset' & Hraw' & Hstd' & HLs & Hfm).
  exists w0, w1. split.
  { unfold SetRawSTDLogging. go_run. reflexivity. }
  split; [exact HInit |]. split; [exact Hout |].
  intros level site func args.
  exact (Log_raw_mismatch w1 p l' _ Ls _ level site func args
           Hl' Hset' Hraw' Hstd' HLs Hfm).
Qed.

Lemma raw_before_Init_breaks_Log_witness :
  exists w0 w1 : World,
    SetRawSTDLogging SWLogger true initial_world = Panics NilDereference w0
    /\ Init (RT := example_runtime) SWLogger "/tmp/test.log" logrus.DebugLevel true env_ok
         example_stack w0
       = Returns tt w1
    /\ output w1 = []
    /\ Log (RT := example_runtime) SWLogger logrus.InfoLevel "main.go:7" "main"
         [VString "x"] w1
       = Panics InterfaceConversion w1.
Proof.
  destruct (raw_before_Init_breaks_Log example_runtime initial_world SWLogger SWLog_zero
              SWLog_zero "/tmp/test.log" logrus.DebugLevel true env_ok example_stack
              eq_refl eq_refl eq_refl eq_refl eq_refl (or_introl eq_refl) eq_refl)
    as (w0 & w1 & Hraw & Hinit & Hout & Hlog).
  exists w0, w1. split; [exact Hraw |]. split; [exact Hinit |].
  split; [exact Hout |]. apply Hlog.
Defined.

(** ** The lines of a call with the default template *)

(** X23.  On an instance that is set up and whose two formatters have an empty
    [LogFormat] and an empty [TimestampFormat], as [Init] leaves them, a
    call at a level from [Error] down that the threshold and the sinks let through
    returns after writing the default line
    [date clock|LEVEL|func(site)|message]: first to the console sink if echo
    is on, then to the file sink.  Each sink reads the clock for itself, the
    console sink first. *)
Theorem Log_writes_default_lines (RT : GoRuntime) (w : World) (p : addr) (l : SWLog)
  (s f : addr) (Ls Lf : Logger) (outS outF : Writer) (fS fF : Formatter.t)
  (level : logrus.Level) (site func : string) (args : list Value) :
  Setup w p l s f Ls Lf outS outF (PtrFormatter fS) fF ->
  Formatter.LogFormat fS = "" -> Formatter.TimestampFormat fS = "" ->
  Formatter.LogFormat fF = "" -> Formatter.TimestampFormat fF = "" ->
  (logrus.ErrorLevel <= level)%N ->
  isLevelEnabled l level = true ->
  (IsLog2STD l = true -> uint32_ge (Level Ls) (method_level level) = true) ->
  uint32_ge (Level Lf) (method_level level) = true ->
  exists w' : World,
    Log p level site func args w = Returns tt w'
    /\ output w'
       = (output w
            ++ (if IsLog2STD l
                then [SinkWrite s outS (default_line (ticks w) level site func args)]
                else [])
            ++ [SinkWrite f outF
                  (default_line (ticks w + (if IsLog2STD l then 1 else 0)) level
                     site func args)])%list.
Proof.
  intros HS HfS HtS HfF HtF Hle Hen HLs HLf.
  rewrite (Log_closed _ _ _ _ _ _ _ _ _ _ _ level site func args HS). cbv zeta.
  rewrite Hen, (finish_returns level args _ Hle).
  assert (Hnt : (level <=? logrus.FatalLevel)%N = false).
  { apply N.leb_gt. unfold logrus.ErrorLevel, logrus.FatalLevel in *. lia. }
  eexists. split; [reflexivity |].
  cbn [logged output decorated with_loggers]. f_equal.
  unfold console_events, file_events, sink_event, Logger_render, decorate.
  rewrite Hnt, HLf, !Format_substituted.
  cbn [entry_at logrus.Entry.Data Formatter.replace_fields].
  rewrite !substituted_default by assumption.
  destruct (IsLog2STD l); [rewrite (HLs eq_refl) |]; reflexivity.
Qed.

Lemma Log_writes_default_lines_witness :
  exists w' : World,
    Log (RT := example_runtime) SWLogger logrus.InfoLevel "main.go:7" "main"
      [VString "x"] example_world
    = Returns tt w'
    /\ output w'
       = [SinkWrite 1 Stderr
            (list_byte_of_string
               ("2021-03-09 10:16:18.000|INFO   |main(main.go:7)|x" +:+ newline));
          SinkWrite 0 (RotateLogs "/tmp/test.log.%Y-%m-%d" "/tmp/test.log")
            (list_byte_of_string
               ("2021-03-09 10:16:18.000|INFO   |main(main.go:7)|x" +:+ newline))].
Proof.
  apply (Log_writes_default_lines example_runtime example_world SWLogger
           example_SWLogger 1 0 example_console example_file Stderr
           (RotateLogs "/tmp/test.log.%Y-%m-%d" "/tmp/test.log") Formatter.zero Formatter.zero
           logrus.InfoLevel "main.go:7" "main" [VString "x"] example_world_Setup);
    try reflexivity.
  unfold logrus.ErrorLevel, logrus.InfoLevel. lia.
Defined.
